(** * FDA Adverse Event Intelligence dashboard (madison_app.py)

    A shallow embedding of the request / normalise / store / render pipeline
    of [madison_app.py], and the properties of its specification.

    Conventions of the embedding.
    - Python values that travel through the script (decoded JSON, the
      dictionaries returned by [trigger_workflow]) are terms of [value];
      Python integers are [Z]; Python floats are the binary64 numbers of
      [float]; a Python string is a [string] that holds the bytes of its
      UTF-8 encoding, one [ascii] per byte.
    - An expression that may raise is a [result]: [Return v] or [Raise e].
      [except Exception] catches every exception whose class derives from
      [Exception] and nothing else.
    - Calls into libraries are parameters: the network and the clock are a
      [world], the JSON text codec and the part of the pandas constructor
      that is not modelled are a [library].
    - What the script prints is a list of [ui_event]. *)

From Stdlib Require Import ZArith List String Ascii Bool Lia QArith DecimalString.
From Stdlib Require Import Sorting.Permutation Sorting.Sorted.
From Stdlib Require Import DecimalFacts DecimalPos DecimalN DecimalZ.
From Stdlib Require Import Floats.
From stdpp Require Import gmap strings.
Import ListNotations.

Local Open Scope string_scope.
Local Open Scope Z_scope.

(* ===================================================================== *)
(** * Python strings *)
(* ===================================================================== *)

Module PyStr.

(** [str(n)] for an integer. *)
Definition of_Z (z : Z) : string := NilZero.string_of_int (Z.to_int z).

(** ** Characters *)

(** The bytes of the character of code point [c]: one byte below 128;
    otherwise a lead byte, 192 or more, and one to three continuation
    bytes, from 128 to 191. *)
Definition utf8 (c : N) : string :=
  (if c <? 128 then String (ascii_of_N c) ""
   else if c <? 2048 then
     String (ascii_of_N (192 + c / 64))
       (String (ascii_of_N (128 + c mod 64)) "")
   else if c <? 65536 then
     String (ascii_of_N (224 + c / 4096))
       (String (ascii_of_N (128 + (c / 64) mod 64))
          (String (ascii_of_N (128 + c mod 64)) ""))
   else
     String (ascii_of_N (240 + c / 262144))
       (String (ascii_of_N (128 + (c / 4096) mod 64))
          (String (ascii_of_N (128 + (c / 64) mod 64))
             (String (ascii_of_N (128 + c mod 64)) ""))))%N.

(** A byte that continues a character. *)
Definition is_continuation (c : ascii) : bool :=
  let n := nat_of_ascii c in ((128 <=? n) && (n <? 192))%nat.

(** [len(s)]: the number of characters, one per byte that is not a
    continuation byte. *)
Fixpoint len (s : string) : nat :=
  match s with
  | EmptyString => O
  | String c s' => if is_continuation c then len s' else S (len s')
  end.

(** [s[:n]]: the first [n] characters, each with its continuation
    bytes. *)
Fixpoint take (n : nat) (s : string) : string :=
  match s with
  | EmptyString => ""
  | String c s' =>
      if is_continuation c then String c (take n s')
      else match n with
           | O => ""
           | S n' => String c (take n' s')
           end
  end.

(** ** White space *)

(** The code points of the characters Python counts as white space, which
    [str.strip()] removes: tab to carriage return, the four separators,
    the space, next line, the no-break space, the Ogham space mark, the
    spaces from en quad to hair space, the line and paragraph separators,
    the narrow no-break space, the medium mathematical space and the
    ideographic space. *)
Definition SPACES : list N :=
  [0x09; 0x0A; 0x0B; 0x0C; 0x0D; 0x1C; 0x1D; 0x1E; 0x1F; 0x20; 0x85; 0xA0;
   0x1680; 0x2000; 0x2001; 0x2002; 0x2003; 0x2004; 0x2005; 0x2006; 0x2007;
   0x2008; 0x2009; 0x200A; 0x2028; 0x2029; 0x202F; 0x205F; 0x3000]%N.

(** Their bytes. *)
Definition WHITESPACE : list string := map utf8 SPACES.

(** The bytes [w] are those of a white-space character. *)
Definition is_space (w : string) : bool := existsb (String.eqb w) WHITESPACE.

(** [s.lstrip()]. A white-space character has one, two or three bytes. *)
Fixpoint lstrip (s : string) : string :=
  match s with
  | EmptyString => ""
  | String a r1 =>
      if is_space (String a "") then lstrip r1
      else
        match r1 with
        | EmptyString => s
        | String b r2 =>
            if is_space (String a (String b "")) then lstrip r2
            else
              match r2 with
              | EmptyString => s
              | String c r3 =>
                  if is_space (String a (String b (String c "")))
                  then lstrip r3 else s
              end
        end
  end.

Definition is_empty (s : string) : bool :=
  match s with EmptyString => true | _ => false end.

(** [s.rstrip()]: the text is cut where what follows is white space
    only. *)
Fixpoint rstrip (s : string) : string :=
  match s with
  | EmptyString => ""
  | String c s' => if is_empty (lstrip s) then "" else String c (rstrip s')
  end.

(** [s.rstrip('/')] when [p] tests for the slash, a character of one
    byte. *)
Fixpoint rstrip_by (p : ascii -> bool) (s : string) : string :=
  match s with
  | EmptyString => ""
  | String c s' =>
      match rstrip_by p s' with
      | EmptyString => if p c then "" else String c ""
      | r => String c r
      end
  end.

(** [s.strip()] *)
Definition strip (s : string) : string := lstrip (rstrip s).

(** Every byte of [s] satisfies [p]. *)
Fixpoint all (p : ascii -> bool) (s : string) : bool :=
  match s with
  | EmptyString => true
  | String c s' => p c && all p s'
  end.

(** ** Lower case *)

(** [s.lower()], exact on the characters below 256 (the letters A-Z, and
    the accented capitals from 192 to 222, the multiplication sign apart,
    move 32 places up) and on the two characters whose lower case holds a
    character below 128: the dotted capital I (304), which gives "i" and a
    combining dot, and the Kelvin sign (8490), which gives "k". The other
    characters are left as they are; their lower case has no character
    below 128. *)
Fixpoint lower (s : string) : string :=
  match s with
  | EmptyString => ""
  | String a r1 =>
      let n := nat_of_ascii a in
      if ((65 <=? n) && (n <=? 90))%nat
      then String (ascii_of_nat (n + 32)) (lower r1)
      else
        match r1 with
        | EmptyString => String a ""
        | String b r2 =>
            let m := nat_of_ascii b in
            if ((n =? 195) && (128 <=? m) && (m <=? 158) && negb (m =? 151))%nat
            then String a (String (ascii_of_nat (m + 32)) (lower r2))
            else if ((n =? 196) && (m =? 176))%nat
            then String "i" (String "204" (String "135" (lower r2)))
            else
              match r2 with
              | EmptyString => String a (lower r1)
              | String c r3 =>
                  if ((n =? 226) && (m =? 132) && (nat_of_ascii c =? 170))%nat
                  then String "k" (lower r3)
                  else String a (lower r1)
              end
        end
  end.

Fixpoint startswith (p s : string) : bool :=
  match p, s with
  | EmptyString, _ => true
  | String _ _, EmptyString => false
  | String a p', String b s' => Ascii.eqb a b && startswith p' s'
  end.

(** [needle in hay] *)
Fixpoint contains (needle hay : string) : bool :=
  startswith needle hay ||
  match hay with
  | EmptyString => false
  | String _ hay' => contains needle hay'
  end.

(** ** Texts, as the properties below speak of them *)

(** A text made of white-space characters only. *)
Inductive white : string -> Prop :=
| white_nil : white ""
| white_app (w s : string) : In w WHITESPACE -> white s -> white (w ++ s).

(** A text that is empty or starts with the first byte of a character. *)
Definition starts_char (s : string) : Prop :=
  match s with
  | EmptyString => True
  | String c _ => is_continuation c = false
  end.

End PyStr.

(* ===================================================================== *)
(** * Python values and exceptions *)
(* ===================================================================== *)

(** The objects [json.loads] and [response.json()] produce, which are also
    the objects stored in the cells of a table. A [VDict] keeps its items in
    insertion order. *)
#[warnings="-register-all"]
Inductive value : Type :=
| VNone
| VBool (b : bool)
| VInt (n : Z)
| VStr (s : string)
| VList (l : list value)
| VDict (items : list (string * value))
| VFloat (x : float).

(** The classes of exception the handlers of the script tell apart.
    [BaseOnly] stands for the classes that derive from [BaseException] but
    not from [Exception] ([KeyboardInterrupt], [SystemExit], ...). *)
Inductive exn_class : Type :=
| Timeout            (* requests.exceptions.Timeout *)
| ConnectionError    (* requests.exceptions.ConnectionError *)
| JSONDecodeError    (* json.JSONDecodeError *)
| ZeroDivisionError
| KeyError
| OtherException     (* any other subclass of Exception *)
| BaseOnly.

Record exn : Type := Exn { exn_type : exn_class; exn_str : string }.

(** [isinstance(e, Exception)] *)
Definition is_Exception (e : exn) : bool :=
  match exn_type e with
  | BaseOnly => false
  | _ => true
  end.

Inductive result (A : Type) : Type :=
| Return (a : A)
| Raise (e : exn).
Arguments Return {A} a.
Arguments Raise {A} e.

#[global] Instance result_ret : MRet result := fun A a => Return a.

#[global] Instance result_bind : MBind result := fun A B k r =>
  match r with
  | Return a => k a
  | Raise e => Raise e
  end.

(** [try: body except Exception as e: handler e] *)
Definition try_except_Exception {A} (body : result A) (handler : exn -> result A)
  : result A :=
  match body with
  | Return a => Return a
  | Raise e => if is_Exception e then handler e else Raise e
  end.

(** Truth value of an object, as [if x:] tests it. *)
Definition truthy (v : value) : bool :=
  match v with
  | VNone => false
  | VBool b => b
  | VInt n => negb (n =? 0)
  | VStr s => negb (PyStr.is_empty s)
  | VList l => match l with [] => false | _ => true end
  | VDict d => match d with [] => false | _ => true end
  | VFloat x => negb (PrimFloat.eqb x 0)
  end.

Definition is_dict (v : value) : bool :=
  match v with VDict _ => true | _ => false end.

Definition is_scalar (v : value) : bool :=
  match v with VList _ | VDict _ => false | _ => true end.

(** [d[k]] / [d.get(k)] on the items of a dict. *)
Fixpoint dict_get (k : string) (d : list (string * value)) : option value :=
  match d with
  | [] => None
  | (k', v) :: d' => if String.eqb k k' then Some v else dict_get k d'
  end.

(** [k in d] *)
Definition dict_has (k : string) (d : list (string * value)) : bool :=
  match dict_get k d with Some _ => true | None => false end.

(* ===================================================================== *)
(** * Tables (pandas DataFrame) *)
(* ===================================================================== *)

(** A column label: a string when the rows were mappings, a position when
    they were bare values. *)
Inductive label : Type :=
| LStr (s : string)
| LInt (n : Z).

Definition label_eqb (a b : label) : bool :=
  match a, b with
  | LStr s, LStr t => String.eqb s t
  | LInt n, LInt m => n =? m
  | _, _ => false
  end.

(** A table: its column labels and its rows, each row one cell per column.
    A cell without a value holds [VNone]: pandas holds [None] there, or NaN
    in a column of numbers; it does not tell the two apart when it tests
    for a missing value, and exports both as [null]. *)
Record frame : Type := Frame { columns : list label; rows : list (list value) }.

(** [len(df)] *)
Definition len (df : frame) : nat := length (rows df).

(** [name in df.columns] *)
Definition has_column (name : string) (df : frame) : bool :=
  existsb (label_eqb (LStr name)) (columns df).

Definition mem_string (k : string) (l : list string) : bool :=
  existsb (String.eqb k) l.

(** Keys in the order in which they first appear. *)
Fixpoint add_keys (seen ks : list string) : list string :=
  match ks with
  | [] => seen
  | k :: ks' =>
      if mem_string k seen then add_keys seen ks' else add_keys (seen ++ [k]) ks'
  end.

Definition union_keys (recs : list (list (string * value))) : list string :=
  fold_left (fun seen r => add_keys seen (map fst r)) recs [].

Definition cell_of (r : list (string * value)) (c : string) : value :=
  match dict_get c r with
  | Some v => v
  | None => VNone
  end.

(** [pd.DataFrame(recs)] for a list of mappings: the columns are the keys
    in order of first appearance, a key a row lacks gives a missing cell. *)
Definition frame_of_records (recs : list (list (string * value))) : frame :=
  let cols := union_keys recs in
  {| columns := map LStr cols;
     rows := map (fun r => map (cell_of r) cols) recs |}.

(** [pd.DataFrame(xs)] for a list of bare values: one column, labelled 0. *)
Definition frame_of_scalars (xs : list value) : frame :=
  {| columns := [LInt 0]; rows := map (fun x => [x]) xs |}.

Definition dict_items (v : value) : list (string * value) :=
  match v with VDict d => d | _ => [] end.

(** [str(label)] *)
Definition label_str (l : label) : string :=
  match l with
  | LStr s => s
  | LInt n => PyStr.of_Z n
  end.

(** The rows of a table as mappings, as [to_json(orient='records')] lists
    them: every row carries every column. *)
Definition to_records (df : frame) : list value :=
  map (fun r => VDict (combine (map label_str (columns df)) r)) (rows df).

(** The position of a label among the columns. *)
Fixpoint column_index (c : label) (cols : list label) : option nat :=
  match cols with
  | [] => None
  | c' :: t =>
      if label_eqb c c' then Some O
      else match column_index c t with
           | Some j => Some (S j)
           | None => None
           end
  end.

(** [df.iloc[i][c]]: the cell of row [i] in column [c]. *)
Definition cell (df : frame) (i : nat) (c : label) : option value :=
  match nth_error (rows df) i, column_index c (columns df) with
  | Some r, Some j => nth_error r j
  | _, _ => None
  end.

(* ===================================================================== *)
(** * Library calls *)
(* ===================================================================== *)

Record library : Type := {
  (** [json.loads] *)
  json_loads : string -> result value;
  (** the text [to_json(..., indent=2)] writes for a value *)
  json_dumps : value -> string;
  (** [pd.DataFrame(data)] where [data] is neither a list of mappings nor a
      list of bare values *)
  DataFrame_other : value -> result frame
}.

(** [pd.DataFrame(data)] *)
Definition DataFrame (lib : library) (data : value) : result frame :=
  match data with
  | VList l =>
      if forallb is_dict l then Return (frame_of_records (map dict_items l))
      else if forallb is_scalar l then Return (frame_of_scalars l)
      else DataFrame_other lib data
  | _ => DataFrame_other lib data
  end.

(** [df.to_json(orient='records', indent=2)] *)
Definition to_json (lib : library) (df : frame) : string :=
  json_dumps lib (VList (to_records df)).

(* ===================================================================== *)
(** * What the script shows *)
(* ===================================================================== *)

Inductive ui_event : Type :=
| UWrite (s : string)              (* st.write / st.markdown *)
| UWriteColumns (cols : list label) (* st.write("Columns:", list(df.columns)) *)
| UError (s : string)              (* st.error *)
| UErrorFmt (s : string) (v : value) (* st.error(f"s{v}") *)
| UProgress (n : Z)                (* prog.progress *)
| UStatus (s : string)             (* status.text *)
| UClear                           (* prog.empty / status.empty *)
| UCode (s : string)               (* st.code *)
| UJson (v : value)                (* st.json *)
| UDataframe (df : frame)          (* st.dataframe *)
| UInfo (s : string).              (* st.info *)

(* ===================================================================== *)
(** * Response Normalizer: [parse_response] *)
(* ===================================================================== *)

(** The body of the [try] block of [parse_response]. *)
Definition parse_response_body (lib : library) (data : value)
  : result (option frame * value) :=
  data ← match data with
         | VStr s => json_loads lib s
         | _ => Return data
         end;
  match data with
  | VDict d =>
      match dict_get "records" d with
      | Some recs =>
          df ← DataFrame lib recs;
          Return (Some df, default (VDict []) (dict_get "outputs" d))
      | None =>
          df ← DataFrame lib (VList [data]);
          Return (Some df, VDict [])
      end
  | VList _ =>
      df ← DataFrame lib data;
      Return (Some df, VDict [])
  | _ =>
      df ← DataFrame lib (VList [data]);
      Return (Some df, VDict [])
  end.

(** [parse_response(data)]: what it shows and what it returns. *)
Definition parse_response (lib : library) (data : value)
  : list ui_event * result (option frame * value) :=
  match parse_response_body lib data with
  | Return r => ([], Return r)
  | Raise e =>
      if is_Exception e
      then ([UError ("Parse error: " ++ exn_str e)], Return (None, VDict []))
      else ([], Raise e)
  end.

(* ===================================================================== *)
(** * Session state *)
(* ===================================================================== *)

(** [st.session_state]. [analyzing], [outputs] and [n8n_url] are keys that
    may be absent; [results] and [proc_time] are set when the script starts
    for the first time. *)
Record session_state : Type := {
  results : option frame;
  proc_time : Q;
  analyzing : option bool;
  outputs : option value;
  n8n_url : option string
}.

Definition initial_session : session_state :=
  {| results := None; proc_time := 0%Q; analyzing := None;
     outputs := None; n8n_url := None |}.

(* ===================================================================== *)
(** * Remote Trigger Client: [trigger_workflow] *)
(* ===================================================================== *)

Record request : Type := {
  req_url : string;
  req_json : list (string * value);
  req_headers : list (string * string);
  req_timeout : Z
}.

(** A response of [requests.post]: its status, its text, and what calling
    its [json()] method gives. *)
Record response : Type := {
  status_code : Z;
  text : string;
  response_json : result value
}.

(** The network and the clock. [time_start] and [time_end] are the two
    readings of [time.time()] of one run. *)
Record world : Type := {
  requests_post : request -> result response;
  time_start : Q;
  time_end : Q
}.

(** One call of [requests.post], as the trace of a run records it. *)
Inductive effect : Type :=
| Shown (u : ui_event)
| Posted (r : request).

Definition DEFAULT_N8N_URL : string :=
  "https://fda-adverse-event-intelligence.onrender.com".
Definition WEBHOOK_PATH : string :=
  "webhook/c4e3e139-affc-40e5-a550-11c1b30540fe".

Definition get_n8n_url (ss : session_state) : string :=
  let base_url :=
    PyStr.rstrip_by (Ascii.eqb "/") (default DEFAULT_N8N_URL (n8n_url ss)) in
  base_url ++ "/" ++ WEBHOOK_PATH.

(** [{"ok": False, "error": msg}] *)
Definition failed (msg : string) : gmap string value :=
  <["ok" := VBool false]> (<["error" := VStr msg]> ∅).

(** [{"ok": True, "data": data}] *)
Definition succeeded (data : value) : gmap string value :=
  <["ok" := VBool true]> (<["data" := data]> ∅).

(** [not response.text or response.text.strip() == ''] *)
Definition is_blank (s : string) : bool :=
  PyStr.is_empty s || PyStr.is_empty (PyStr.strip s).

(** The part of [trigger_workflow] that follows the call: the
    classification of a response. An exception of [response.json()] other
    than [JSONDecodeError] leaves the inner [try]. *)
Definition classify_response (r : response) : result (gmap string value) :=
  if status_code r =? 200 then
    if is_blank (text r) then
      Return (failed "n8n returned empty response")
    else
      match response_json r with
      | Return data => Return (succeeded data)
      | Raise e =>
          match exn_type e with
          | JSONDecodeError =>
              Return (failed ("Invalid JSON: " ++ PyStr.take 100 (exn_str e)))
          | _ => Raise e
          end
      end
  else
    Return (failed ("HTTP " ++ PyStr.of_Z (status_code r) ++ ": "
                    ++ PyStr.take 200 (text r))).

(** The call of lines 68-79: address, body, header and timeout. *)
Definition trigger_request (ss : session_state) (count : Z) : request :=
  let webhook_url := get_n8n_url ss in
  let payload := [("record_count", VInt count); ("triggered_by", VStr "streamlit")] in
  let timeout_seconds := Z.max 300 (count * 3) in
  {| req_url := webhook_url;
     req_json := payload;
     req_headers := [("Content-Type", "application/json")];
     req_timeout := timeout_seconds |}.

(** [trigger_workflow(count)]: the trace of the call and what it returns
    ([Raise e] when [e] leaves the function). *)
Definition trigger_workflow (w : world) (ss : session_state) (count : Z)
  : list effect * result (gmap string value) :=
  let req := trigger_request ss count in
  let webhook_url := req_url req in
  let timeout_seconds := req_timeout req in
  let trace := [Shown (UWrite ("🔗 Calling: " ++ webhook_url)); Posted req] in
  match requests_post w req ≫= classify_response with
  | Return d => (trace, Return d)
  | Raise e =>
      (trace,
       match exn_type e with
       | Timeout =>
           Return (failed ("Timeout after " ++ PyStr.of_Z timeout_seconds ++ "s"))
       | ConnectionError =>
           Return (failed ("Cannot connect to n8n at " ++ webhook_url))
       | BaseOnly => Raise e
       | _ => Return (failed (exn_str e))
       end)
  end.

(** The requests a trace records. *)
Fixpoint posted (trace : list effect) : list request :=
  match trace with
  | [] => []
  | Posted r :: t => r :: posted t
  | Shown _ :: t => posted t
  end.

(* ===================================================================== *)
(** * Session State Holder: one run of the script *)
(* ===================================================================== *)

(** The widgets of the sidebar, as one run reads them. *)
Record widgets : Type := {
  in_n8n_url : string;       (* st.text_input(..., key="n8n_url") *)
  records : Z;               (* st.number_input("Number of Records", ...) *)
  threshold : Z;             (* st.selectbox("Critical Threshold", ...) *)
  start_analysis : bool;     (* st.button("Start Analysis") *)
  new_analysis : bool        (* st.button("New Analysis") *)
}.

(** How a run of the script ends. [Rendering df] is the branch that draws
    the stored table [df]; it assigns nothing to the session state. *)
Inductive ending : Type :=
| Completed
| Rerun                (* st.rerun() *)
| Stopped              (* st.stop() *)
| Uncaught (e : exn)
| Rendering (df : frame).

Definition with_n8n_url (u : string) (ss : session_state) : session_state :=
  {| results := results ss; proc_time := proc_time ss; analyzing := analyzing ss;
     outputs := outputs ss; n8n_url := Some u |}.

Definition with_results (r : option frame) (ss : session_state) : session_state :=
  {| results := r; proc_time := proc_time ss; analyzing := analyzing ss;
     outputs := outputs ss; n8n_url := n8n_url ss |}.

Definition with_analyzing (b : bool) (ss : session_state) : session_state :=
  {| results := results ss; proc_time := proc_time ss; analyzing := Some b;
     outputs := outputs ss; n8n_url := n8n_url ss |}.

(** Lines 236-238: the three assignments of a successful run. *)
Definition store (t : Q) (df : frame) (outs : value) (ss : session_state)
  : session_state :=
  {| results := Some df; proc_time := t; analyzing := analyzing ss;
     outputs := Some outs; n8n_url := n8n_url ss |}.

(** The condition of line 200. *)
Definition analyzing_now (ss : session_state) : bool :=
  match analyzing ss, results ss with
  | Some true, None => true
  | _, _ => false
  end.

(** The three branches of the main content: lines 200, 255 and 650. *)
Inductive phase : Type := Idle | Analyzing | Done.

Definition phase_of (ss : session_state) : phase :=
  if analyzing_now ss then Analyzing
  else match results ss with
       | Some _ => Done
       | None => Idle
       end.

Definition key_error (k : string) : exn := Exn KeyError k.

Definition shown (us : list ui_event) : list effect := map Shown us.

(** Lines 241-244. *)
Definition no_data : list effect :=
  shown [UClear; UClear; UError "❌ No data"].

(** Lines 224-244: normalisation, validation and storage of the data of a
    successful call. *)
Definition handle_data (lib : library) (w : world) (data : value)
  (ss : session_state) : list effect * session_state * ending :=
  let '(shown_by_parse, parsed) := parse_response lib data in
  match parsed with
  | Raise e => (shown shown_by_parse, ss, Uncaught e)
  | Return (Some df, outs) =>
      if (0 <? len df)%nat then
        if negb (has_column "ai_severity_score" df) then
          ((shown shown_by_parse
              ++ shown [UError "⚠️ Missing AI analysis columns!";
                        UWriteColumns (columns df); UDataframe df])%list,
           ss, Stopped)
        else
          ((shown shown_by_parse
              ++ shown [UProgress 100; UStatus "✅ Complete!"])%list,
           store (time_end w - time_start w)%Q df outs ss, Rerun)
      else ((shown shown_by_parse ++ no_data)%list, ss, Completed)
  | Return (None, _) => ((shown shown_by_parse ++ no_data)%list, ss, Completed)
  end.

(** Lines 202-253: the branch taken while analyzing. *)
Definition analysis (lib : library) (w : world) (inp : widgets)
  (ss : session_state) : list effect * session_state * ending :=
  let before :=
    shown [UWrite "## 🔄 Processing..."; UProgress 0;
           UStatus "📡 Connecting to n8n..."; UProgress 10;
           UCode ("POST " ++ get_n8n_url ss);
           UJson (VDict [("record_count", VInt (records inp))])] in
  let '(trace, returned) := trigger_workflow w ss (records inp) in
  match returned with
  | Raise e => ((before ++ trace)%list, ss, Uncaught e)
  | Return result =>
      match result !! "ok" with
      | None => ((before ++ trace)%list, ss, Uncaught (key_error "ok"))
      | Some ok =>
          if truthy ok then
            match result !! "data" with
            | None =>
                ((before ++ trace
                    ++ shown [UProgress 60; UStatus "✅ Got response!"])%list,
                 ss, Uncaught (key_error "data"))
            | Some data =>
                let '(after, ss', e) := handle_data lib w data ss in
                ((before ++ trace
                    ++ shown [UProgress 60; UStatus "✅ Got response!"; UJson data]
                    ++ after)%list, ss', e)
            end
          else
            match result !! "error" with
            | None =>
                ((before ++ trace ++ shown [UClear; UClear])%list, ss,
                 Uncaught (key_error "error"))
            | Some err =>
                ((before ++ trace
                    ++ shown [UClear; UClear; UErrorFmt "❌ " err;
                              UWrite "**Troubleshooting:**";
                              UWrite "1. Make sure your n8n workflow is **published** (not just activated)";
                              UWrite "2. Check that the webhook URL is correct";
                              UWrite "3. Try with fewer records (5-10)"])%list,
                 ss, Completed)
            end
      end
  end.

(** One run of the script, from the sidebar to the main content. *)
Definition script (lib : library) (w : world) (inp : widgets)
  (ss : session_state) : list effect * session_state * ending :=
  let ss := with_n8n_url (in_n8n_url inp) ss in
  if start_analysis inp then
    ([], with_results None (with_analyzing true ss), Rerun)
  else if match results ss with Some _ => new_analysis inp | None => false end then
    ([], with_results None ss, Rerun)
  else if analyzing_now ss then analysis lib w inp ss
  else match results ss with
       | Some df => ([], ss, Rendering df)
       | None =>
           (shown [UInfo "👈 Configure settings → Click 'Start Analysis'"],
            ss, Completed)
       end.

(** The session state a run leaves behind. *)
Definition after_run (lib : library) (w : world) (inp : widgets)
  (ss : session_state) : session_state :=
  snd (fst (script lib w inp ss)).

(** The session states the script can be in. *)
Inductive reachable (lib : library) : session_state -> Prop :=
| reachable_initial : reachable lib initial_session
| reachable_run w inp ss :
    reachable lib ss -> reachable lib (after_run lib w inp ss).

(* ===================================================================== *)
(** * Presentation Renderer *)
(* ===================================================================== *)

(** The renderer reads the columns of the stored table at the types of the
    data model: [source], [ai_category] and [ai_urgency] are text,
    [ai_severity_score] is an integer. *)

(** ** Counting *)

(** [sum(1 for x in xs if p(x))] *)
Definition count_if {A} (p : A -> bool) (xs : list A) : nat :=
  length (List.filter p xs).

Section Series.

Context {A : Type} (eqb : A -> A -> bool).

Fixpoint bump (x : A) (acc : list (A * nat)) : list (A * nat) :=
  match acc with
  | [] => [(x, 1%nat)]
  | (y, c) :: acc' =>
      if eqb x y then (y, S c) :: acc' else (y, c) :: bump x acc'
  end.

(** One entry per distinct value, in order of first appearance. *)
Definition tally (xs : list A) : list (A * nat) :=
  fold_left (fun acc x => bump x acc) xs [].

Fixpoint insert_by_count (e : A * nat) (s : list (A * nat)) : list (A * nat) :=
  match s with
  | [] => [e]
  | h :: t =>
      if (snd e <? snd h)%nat then h :: insert_by_count e t else e :: h :: t
  end.

(** [Series.value_counts()]: the number of rows per distinct value, the
    most frequent first. *)
Definition value_counts (xs : list A) : list (A * nat) :=
  fold_right insert_by_count [] (tally xs).

(** The first entry that holds the largest count. *)
Fixpoint first_max (best : A * nat) (s : list (A * nat)) : A * nat :=
  match s with
  | [] => best
  | h :: t =>
      if (snd best <? snd h)%nat then first_max h t else first_max best t
  end.

(** [(s.idxmax(), s.max())]; [idxmax] raises on an empty series. *)
Definition idxmax_max (s : list (A * nat)) : result (A * nat) :=
  match s with
  | [] => Raise (Exn OtherException "attempt to get argmax of an empty sequence")
  | h :: t => Return (first_max h t)
  end.

End Series.

Fixpoint insert_by_index (e : Z * nat) (s : list (Z * nat)) : list (Z * nat) :=
  match s with
  | [] => [e]
  | h :: t =>
      if fst e <=? fst h then e :: h :: t else h :: insert_by_index e t
  end.

(** [Series.sort_index()] *)
Definition sort_index (s : list (Z * nat)) : list (Z * nat) :=
  fold_right insert_by_index [] s.

(** [s.get(v, 0)]: the count a series holds for [v]. *)
Fixpoint count_of (v : Z) (s : list (Z * nat)) : nat :=
  match s with
  | [] => O
  | (k, c) :: t => if v =? k then c else count_of v t
  end.

(** ** Source mix (lines 264-267) *)

Definition in_cadec (s : string) : bool :=
  PyStr.contains "cadec" (PyStr.lower s).

Definition in_fda (s : string) : bool :=
  PyStr.contains "fda" (PyStr.lower s)
  || PyStr.contains "medwatch" (PyStr.lower s).

Definition in_pubmed (s : string) : bool := String.eqb s "pubmed".

Definition cadec_count (source : list string) : nat := count_if in_cadec source.
Definition fda_count (source : list string) : nat := count_if in_fda source.
Definition pubmed_count (source : list string) : nat := count_if in_pubmed source.

(** ** Critical and urgent sets (lines 361-362) *)

Definition critical (threshold : Z) (ai_severity_score : list Z) : list Z :=
  List.filter (fun x => threshold <=? x) ai_severity_score.

Definition urgent (ai_urgency : list string) : list string :=
  List.filter (fun u => String.eqb u "urgent" || String.eqb u "immediate") ai_urgency.

(** ** Severity chart (lines 510-515) *)

(** [df['ai_severity_score'].value_counts().sort_index()] *)
Definition severity_distribution (ai_severity_score : list Z) : list (Z * nat) :=
  sort_index (value_counts Z.eqb ai_severity_score).

(** The caption "Most common: Severity {s.idxmax()} ({s.max()} cases)". *)
Definition most_common (ai_severity_score : list Z) : result (Z * nat) :=
  idxmax_max (severity_distribution ai_severity_score).

(** ** Figures of the summary *)

Definition Q_of_nat (n : nat) : Q := inject_Z (Z.of_nat n).

(** [a / b], which raises when [b] is zero. *)
Definition py_div (a b : Q) : result Q :=
  if Qeq_bool b 0 then Raise (Exn ZeroDivisionError "division by zero")
  else Return (a / b)%Q.

(** Line 258: [proc_time / len(df) if len(df) > 0 else 0]. *)
Definition per_rec (ss : session_state) (df : frame) : result Q :=
  if (0 <? len df)%nat then py_div (proc_time ss) (Q_of_nat (len df))
  else Return 0%Q.

(** [count/len(df)*100] *)
Definition percent (count : nat) (df : frame) : result Q :=
  q ← py_div (Q_of_nat count) (Q_of_nat (len df));
  Return (q * 100)%Q.

Fixpoint percents {A} (counts : list (A * nat)) (df : frame)
  : result (list (A * Q)) :=
  match counts with
  | [] => Return []
  | (k, c) :: rest =>
      p ← percent c df;
      ps ← percents rest df;
      Return ((k, p) :: ps)
  end.

(** The quotients by [len(df)] of the renderer: the speed (line 258), the
    critical and urgent shares (lines 566-567), the shares of the three
    sources (lines 578-584) and of each category and urgency level
    (lines 591 and 597). *)
Record figures : Type := {
  speed : Q;
  critical_share : Q;
  urgent_share : Q;
  cadec_share : Q;
  fda_share : Q;
  pubmed_share : Q;
  category_shares : list (string * Q);
  urgency_shares : list (string * Q)
}.

Definition summary_figures (ss : session_state) (df : frame) (threshold : Z)
  (source : list string) (ai_severity_score : list Z)
  (ai_category ai_urgency : list string) : result figures :=
  sp ← per_rec ss df;
  cr ← percent (length (critical threshold ai_severity_score)) df;
  ur ← percent (length (urgent ai_urgency)) df;
  ca ← percent (cadec_count source) df;
  fd ← percent (fda_count source) df;
  pm ← percent (pubmed_count source) df;
  cats ← percents (value_counts String.eqb ai_category) df;
  urgs ← percents (value_counts String.eqb ai_urgency) df;
  Return {| speed := sp; critical_share := cr; urgent_share := ur;
            cadec_share := ca; fda_share := fd; pubmed_share := pm;
            category_shares := cats; urgency_shares := urgs |}.

(* ===================================================================== *)
(** * A reference JSON codec *)
(* ===================================================================== *)

(** A decoder and a writer for JSON texts, to run the definitions above on
    concrete inputs. A number without fraction and exponent is an integer;
    any other number is the double nearest to it, and the decoder reads
    those within the range of the normal doubles. The decoder reads the
    two-character escapes and the [\u00XX] escapes of the first 128
    characters, and rejects every other text. The writer lays a value out
    as [to_json(indent=2)] does, a float with the 10 decimal places of its
    default [double_precision]. *)
Module RefCodec.

Definition dquote : ascii := "034".
Definition backslash : ascii := "092".
Definition newline : ascii := "010".

Definition is_json_space (c : ascii) : bool :=
  let n := nat_of_ascii c in
  ((n =? 32) || (n =? 9) || (n =? 10) || (n =? 13))%nat.

Fixpoint skip_ws (s : string) : string :=
  match s with
  | EmptyString => ""
  | String c s' => if is_json_space c then skip_ws s' else s
  end.

Definition is_digit (c : ascii) : bool :=
  let n := nat_of_ascii c in ((48 <=? n) && (n <=? 57))%nat.

(** The digits a text starts with, and the text after them. *)
Fixpoint span_digits (s : string) : string * string :=
  match s with
  | EmptyString => ("", "")
  | String c s' =>
      if is_digit c then
        let '(d, r) := span_digits s' in (String c d, r)
      else ("", s)
  end.

(** What may not follow an integer: the start of a fraction or exponent. *)
Definition continues_number (s : string) : bool :=
  match s with
  | String c _ => Ascii.eqb c "." || Ascii.eqb c "e" || Ascii.eqb c "E"
  | EmptyString => false
  end.

(** The digits of a literal may not start with 0 unless 0 is all there is. *)
Definition leading_zero (digits : string) : bool :=
  match digits with
  | String c (String _ _) => Ascii.eqb c "0"
  | _ => false
  end.

(** The digits of an integer literal and the text after them. *)
Definition read_digits (s : string) : option (string * string) :=
  let '(digits, rest) := span_digits s in
  if PyStr.is_empty digits || leading_zero digits || continues_number rest
  then None
  else Some (digits, rest).

(** An integer literal: an optional minus sign, then its digits. *)
Definition read_int (s : string) : option (Z * string) :=
  match s with
  | EmptyString => None
  | String c s' =>
      if Ascii.eqb c "-" then
        match read_digits s' with
        | Some (digits, rest) =>
            match NilZero.int_of_string (String "-" digits) with
            | Some d => Some (Z.of_int d, rest)
            | None => None
            end
        | None => None
        end
      else
        match read_digits s with
        | Some (digits, rest) =>
            match NilZero.int_of_string digits with
            | Some d => Some (Z.of_int d, rest)
            | None => None
            end
        | None => None
        end
  end.

(** What may follow an integer literal: nothing, or a character that is
    neither a digit nor the start of a fraction or exponent. *)
Definition ends_number (rest : string) : bool :=
  match rest with
  | EmptyString => true
  | String c _ => negb (is_digit c) && negb (continues_number rest)
  end.

(** *** Numbers with a fraction or an exponent *)

(** [n / d] rounded to the nearest integer, and to the even one of the two
    nearest. *)
Definition round_half_even (n d : Z) : Z :=
  let q := n / d in
  let r := n mod d in
  if 2 * r <? d then q
  else if d <? 2 * r then q + 1
  else if Z.even q then q else q + 1.

(** The double nearest to the quotient [n / d] of two positive integers:
    [m * 2 ^ e] with [m] of 53 bits. [None] outside the range of the normal
    doubles. *)
Definition nearest_double (n d : Z) : option float :=
  let l := Z.log2 n - Z.log2 d in
  let below := if 0 <=? l then n <? d * 2 ^ l else n * 2 ^ (- l) <? d in
  let e := if below then l - 53 else l - 52 in
  let m := if 0 <=? e then round_half_even n (d * 2 ^ e)
           else round_half_even (n * 2 ^ (- e)) d in
  let '(m, e) := if m =? 2 ^ 53 then (2 ^ 52, e + 1) else (m, e) in
  if (-1074 <=? e) && (e <=? 971)
  then Some (SF2Prim (S754_finite false (Z.to_pos m) e))
  else None.

Definition digits_value (digits : string) : Z :=
  match NilZero.int_of_string digits with
  | Some d => Z.of_int d
  | None => 0
  end.

(** The exponent a number ends with, 0 when it has none: e or E, an
    optional sign, digits. *)
Definition read_exponent (s : string) : option (Z * string) :=
  match s with
  | String c r =>
      if Ascii.eqb c "e" || Ascii.eqb c "E" then
        let '(neg, r') :=
          match r with
          | String sg r1 =>
              if Ascii.eqb sg "-" then (true, r1)
              else if Ascii.eqb sg "+" then (false, r1)
              else (false, r)
          | EmptyString => (false, r)
          end in
        let '(digits, rest) := span_digits r' in
        if PyStr.is_empty digits then None
        else Some (if neg : bool then - digits_value digits
                   else digits_value digits, rest)
      else Some (0, s)
  | EmptyString => Some (0, s)
  end.

(** A number: an optional minus sign, digits, an optional point with
    digits, an optional exponent. Its value is [n * 10 ^ k], [n] the
    integer of its digits. *)
Definition read_float (s : string) : option (float * string) :=
  let '(neg, body) :=
    match s with
    | String c s' => if Ascii.eqb c "-" then (true, s') else (false, s)
    | EmptyString => (false, s)
    end in
  let '(whole, r1) := span_digits body in
  let point := match r1 with String p _ => Ascii.eqb p "." | _ => false end in
  let '(frac, r2) :=
    match r1 with
    | String p r => if Ascii.eqb p "." then span_digits r else ("", r1)
    | EmptyString => ("", r1)
    end in
  if PyStr.is_empty whole || leading_zero whole
     || (point && PyStr.is_empty frac)
  then None
  else
    match read_exponent r2 with
    | None => None
    | Some (x, rest) =>
        let n := digits_value (whole ++ frac) in
        let k := x - Z.of_nat (String.length frac) in
        if negb (ends_number rest) || (1100 <? Z.abs k) then None
        else
          let magnitude :=
            if n =? 0 then Some 0%float
            else if 0 <=? k then nearest_double (n * 10 ^ k) 1
            else nearest_double n (10 ^ (- k)) in
          match magnitude with
          | Some m => Some (if neg : bool then PrimFloat.opp m else m, rest)
          | None => None
          end
    end.

Definition hex_val (c : ascii) : option nat :=
  let n := nat_of_ascii c in
  if ((48 <=? n) && (n <=? 57))%nat then Some (n - 48)%nat
  else if ((97 <=? n) && (n <=? 102))%nat then Some (n - 87)%nat
  else if ((65 <=? n) && (n <=? 70))%nat then Some (n - 55)%nat
  else None.

Definition unescape (c : ascii) : option ascii :=
  if Ascii.eqb c dquote then Some dquote
  else if Ascii.eqb c backslash then Some backslash
  else if Ascii.eqb c "/" then Some "/"%char
  else if Ascii.eqb c "b" then Some "008"%char
  else if Ascii.eqb c "f" then Some "012"%char
  else if Ascii.eqb c "n" then Some "010"%char
  else if Ascii.eqb c "r" then Some "013"%char
  else if Ascii.eqb c "t" then Some "009"%char
  else None.

(** The characters of a string literal after its opening quote, and the
    text after its closing quote. *)
Fixpoint read_string (s : string) : option (string * string) :=
  match s with
  | EmptyString => None
  | String c r =>
      if Ascii.eqb c dquote then Some ("", r)
      else if Ascii.eqb c backslash then
        match r with
        | String e r' =>
            match unescape e with
            | Some ch =>
                match read_string r' with
                | Some (str, rest) => Some (String ch str, rest)
                | None => None
                end
            | None =>
                match r' with
                | String h1 (String h2 (String h3 (String h4 r''))) =>
                    match Ascii.eqb e "u", hex_val h1, hex_val h2,
                          hex_val h3, hex_val h4 with
                    | true, Some 0%nat, Some 0%nat, Some a, Some b =>
                        if (a <? 8)%nat then
                          match read_string r'' with
                          | Some (str, rest) =>
                              Some (String (ascii_of_nat (16 * a + b)) str, rest)
                          | None => None
                          end
                        else None
                    | _, _, _, _, _ => None
                    end
                | _ => None
                end
            end
        | EmptyString => None
        end
      else if (nat_of_ascii c <? 32)%nat then None
      else
        match read_string r with
        | Some (str, rest) => Some (String c str, rest)
        | None => None
        end
  end.

(** A later member with the same key replaces the value of the first. *)
Fixpoint dict_set (k : string) (v : value) (d : list (string * value))
  : list (string * value) :=
  match d with
  | [] => [(k, v)]
  | (k', v') :: d' =>
      if String.eqb k k' then (k', v) :: d' else (k', v') :: dict_set k v d'
  end.

(** [s] without its prefix [p], if it starts with [p]. *)
Fixpoint strip_prefix (p s : string) : option string :=
  match p, s with
  | EmptyString, _ => Some s
  | String _ _, EmptyString => None
  | String a p', String b s' =>
      if Ascii.eqb a b then strip_prefix p' s' else None
  end.

Definition expect (lit : string) (s : string) (v : value)
  : option (value * string) :=
  match strip_prefix lit s with
  | Some rest => Some (v, rest)
  | None => None
  end.

(** The text after the character [c], if [s] starts with it. *)
Definition after_char (c : ascii) (s : string) : option string :=
  match s with
  | String c' r => if Ascii.eqb c' c then Some r else None
  | EmptyString => None
  end.

Fixpoint parse_value (fuel : nat) (s : string) : option (value * string) :=
  match fuel with
  | O => None
  | S fuel' =>
      match skip_ws s with
      | EmptyString => None
      | String c r =>
          if Ascii.eqb c "n" then expect "ull" r VNone
          else if Ascii.eqb c "t" then expect "rue" r (VBool true)
          else if Ascii.eqb c "f" then expect "alse" r (VBool false)
          else if Ascii.eqb c dquote then
            match read_string r with
            | Some (str, rest) => Some (VStr str, rest)
            | None => None
            end
          else if Ascii.eqb c "[" then
            match after_char "]" (skip_ws r) with
            | Some rest => Some (VList [], rest)
            | None =>
                match parse_items fuel' r with
                | Some (vs, rest) => Some (VList vs, rest)
                | None => None
                end
            end
          else if Ascii.eqb c "{" then
            match after_char "}" (skip_ws r) with
            | Some rest => Some (VDict [], rest)
            | None =>
                match parse_members fuel' r with
                | Some (ms, rest) =>
                    Some (VDict (fold_left (fun d m => dict_set (fst m) (snd m) d)
                                           ms []), rest)
                | None => None
                end
            end
          else
            match read_int (String c r) with
            | Some (n, rest) => Some (VInt n, rest)
            | None =>
                match read_float (String c r) with
                | Some (x, rest) => Some (VFloat x, rest)
                | None => None
                end
            end
      end
  end
with parse_items (fuel : nat) (s : string) : option (list value * string) :=
  match fuel with
  | O => None
  | S fuel' =>
      match parse_value fuel' s with
      | None => None
      | Some (v, r) =>
          match after_char "," (skip_ws r) with
          | Some r' =>
              match parse_items fuel' r' with
              | Some (vs, rest) => Some (v :: vs, rest)
              | None => None
              end
          | None =>
              match after_char "]" (skip_ws r) with
              | Some rest => Some ([v], rest)
              | None => None
              end
          end
      end
  end
with parse_members (fuel : nat) (s : string)
  : option (list (string * value) * string) :=
  match fuel with
  | O => None
  | S fuel' =>
      match after_char dquote (skip_ws s) with
      | None => None
      | Some r =>
          match read_string r with
          | None => None
          | Some (k, r1) =>
              match after_char ":" (skip_ws r1) with
              | None => None
              | Some r2 =>
                  match parse_value fuel' r2 with
                  | None => None
                  | Some (v, r3) =>
                      match after_char "," (skip_ws r3) with
                      | Some r4 =>
                          match parse_members fuel' r4 with
                          | Some (ms, rest) => Some ((k, v) :: ms, rest)
                          | None => None
                          end
                      | None =>
                          match after_char "}" (skip_ws r3) with
                          | Some rest => Some ([(k, v)], rest)
                          | None => None
                          end
                      end
                  end
              end
          end
      end
  end.

Definition loads (s : string) : result value :=
  match parse_value (2 * String.length s + 2) s with
  | Some (v, rest) =>
      match skip_ws rest with
      | EmptyString => Return v
      | _ => Raise (Exn JSONDecodeError "Extra data")
      end
  | None => Raise (Exn JSONDecodeError "Expecting value")
  end.

(** ** The writer *)

Definition hex_digit (n : nat) : ascii :=
  if (n <? 10)%nat then ascii_of_nat (48 + n) else ascii_of_nat (87 + n).

Definition escape_char (c : ascii) : string :=
  let n := nat_of_ascii c in
  if Ascii.eqb c dquote then String backslash (String dquote "")
  else if Ascii.eqb c backslash then String backslash (String backslash "")
  else if Ascii.eqb c "/" then String backslash "/"
  else if (n =? 8)%nat then String backslash "b"
  else if (n =? 12)%nat then String backslash "f"
  else if (n =? 10)%nat then String backslash "n"
  else if (n =? 13)%nat then String backslash "r"
  else if (n =? 9)%nat then String backslash "t"
  else if (n <? 32)%nat then
    String backslash
      (String "u" (String "0" (String "0"
         (String (hex_digit (n / 16)) (String (hex_digit (n mod 16)) "")))))
  else String c "".

Fixpoint escape (s : string) : string :=
  match s with
  | EmptyString => ""
  | String c s' => escape_char c ++ escape s'
  end.

Definition quote (s : string) : string :=
  String dquote (escape s ++ String dquote "").

Fixpoint spaces (n : nat) : string :=
  match n with
  | O => ""
  | S n' => String " " (spaces n')
  end.

Definition nl : string := String newline "".

Fixpoint join_lines (lines : list string) : string :=
  match lines with
  | [] => ""
  | [l] => l
  | l :: ls => l ++ "," ++ nl ++ join_lines ls
  end.

(** *** Floats *)

(** The float of an integer below [2 ^ 63]. *)
Definition float_of_Z (z : Z) : float := PrimFloat.of_uint63 (Uint63.of_Z z).

(** A finite float that is not negative, as a quotient of integers. *)
Definition exact (x : float) : Z * Z :=
  match Prim2SF x with
  | S754_finite _ m e =>
      if 0 <=? e then (Z.pos m * 2 ^ e, 1) else (Z.pos m, 2 ^ (- e))
  | _ => (0, 1)
  end.

(** Its integer part. *)
Definition trunc (x : float) : Z := let '(n, d) := exact x in n / d.

(** [frac] without the zeros it ends with, and the number of places left
    of [count]. *)
Fixpoint strip_zeros (fuel : nat) (frac : Z) (count : nat) : Z * nat :=
  match fuel with
  | O => (frac, count)
  | S fuel' =>
      if frac mod 10 =? 0 then strip_zeros fuel' (frac / 10) (count - 1)
      else (frac, count)
  end.

Fixpoint zeros (n : nat) : string :=
  match n with
  | O => ""
  | S n' => String "0" (zeros n')
  end.

(** The digits of [z] over [count] places. *)
Definition places (count : nat) (z : Z) : string :=
  zeros (count - String.length (PyStr.of_Z z)) ++ PyStr.of_Z z.

(** The text of a float from 1e-15 to 1e16, or zero, that is not negative:
    its integer part, and its fraction rounded to 10 decimal places,
    computed in floating point as the writer of pandas does, without the
    zeros at the end. *)
Definition fixed_text (x : float) : string :=
  let whole := trunc x in
  let tmp := ((x - float_of_Z whole) * 10000000000)%float in
  let frac := trunc tmp in
  let diff := (tmp - float_of_Z frac)%float in
  let frac :=
    if (0.5 <? diff)%float then frac + 1
    else if (diff =? 0.5)%float && ((frac =? 0) || Z.odd frac) then frac + 1
    else frac in
  let '(whole, frac) :=
    if 10 ^ 10 <=? frac then (whole + 1, 0) else (whole, frac) in
  PyStr.of_Z whole ++ "."
  ++ (if frac =? 0 then "0"
      else let '(f, count) := strip_zeros 10 frac 10 in places count f).

(** The [x] with [10 ^ x <= n / d < 10 ^ (x + 1)]. *)
Fixpoint exponent_up (fuel : nat) (n d x : Z) : Z :=
  match fuel with
  | O => x
  | S fuel' =>
      if n <? d * 10 ^ (x + 1) then x else exponent_up fuel' n d (x + 1)
  end.

Fixpoint exponent_down (fuel : nat) (n d x : Z) : Z :=
  match fuel with
  | O => x
  | S fuel' =>
      if d <=? n * 10 ^ (- x) then x else exponent_down fuel' n d (x - 1)
  end.

Definition decimal_exponent (n d : Z) : Z :=
  if d <=? n then exponent_up 400 n d 0 else exponent_down 400 n d (-1).

(** The text of a positive float outside that range, as [printf] writes it
    for ["%.10g"]: ten significant digits, without the zeros at the end,
    and the exponent of ten over two places at least. *)
Definition general_text (x : float) : string :=
  let '(n, d) := exact x in
  let x0 := decimal_exponent n d in
  let r := if 0 <=? x0 - 9 then round_half_even n (d * 10 ^ (x0 - 9))
           else round_half_even (n * 10 ^ (9 - x0)) d in
  let '(r, x0) := if r =? 10 ^ 10 then (10 ^ 9, x0 + 1) else (r, x0) in
  let '(r, count) := strip_zeros 9 r 10 in
  let lead := r / 10 ^ Z.of_nat (count - 1) in
  let tail := r mod 10 ^ Z.of_nat (count - 1) in
  PyStr.of_Z lead
  ++ (if (count =? 1)%nat then "" else "." ++ places (count - 1) tail)
  ++ "e" ++ (if 0 <=? x0 then "+" else "-") ++ places 2 (Z.abs x0).

(** The text of a float. NaN and the infinities are written [null]. *)
#[warnings="-inexact-float"]
Definition float_text (x : float) : string :=
  if PrimFloat.is_nan x || PrimFloat.is_infinity x then "null"
  else
    let v := PrimFloat.abs x in
    (if (x <? 0)%float then "-" else "")
    ++ (if ((1e16 - 1 <? v) || (negb (v =? 0) && (v <? 1e-15)))%float
        then general_text v else fixed_text v).

Fixpoint dumps_at (indent : nat) (v : value) {struct v} : string :=
  match v with
  | VNone => "null"
  | VBool true => "true"
  | VBool false => "false"
  | VInt n => PyStr.of_Z n
  | VStr s => quote s
  | VList [] => "[]"
  | VList l =>
      "[" ++ nl
      ++ join_lines (map (fun x => spaces (2 + indent) ++ dumps_at (2 + indent) x) l)
      ++ nl ++ spaces indent ++ "]"
  | VDict [] => "{}"
  | VDict d =>
      "{" ++ nl
      ++ join_lines
           (map (fun kv => spaces (2 + indent) ++ quote (fst kv) ++ ":"
                           ++ dumps_at (2 + indent) (snd kv)) d)
      ++ nl ++ spaces indent ++ "}"
  | VFloat x => float_text x
  end.

Definition dumps (v : value) : string := dumps_at 0 v.

(** ** Values the codec is exact on *)

(** The digits of a number in normal form: 0, or digits that do not start
    with 0. *)
Definition normal_form (u : Decimal.uint) : Prop :=
  u = Decimal.D0 Decimal.Nil
  \/ (u <> Decimal.Nil /\ forall d, u <> Decimal.D0 d).

(** A text of white space only, and a text that does not start with white
    space. *)
Definition blank (ws : string) : Prop := PyStr.all is_json_space ws = true.

Definition starts_solid (s : string) : Prop :=
  match s with
  | String c _ => is_json_space c = false
  | EmptyString => True
  end.

(** A value the decoder reads back as it was written: it holds no float,
    and the keys of every mapping are distinct, as Python has them. *)
#[warnings="-register-all"]
Inductive valid : value -> Prop :=
| valid_None : valid VNone
| valid_Bool b : valid (VBool b)
| valid_Int n : valid (VInt n)
| valid_Str s : valid (VStr s)
| valid_List l : Forall valid l -> valid (VList l)
| valid_Dict d :
    List.NoDup (map fst d) -> Forall (fun kv => valid (snd kv)) d ->
    valid (VDict d).

(** The number of nodes of a value, a bound on the fuel decoding needs. *)
Fixpoint size (v : value) : nat :=
  match v with
  | VList l => S (fold_right (fun x n => S (size x + n)) O l)
  | VDict d => S (fold_right (fun kv n => S (size (snd kv) + n)) O d)
  | _ => 1
  end.

Definition items_size (l : list value) : nat :=
  fold_right (fun x n => S (size x + n)) O l.

Definition members_size (d : list (string * value)) : nat :=
  fold_right (fun kv n => S (size (snd kv) + n)) O d.

(** One item of a list and one member of a mapping, as the writer lays
    them out inside a container written at indentation [indent]. *)
Definition item_line (indent : nat) (x : value) : string :=
  spaces (2 + indent) ++ dumps_at (2 + indent) x.

Definition member_line (indent : nat) (kv : string * value) : string :=
  spaces (2 + indent) ++ quote (fst kv) ++ ":" ++ dumps_at (2 + indent) (snd kv).

(** The decoder reads [v] back from the text the writer gives it, whatever
    the indentation, the white space before and the text after (which may
    not continue a number). *)
Definition reads_back (v : value) : Prop :=
  valid v ->
  forall indent fuel ws rest,
    blank ws -> (size v <= fuel)%nat -> ends_number rest = true ->
    parse_value fuel (ws ++ dumps_at indent v ++ rest) = Some (v, rest).

(** The reference library: this codec, and a pandas that raises on the
    inputs the embedding does not model. *)
Definition lib : library :=
  {| json_loads := loads;
     json_dumps := dumps;
     DataFrame_other := fun _ =>
       Raise (Exn OtherException "DataFrame constructor not properly called!") |}.

End RefCodec.

(* ===================================================================== *)
(** * The normalizer as the specification words it *)
(* ===================================================================== *)

Inductive normalized : Type :=
| Table (table : frame) (metadata : value)
| NormalizationError.

Definition table_or_error (built : result frame) (metadata : value) : normalized :=
  match built with
  | Return t => Table t metadata
  | Raise _ => NormalizationError
  end.

(** [normalize(jsonValue)] of section 4.2: a string is parsed and the
    result is normalised in turn ("recurse"); a mapping with "records"
    gives that sequence as the table and "outputs", or the empty mapping, as
    the metadata; a sequence is the table; any other value is wrapped into
    one row. [fuel] bounds the number of nested decodings; [None] when it
    runs out. *)
Fixpoint normalize (lib : library) (fuel : nat) (v : value) : option normalized :=
  match v with
  | VStr s =>
      match fuel with
      | O => None
      | S fuel' =>
          match json_loads lib s with
          | Raise _ => Some NormalizationError
          | Return v' => normalize lib fuel' v'
          end
      end
  | VDict d =>
      match dict_get "records" d with
      | Some recs =>
          Some (table_or_error (DataFrame lib recs)
                               (default (VDict []) (dict_get "outputs" d)))
      | None => Some (table_or_error (DataFrame lib (VList [v])) (VDict []))
      end
  | VList _ => Some (table_or_error (DataFrame lib v) (VDict []))
  | _ => Some (table_or_error (DataFrame lib (VList [v])) (VDict []))
  end.

(* ===================================================================== *)
(** * Worlds and payloads used as examples *)
(* ===================================================================== *)

Module Examples.

(** A world whose server answers every request with [r]. *)
Definition answering (r : response) : world :=
  {| requests_post := fun _ => Return r; time_start := 0%Q; time_end := 2%Q |}.

(** A world in which the call raises [e]. *)
Definition raising (e : exn) : world :=
  {| requests_post := fun _ => Raise e; time_start := 0%Q; time_end := 2%Q |}.

(** HTTP 500 with the body "server error". *)
Definition server_error : response :=
  {| status_code := 500; text := "server error";
     response_json := Raise (Exn JSONDecodeError "Expecting value") |}.

(** HTTP 500 with a body of 203 characters: 199 letters, an accented
    letter of two bytes, and three letters more. *)
Fixpoint letters (n : nat) : string :=
  match n with
  | O => ""
  | S n' => String "a" (letters n')
  end.

Definition long_error : response :=
  {| status_code := 500; text := letters 199 ++ "é" ++ "xyz";
     response_json := Raise (Exn JSONDecodeError "Expecting value") |}.

(** HTTP 200 with a body of one em space (code point 8195). *)
Definition em_space_body : response :=
  {| status_code := 200; text := PyStr.utf8 0x2003;
     response_json := Raise (Exn JSONDecodeError "Expecting value") |}.

(** HTTP 200 with an empty body. *)
Definition empty_body : response :=
  {| status_code := 200; text := "";
     response_json := Raise (Exn JSONDecodeError "Expecting value") |}.

(** HTTP 200 with the body [body], decoded by the reference codec. *)
Definition ok_body (body : string) : response :=
  {| status_code := 200; text := body; response_json := RefCodec.loads body |}.

(** The widgets as they stand when nothing was pressed. *)
Definition idle_widgets (n : Z) : widgets :=
  {| in_n8n_url := DEFAULT_N8N_URL; records := n; threshold := 4;
     start_analysis := false; new_analysis := false |}.

(** The session after "Start Analysis" was pressed on a fresh page. *)
Definition started : session_state :=
  {| results := None; proc_time := 0%Q; analyzing := Some true;
     outputs := None; n8n_url := Some DEFAULT_N8N_URL |}.

(** The text of one analysed record, and that text encoded once more as a
    JSON string. *)
Definition one_record : value := VList [VDict [("ai_severity_score", VInt 3)]].
Definition encoded_once : string := RefCodec.dumps one_record.
Definition encoded_twice : string := RefCodec.dumps (VStr encoded_once).

(** A payload with two records and outputs. *)
Definition payload_records : list value :=
  [VDict [("record_id", VInt 1); ("source", VStr "pubmed");
          ("ai_severity_score", VInt 4)];
   VDict [("record_id", VInt 2); ("ai_severity_score", VInt 2);
          ("ai_urgency", VStr "urgent")]].

Definition payload : value :=
  VDict [("records", VList payload_records);
         ("outputs", VDict [("alerts", VInt 1)])].

(** A confidence with 15 decimal places, and the same cut to 9 places
    (the tenth is 0). *)
#[warnings="-inexact-float"]
Definition precise : float := 0.123456789012345.
#[warnings="-inexact-float"]
Definition rounded : float := 0.123456789.

(** A body whose record holds that confidence. *)
Definition precise_body : string :=
  "[{" ++ RefCodec.quote "ai_severity_score" ++ ":3,"
  ++ RefCodec.quote "ai_confidence" ++ ":0.123456789012345}]".

(** Two rows, the second without a severity score, and the body that
    carries them. *)
Definition uneven_rows : list value :=
  [VDict [("ai_severity_score", VInt 3)]; VDict [("source", VStr "cadec")]].
Definition uneven_body : string := RefCodec.dumps (VList uneven_rows).

End Examples.

(* ===================================================================== *)
(** * Shapes named by the specification *)
(* ===================================================================== *)

(** The shape of a dictionary returned by [trigger_workflow]: the key "ok"
    holds a boolean, "data" is present exactly when it is true, and "error"
    is present exactly when it is false and then holds a string. *)
Definition outcome_shape (d : gmap string value) : Prop :=
  exists ok : bool,
    d !! "ok" = Some (VBool ok)
    /\ (is_Some (d !! "data") <-> ok = true)
    /\ (is_Some (d !! "error") <-> ok = false)
    /\ (forall v, d !! "error" = Some v -> exists msg, v = VStr msg).

(** The values of the last case of the normalizer: neither text nor a
    sequence nor a mapping with the key "records". *)
Definition is_bare (v : value) : bool :=
  match v with
  | VStr _ | VList _ => false
  | VDict d => negb (dict_has "records" d)
  | _ => true
  end.

(** The table of one row that wraps [v]. *)
Definition wrapped (v : value) : frame :=
  match v with
  | VDict d => frame_of_records [d]
  | _ => frame_of_scalars [v]
  end.

(** The validation of section 4.2 as lines 226-231 perform it: the table
    and metadata that pass, [None] when no table came back, the table is
    empty, or the column "ai_severity_score" is absent. *)
Definition validated (lib : library) (data : value) : option (frame * value) :=
  match snd (parse_response lib data) with
  | Return (Some df, outs) =>
      if (0 <? len df)%nat && has_column "ai_severity_score" df
      then Some (df, outs) else None
  | _ => None
  end.

(** A table as pandas builds it from JSON rows: the labels are distinct
    strings and every row has one cell per column. *)
Definition well_formed (df : frame) : Prop :=
  List.NoDup (columns df)
  /\ Forall (fun c => exists s, c = LStr s) (columns df)
  /\ Forall (fun r => length r = length (columns df)) (rows df).

(** The part of pandas that is a parameter builds such tables too, unless
    it labels the columns by position (a list of lists), and then no column
    is called "ai_severity_score". *)
Definition builds_well_formed (lib : library) : Prop :=
  forall v t, DataFrame_other lib v = Return t ->
              well_formed t \/ has_column "ai_severity_score" t = false.

(** The exceptions the library calls of [trigger_workflow] may raise in a
    world: that of [requests.post], or that of [json()] on its response. *)
Definition raised_in_trigger (w : world) (ss : session_state) (count : Z)
  (e : exn) : Prop :=
  requests_post w (trigger_request ss count) = Raise e
  \/ exists r, requests_post w (trigger_request ss count) = Return r
               /\ response_json r = Raise e.

(* ===================================================================== *)
(** * The sidebar: connection check (lines 143-150) *)
(* ===================================================================== *)

Inductive sidebar_event : Type :=
| SSuccess (s : string)    (* st.success *)
| SWarning (s : string)    (* st.warning *)
| SCaption (s : string).   (* st.caption *)

(** A call of [requests.get]: its address and its timeout. *)
Record get_request : Type := { get_url : string; get_timeout : Z }.

(** Lines 145-146: [requests.get(f"{base_url}/healthz", timeout=5)]. *)
Definition healthz_request (n8n_url : string) : get_request :=
  let base_url := PyStr.rstrip_by (Ascii.eqb "/") n8n_url in
  {| get_url := base_url ++ "/healthz"; get_timeout := 5 |}.

(** The [try] of lines 144-150. Its handler is a bare [except:], which
    catches every exception, those that do not derive from [Exception]
    too; the response is not looked at. *)
Definition connection_check (requests_get : get_request -> result response)
  (n8n_url : string) : list sidebar_event :=
  match requests_get (healthz_request n8n_url) with
  | Return _ => [SSuccess "✅ n8n Online"]
  | Raise _ =>
      [SWarning "⚠️ n8n may be sleeping";
       SCaption "It will wake up when you start analysis"]
  end.

(** [s.endswith(c)] for one character. *)
Fixpoint ends_with (c : ascii) (s : string) : bool :=
  match s with
  | EmptyString => false
  | String a EmptyString => Ascii.eqb a c
  | String _ s' => ends_with c s'
  end.

(* ===================================================================== *)
(** * The renderer, row by row *)
(* ===================================================================== *)

(** One record of the stored table as the renderer reads it, at the types
    of the data model: the severity is an integer, the other fields are
    text ([ai_confidence] is the text [str] gives for the cell), the title
    of an article may be missing. *)
Module Row.

Record t : Type := {
  source : string;
  ai_severity_score : Z;
  ai_category : string;
  ai_urgency : string;
  ai_action : string;
  ai_confidence : string;
  pubmed_title : option string
}.

End Row.

Definition NL : string := String "010" "".

(** Line 361: [df[df['ai_severity_score'] >= threshold]]. *)
Definition critical_rows (threshold : Z) (df : list Row.t) : list Row.t :=
  List.filter (fun r => threshold <=? Row.ai_severity_score r) df.

(** Line 418: [df[df['source'] == 'pubmed']]. *)
Definition pubmed_rows (df : list Row.t) : list Row.t :=
  List.filter (fun r => String.eqb (Row.source r) "pubmed") df.

(** [Series.mean()] of a column of integers; [None] stands for the NaN of
    an empty column. *)
Definition mean (xs : list Z) : option Q :=
  match xs with
  | [] => None
  | _ => Some (inject_Z (fold_right Z.add 0%Z xs) / Q_of_nat (length xs))%Q
  end.

(** ** Critical alerts (lines 366-391) *)

Inductive alert_event : Type :=
| AlertBox (n : nat)     (* the box "{n} Critical Alerts Sent" *)
| AlertCode (s : string) (* st.code *)
| MoreSent (n : nat)     (* st.caption(f"+ {n} more sent") *)
| NoCritical.            (* st.success("✅ No critical alerts") *)

(** The text of lines 377-386. *)
Definition alert_text (r : Row.t) : string :=
  "🚨 CRITICAL ADVERSE EVENT" ++ NL ++ NL
  ++ "Severity: " ++ PyStr.of_Z (Row.ai_severity_score r) ++ "/5" ++ NL
  ++ "Category: " ++ Row.ai_category r ++ NL ++ NL
  ++ "Action: " ++ Row.ai_action r ++ NL ++ NL
  ++ "Confidence: " ++ Row.ai_confidence r ++ NL ++ NL
  ++ "⚡ IMMEDIATE REVIEW REQUIRED".

Definition critical_panel (critical : list Row.t) : list alert_event :=
  if (0 <? length critical)%nat then
    (AlertBox (length critical)
       :: map (fun r => AlertCode (alert_text r)) (firstn 2 critical)
       ++ (if (2 <? length critical)%nat
           then [MoreSent (length critical - 2)] else []))%list
  else [NoCritical].

(** The alerts a panel shows in full. *)
Definition alert_codes (evs : list alert_event) : list string :=
  flat_map (fun e => match e with AlertCode s => [s] | _ => [] end) evs.

(** The number of alerts a panel only counts. *)
Definition alerts_not_shown (evs : list alert_event) : nat :=
  fold_right (fun e n => match e with MoreSent k => (k + n)%nat | _ => n end)
             O evs.

(** ** Urgent summary: the top five (lines 401-405) *)

Fixpoint insert_by_severity (r : Row.t) (s : list Row.t) : list Row.t :=
  match s with
  | [] => [r]
  | h :: t =>
      if Row.ai_severity_score r <? Row.ai_severity_score h
      then h :: insert_by_severity r t
      else r :: h :: t
  end.

(** [df.nlargest(n, 'ai_severity_score')]: the [n] rows of largest
    severity, the largest first; among rows of equal severity the one that
    comes first in the table goes first ([keep='first']). *)
Definition nlargest (n : nat) (df : list Row.t) : list Row.t :=
  firstn n (fold_right insert_by_severity [] df).

(** The order of [nlargest]: the larger severity first. *)
Definition by_severity (a b : Row.t) : Prop :=
  Row.ai_severity_score b <= Row.ai_severity_score a.

(** ** Severity bands (lines 434-435 and 493-498) *)

Definition badge_color (sev : Z) : string :=
  if 4 <=? sev then "#ff6b6b" else if 3 <=? sev then "#ffd93d" else "#6bcf7f".

Definition badge_text (sev : Z) : string :=
  if 4 <=? sev then "HIGH" else if 3 <=? sev then "MODERATE" else "LOW".

(** [color_sev(val)]. A Python [bool] is an [int]: [True] is 1 and
    [False] is 0. A float is compared as a float: NaN, which a column of
    numbers holds where a score is missing, is below no number. *)
Definition color_sev (val : value) : string :=
  let band (high moderate : bool) :=
    if high then "background-color: #ffcdd2"
    else if moderate then "background-color: #fff9c4"
    else "background-color: #c8e6c9" in
  match val with
  | VInt n => band (4 <=? n) (3 <=? n)
  | VBool b => band (4 <=? Z.b2z b) (3 <=? Z.b2z b)
  | VFloat x => band (PrimFloat.leb 4 x) (PrimFloat.leb 3 x)
  | _ => ""
  end.

(** ** PubMed articles (lines 418-483) *)

Inductive article_event : Type :=
| ArticlesFound (n : nat)
    (* st.success(f"✅ {n} research articles with full metadata") *)
| ArticleMetrics (articles : nat) (avg_severity : option Q) (high_risk : nat)
    (* the three metrics of lines 423-426 *)
| ArticleCard (r : Row.t) (text color : string)
    (* the card of lines 437-481, with its badge *)
| NoArticles.
    (* st.info("ℹ️ No PubMed articles in this batch") *)

(** [pd.notna(row.get('pubmed_title'))] *)
Definition has_title (r : Row.t) : bool :=
  match Row.pubmed_title r with Some _ => true | None => false end.

(** Lines 418-483. The column [pubmed_title] is one the records may lack
    altogether: [title_column] tells whether the stored table has it (when
    it has not, no row has a title). Line 420 reads the column only when
    there are PubMed rows, and raises [KeyError] when it is absent. *)
Definition pubmed_section (title_column : bool) (df : list Row.t)
  : result (list article_event) :=
  let pubmed_df := pubmed_rows df in
  if (0 <? length pubmed_df)%nat then
    if title_column then
      if existsb has_title pubmed_df then
        Return
          (ArticlesFound (length pubmed_df)
           :: ArticleMetrics (length pubmed_df)
                             (mean (map Row.ai_severity_score pubmed_df))
                             (length (critical_rows 4 pubmed_df))
           :: flat_map (fun row =>
                          if has_title row then
                            let sev := Row.ai_severity_score row in
                            [ArticleCard row (badge_text sev) (badge_color sev)]
                          else [])
                       pubmed_df)
      else Return [NoArticles]
    else Raise (key_error "pubmed_title")
  else Return [NoArticles].

(** ** Totals *)

(** The sum of the shares of a distribution. *)
Definition total_share {A} (ps : list (A * Q)) : Q :=
  fold_right (fun p acc => (snd p + acc)%Q) 0%Q ps.

Definition total_count {A} (s : list (A * nat)) : nat :=
  fold_right (fun e acc => (snd e + acc)%nat) O s.

(* ===================================================================== *)
(** * The renderer on the stored table: the columns it reads *)
(* ===================================================================== *)

(** The labels of the tables pandas builds from JSON values are distinct;
    a label is looked up at its first position. *)

(** [df[name]]: the cells of a column; [KeyError] when no column carries
    the label. *)
Definition getitem (name : string) (df : frame) : result (list value) :=
  match column_index (LStr name) (columns df) with
  | Some j => Return (map (fun r => default VNone (nth_error r j)) (rows df))
  | None => Raise (key_error name)
  end.

(** The rows a boolean mask keeps. *)
Fixpoint keep_rows (mask : list bool) (rs : list (list value))
  : list (list value) :=
  match mask, rs with
  | b :: mask', r :: rs' =>
      if b then r :: keep_rows mask' rs' else keep_rows mask' rs'
  | _, _ => []
  end.

(** [df[mask]] *)
Definition where_ (mask : list bool) (df : frame) : frame :=
  {| columns := columns df; rows := keep_rows mask (rows df) |}.

(** [cell == s] for a cell of a column of objects. *)
Definition is_text (s : string) (v : value) : bool :=
  match v with
  | VStr t => String.eqb t s
  | _ => false
  end.

(** Line 362 on the stored table. *)
Definition urgent_df (df : frame) : result frame :=
  col ← getitem "ai_urgency" df;
  Return (where_ (map (fun v => is_text "urgent" v || is_text "immediate" v) col) df).

(** Line 418 on the stored table. *)
Definition pubmed_df (df : frame) : result frame :=
  col ← getitem "source" df;
  Return (where_ (map (is_text "pubmed") col) df).

(** Line 264: the source box is drawn only if the column is there. *)
Definition source_box (df : frame) : option (list value) :=
  if has_column "source" df then
    match getitem "source" df with
    | Return col => Some col
    | Raise _ => None
    end
  else None.

Definition TABLE_COLUMNS : list string :=
  ["record_id"; "ai_severity_score"; "ai_category"; "ai_urgency";
   "ai_action"; "ai_confidence"].

Definition TABLE_HEADERS : list string :=
  ["ID"; "Severity"; "Category"; "Urgency"; "Action"; "Confidence"].

(** [df[names]]: the columns named, in the order of [names]; [KeyError]
    when one of the labels is missing. The text of that error is pandas's:
    [not_in_index] gives it from the labels that are missing. *)
Definition take_columns (not_in_index : list string -> string)
  (names : list string) (df : frame) : result frame :=
  match List.filter (fun n => negb (has_column n df)) names with
  | [] =>
      Return
        {| columns := map LStr names;
           rows :=
             map (fun r =>
                    map (fun n =>
                           match column_index (LStr n) (columns df) with
                           | Some j => default VNone (nth_error r j)
                           | None => VNone
                           end) names)
                 (rows df) |}
  | missing => Raise (Exn KeyError (not_in_index missing))
  end.

(** Lines 490-491: the six columns of the table of results, renamed. *)
Definition results_table (not_in_index : list string -> string) (df : frame)
  : result frame :=
  table ← take_columns not_in_index TABLE_COLUMNS df;
  Return {| columns := map LStr TABLE_HEADERS; rows := rows table |}.

(* ===================================================================== *)
(** * More examples *)
(* ===================================================================== *)

Module MoreExamples.

Definition row (src : string) (sev : Z) (urgency : string)
  (title : option string) : Row.t :=
  {| Row.source := src; Row.ai_severity_score := sev;
     Row.ai_category := "cardiac"; Row.ai_urgency := urgency;
     Row.ai_action := "review"; Row.ai_confidence := "0.9";
     Row.pubmed_title := title |}.

(** Seven records: severities 2, 5, 3, 5, 4, 1, 4. *)
Definition seven : list Row.t :=
  [row "cadec" 2 "urgent" None; row "pubmed" 5 "immediate" (Some "A");
   row "fda" 3 "urgent" None; row "pubmed" 5 "urgent" None;
   row "cadec" 4 "immediate" None; row "fda" 1 "urgent" None;
   row "pubmed" 4 "urgent" (Some "B")].

(** A row as the record of the response it came from. *)
Definition record (r : Row.t) : list (string * value) :=
  [("record_id", VStr "r"); ("source", VStr (Row.source r));
   ("ai_severity_score", VInt (Row.ai_severity_score r));
   ("ai_category", VStr (Row.ai_category r));
   ("ai_urgency", VStr (Row.ai_urgency r));
   ("ai_action", VStr (Row.ai_action r));
   ("ai_confidence", VStr (Row.ai_confidence r))].

(** The table of the seven records, and the figures of its summary in a
    session whose run took two seconds. *)
Definition seven_table : frame := frame_of_records (map record seven).

Definition seven_figures : result figures :=
  summary_figures
    {| results := Some seven_table; proc_time := 2%Q; analyzing := Some true;
       outputs := Some (VDict []); n8n_url := Some DEFAULT_N8N_URL |}
    seven_table 4
    (map Row.source seven) (map Row.ai_severity_score seven)
    (map Row.ai_category seven) (map Row.ai_urgency seven).

(** A server whose answer is one record with a severity score only. *)
Definition score_only : world :=
  Examples.answering (Examples.ok_body (RefCodec.dumps Examples.one_record)).

(** The session after a run that stored the two records of the example. *)
Definition stored : session_state :=
  after_run RefCodec.lib
    (Examples.answering
       (Examples.ok_body (RefCodec.dumps (VList Examples.payload_records))))
    (Examples.idle_widgets 10) Examples.started.

Definition pressing_new : widgets :=
  {| in_n8n_url := DEFAULT_N8N_URL; records := 10; threshold := 4;
     start_analysis := false; new_analysis := true |}.

End MoreExamples.

(* ===================================================================== *)
(** * Properties of the Remote Trigger Client *)
(* ===================================================================== *)

Lemma is_space_In (w : string) :
  PyStr.is_space w = true <-> In w PyStr.WHITESPACE.
Proof.
  unfold PyStr.is_space. rewrite existsb_exists. split.
  - intros (x & Hx & Heq). apply String.eqb_eq in Heq. subst. exact Hx.
  - intros Hw. exists w. split; [exact Hw | apply String.eqb_refl].
Qed.

Lemma lstrip_eq (a : ascii) (r1 : string) :
  PyStr.lstrip (String a r1)
  = if PyStr.is_space (String a "") then PyStr.lstrip r1
    else
      match r1 with
      | EmptyString => String a r1
      | String b r2 =>
          if PyStr.is_space (String a (String b "")) then PyStr.lstrip r2
          else
            match r2 with
            | EmptyString => String a r1
            | String c r3 =>
                if PyStr.is_space (String a (String b (String c "")))
                then PyStr.lstrip r3 else String a r1
            end
      end.
Proof. reflexivity. Qed.

(** [lstrip] removes one white-space character, or nothing. *)
Lemma lstrip_step (s : string) :
  (exists w r, In w PyStr.WHITESPACE /\ s = w ++ r
               /\ PyStr.lstrip s = PyStr.lstrip r)
  \/ PyStr.lstrip s = s.
Proof.
  destruct s as [|a r1]; [right; reflexivity|].
  rewrite lstrip_eq.
  destruct (PyStr.is_space (String a "")) eqn:H1.
  { left. exists (String a ""), r1. apply is_space_In in H1. auto. }
  destruct r1 as [|b r2]; [right; reflexivity|].
  destruct (PyStr.is_space (String a (String b ""))) eqn:H2.
  { left. exists (String a (String b "")), r2. apply is_space_In in H2. auto. }
  destruct r2 as [|c r3]; [right; reflexivity|].
  destruct (PyStr.is_space (String a (String b (String c "")))) eqn:H3.
  { left. exists (String a (String b (String c ""))), r3.
    apply is_space_In in H3. auto. }
  right. reflexivity.
Qed.

Lemma whitespace_nonempty (w : string) :
  In w PyStr.WHITESPACE -> (0 < String.length w)%nat.
Proof.
  intros H. vm_compute in H.
  repeat (destruct H as [<-|H]; [simpl; lia|]). destruct H.
Qed.

Lemma length_app (s t : string) :
  String.length (s ++ t) = (String.length s + String.length t)%nat.
Proof.
  induction s as [|c s IH]; [reflexivity|].
  change (String c s ++ t) with (String c (s ++ t)). simpl. rewrite IH.
  reflexivity.
Qed.

Lemma app_empty_r (s : string) : s ++ "" = s.
Proof.
  induction s as [|c s IH]; [reflexivity|].
  change (String c s ++ "") with (String c (s ++ "")). rewrite IH.
  reflexivity.
Qed.

Lemma app_assoc_string (s t u : string) : (s ++ t) ++ u = s ++ (t ++ u).
Proof.
  induction s as [|c s IH]; [reflexivity|].
  change (String c s ++ t) with (String c (s ++ t)).
  change (String c (s ++ t) ++ u) with (String c ((s ++ t) ++ u)).
  rewrite IH. reflexivity.
Qed.

Lemma white_concat (a b : string) :
  PyStr.white a -> PyStr.white b -> PyStr.white (a ++ b).
Proof.
  induction 1 as [|w s Hw _ IH]; intros Hb; [exact Hb|].
  rewrite app_assoc_string. constructor; auto.
Qed.

(** [lstrip] removes a prefix of white space. *)
Lemma lstrip_split (s : string) :
  exists ws, PyStr.white ws /\ s = ws ++ PyStr.lstrip s.
Proof.
  remember (String.length s) as n eqn:Hn.
  revert s Hn. induction n as [n IH] using lt_wf_ind. intros s Hn.
  destruct (lstrip_step s) as [(w & r & Hw & Hs & Hl)|Hl].
  - subst s. rewrite Hl.
    destruct (IH (String.length r)) with (s := r) as (ws & Hws & Hr);
      [|reflexivity|].
    + subst n. rewrite length_app.
      pose proof (whitespace_nonempty w Hw). lia.
    + exists (w ++ ws). split; [constructor; assumption|].
      rewrite app_assoc_string, <- Hr. reflexivity.
  - rewrite Hl. exists "". split; [constructor | reflexivity].
Qed.

Lemma lstrip_space (w r : string) :
  In w PyStr.WHITESPACE -> PyStr.lstrip (w ++ r) = PyStr.lstrip r.
Proof.
  intros H. vm_compute in H.
  repeat (destruct H as [<-|H]; [reflexivity|]). destruct H.
Qed.

Lemma lstrip_white (s : string) : PyStr.white s -> PyStr.lstrip s = "".
Proof.
  induction 1 as [|w s Hw _ IH]; [reflexivity|].
  rewrite (lstrip_space w s Hw). exact IH.
Qed.

Lemma is_empty_true (s : string) : PyStr.is_empty s = true <-> s = "".
Proof. destruct s; simpl; split; congruence. Qed.

Lemma lstrip_empty_white (s : string) :
  PyStr.is_empty (PyStr.lstrip s) = true <-> PyStr.white s.
Proof.
  rewrite is_empty_true. split; [|apply lstrip_white].
  intros H. destruct (lstrip_split s) as (ws & Hws & Hs).
  rewrite H, app_empty_r in Hs. subst. exact Hws.
Qed.

(** [rstrip] removes a suffix of white space. *)
Lemma rstrip_split (s : string) :
  exists ws, PyStr.white ws /\ s = PyStr.rstrip s ++ ws.
Proof.
  induction s as [|c s (ws & Hws & IH)].
  - exists "". split; [constructor | reflexivity].
  - cbn [PyStr.rstrip].
    destruct (PyStr.is_empty (PyStr.lstrip (String c s))) eqn:He.
    + exists (String c s). split; [|reflexivity].
      apply lstrip_empty_white, He.
    + exists ws. split; [exact Hws|].
      change (String c (PyStr.rstrip s) ++ ws)
        with (String c (PyStr.rstrip s ++ ws)).
      rewrite <- IH. reflexivity.
Qed.

(** The test of line 82 holds exactly for the texts made of white-space
    characters only (the empty text among them). *)
Lemma is_blank_white (s : string) : is_blank s = true <-> PyStr.white s.
Proof.
  unfold is_blank, PyStr.strip. split.
  - intros H. apply orb_true_iff in H as [H|H].
    + apply is_empty_true in H. subst. constructor.
    + destruct (rstrip_split s) as (ws & Hws & Hs). rewrite Hs.
      apply white_concat; [|exact Hws]. apply lstrip_empty_white, H.
  - intros Hw. destruct s as [|c s]; [reflexivity|].
    cbn [PyStr.rstrip PyStr.is_empty orb].
    rewrite (proj2 (lstrip_empty_white (String c s)) Hw). reflexivity.
Qed.

Lemma is_blank_not_white (s : string) :
  ~ PyStr.white s -> is_blank s = false.
Proof.
  intros H. apply not_true_is_false. intros Hb. apply H, is_blank_white, Hb.
Qed.

(** [take] cuts a text after its first [n] characters. *)
Lemma take_split (n : nat) (s : string) :
  exists rest,
    s = PyStr.take n s ++ rest
    /\ PyStr.len (PyStr.take n s) = Nat.min n (PyStr.len s)
    /\ PyStr.starts_char rest.
Proof.
  revert n. induction s as [|c s IH]; intros n.
  - exists "". simpl. rewrite Nat.min_0_r. auto.
  - cbn [PyStr.take PyStr.len].
    destruct (PyStr.is_continuation c) eqn:Hc.
    + destruct (IH n) as (rest & Hs & Hlen & Hrest). exists rest.
      change (String c (PyStr.take n s) ++ rest)
        with (String c (PyStr.take n s ++ rest)).
      rewrite <- Hs. cbn [PyStr.len]. rewrite Hc. auto.
    + destruct n as [|n].
      * exists (String c s). repeat split. exact Hc.
      * destruct (IH n) as (rest & Hs & Hlen & Hrest). exists rest.
        change (String c (PyStr.take n s) ++ rest)
          with (String c (PyStr.take n s ++ rest)).
        rewrite <- Hs. cbn [PyStr.len]. rewrite Hc, Hlen. auto.
Qed.

Lemma trigger_trace (w : world) (ss : session_state) (count : Z) :
  fst (trigger_workflow w ss count)
  = [Shown (UWrite ("🔗 Calling: " ++ get_n8n_url ss));
     Posted (trigger_request ss count)].
Proof.
  unfold trigger_workflow.
  destruct (requests_post w (trigger_request ss count) ≫= classify_response);
    reflexivity.
Qed.

(** C6. For a record count [n] between 1 and 100, the one request that
    [trigger_workflow] posts carries the timeout [max(300, 3n)], and that
    timeout is at least 300 seconds. *)
Theorem trigger_timeout (w : world) (ss : session_state) (n : Z) :
  1 <= n <= 100 ->
  map req_timeout (posted (fst (trigger_workflow w ss n))) = [Z.max 300 (3 * n)]
  /\ 300 <= Z.max 300 (3 * n).
Proof.
  intros Hn. rewrite trigger_trace. simpl. split.
  - f_equal. f_equal. lia.
  - lia.
Qed.

Lemma trigger_timeout_witness :
  map req_timeout
      (posted (fst (trigger_workflow (Examples.answering Examples.empty_body)
                                     initial_session 100)))
  = [Z.max 300 (3 * 100)]
  /\ 300 <= Z.max 300 (3 * 100).
Proof.
  apply (trigger_timeout (Examples.answering Examples.empty_body)
                         initial_session 100).
  lia.
Defined.

Lemma trigger_after_response (w : world) (ss : session_state) (count : Z)
  (r : response) (d : gmap string value) :
  requests_post w (trigger_request ss count) = Return r ->
  classify_response r = Return d ->
  snd (trigger_workflow w ss count) = Return d.
Proof.
  intros Hr Hd. unfold trigger_workflow. rewrite Hr. simpl.
  unfold mbind, result_bind. rewrite Hd. reflexivity.
Qed.

(** C2. When the server answers the call of [trigger_workflow] with the
    response [r], exactly one of four outcomes is returned, decided in this
    order: a status other than 200 gives the failure "HTTP <status>: <the
    first 200 characters of the body>"; status 200 with a body that is empty
    or made of white-space characters only gives the failure "n8n returned
    empty response"; status 200 with a body that [json()] cannot decode
    gives the failure "Invalid JSON: <the first 100 characters of the
    decoding error>"; otherwise the call succeeds with the decoded value.
    The first [n] characters of a text are the prefix that holds [n]
    characters, or all of them, and is followed by the start of a
    character. *)
Theorem trigger_classification (w : world) (ss : session_state) (count : Z)
  (r : response) :
  requests_post w (trigger_request ss count) = Return r ->
  let outcome := snd (trigger_workflow w ss count) in
  (status_code r <> 200 ->
     exists shown rest,
       text r = shown ++ rest
       /\ PyStr.len shown = Nat.min 200 (PyStr.len (text r))
       /\ PyStr.starts_char rest
       /\ outcome = Return (failed ("HTTP " ++ PyStr.of_Z (status_code r)
                                    ++ ": " ++ shown)))
  /\ (status_code r = 200 -> PyStr.white (text r) ->
        outcome = Return (failed "n8n returned empty response"))
  /\ (status_code r = 200 -> ~ PyStr.white (text r) ->
        forall e, response_json r = Raise e -> exn_type e = JSONDecodeError ->
        exists shown rest,
          exn_str e = shown ++ rest
          /\ PyStr.len shown = Nat.min 100 (PyStr.len (exn_str e))
          /\ PyStr.starts_char rest
          /\ outcome = Return (failed ("Invalid JSON: " ++ shown)))
  /\ (status_code r = 200 -> ~ PyStr.white (text r) ->
        forall data, response_json r = Return data ->
        outcome = Return (succeeded data)).
Proof.
  intros Hr outcome. subst outcome.
  split; [|split; [|split]].
  - intros Hs. destruct (take_split 200 (text r)) as (rest & H1 & H2 & H3).
    exists (PyStr.take 200 (text r)), rest.
    split; [exact H1|]. split; [exact H2|]. split; [exact H3|].
    apply (trigger_after_response _ _ _ r); [exact Hr|].
    unfold classify_response.
    destruct (Z.eqb_spec (status_code r) 200); [contradiction | reflexivity].
  - intros Hs Hb. apply (trigger_after_response _ _ _ r); [exact Hr|].
    unfold classify_response.
    rewrite Hs, (proj2 (is_blank_white (text r)) Hb). reflexivity.
  - intros Hs Hb e He Hc.
    destruct (take_split 100 (exn_str e)) as (rest & H1 & H2 & H3).
    exists (PyStr.take 100 (exn_str e)), rest.
    split; [exact H1|]. split; [exact H2|]. split; [exact H3|].
    apply (trigger_after_response _ _ _ r); [exact Hr|].
    unfold classify_response.
    rewrite Hs, (is_blank_not_white _ Hb), He, Hc. reflexivity.
  - intros Hs Hb data Hd. apply (trigger_after_response _ _ _ r); [exact Hr|].
    unfold classify_response.
    rewrite Hs, (is_blank_not_white _ Hb), Hd. reflexivity.
Qed.

(** [trigger(5)] answered by HTTP 500 with a body of 203 characters, the
    200th of two bytes: the failure shows the first 200. [trigger(5)]
    answered by HTTP 200 with a body of one em space: the response is
    empty. *)
Lemma trigger_classification_witness :
  (exists shown rest,
     text Examples.long_error = shown ++ rest
     /\ PyStr.len shown = Nat.min 200 (PyStr.len (text Examples.long_error))
     /\ PyStr.starts_char rest
     /\ snd (trigger_workflow (Examples.answering Examples.long_error)
                              initial_session 5)
        = Return (failed ("HTTP " ++ PyStr.of_Z 500 ++ ": " ++ shown)))
  /\ snd (trigger_workflow (Examples.answering Examples.long_error)
                           initial_session 5)
     = Return (failed ("HTTP 500: " ++ Examples.letters 199 ++ "é"))
  /\ snd (trigger_workflow (Examples.answering Examples.em_space_body)
                           initial_session 5)
     = Return (failed "n8n returned empty response").
Proof.
  split; [|split].
  - apply (proj1 (trigger_classification
                    (Examples.answering Examples.long_error)
                    initial_session 5 Examples.long_error eq_refl)).
    discriminate.
  - reflexivity.
  - apply (proj1 (proj2 (trigger_classification
                           (Examples.answering Examples.em_space_body)
                           initial_session 5 Examples.em_space_body eq_refl)));
      [reflexivity|].
    replace (text Examples.em_space_body) with (PyStr.utf8 0x2003 ++ "")
      by reflexivity.
    constructor; [|constructor]. vm_compute. tauto.
Defined.

Lemma failed_shape (msg : string) : outcome_shape (failed msg).
Proof.
  exists false. unfold failed. repeat split.
  - intros [v Hv]. rewrite lookup_insert_ne in Hv by discriminate.
    rewrite lookup_insert_ne in Hv by discriminate.
    rewrite lookup_empty in Hv. discriminate.
  - intros Hf; discriminate.
  - intros _. exists (VStr msg).
    rewrite lookup_insert_ne by discriminate. apply lookup_insert_eq.
  - intros v Hv. rewrite lookup_insert_ne in Hv by discriminate.
    rewrite lookup_insert_eq in Hv. exists msg. congruence.
Qed.

Lemma succeeded_shape (data : value) : outcome_shape (succeeded data).
Proof.
  exists true. unfold succeeded. repeat split.
  - intros _. exists data.
    rewrite lookup_insert_ne by discriminate. apply lookup_insert_eq.
  - intros [v Hv]. rewrite lookup_insert_ne in Hv by discriminate.
    rewrite lookup_insert_ne in Hv by discriminate.
    rewrite lookup_empty in Hv. discriminate.
  - intros Hf; discriminate.
  - intros v Hv. rewrite lookup_insert_ne in Hv by discriminate.
    rewrite lookup_insert_ne in Hv by discriminate.
    rewrite lookup_empty in Hv. discriminate.
Qed.

Lemma classify_response_cases (r : response) :
  (exists d, classify_response r = Return d /\ outcome_shape d)
  \/ (exists e, classify_response r = Raise e /\ response_json r = Raise e
                /\ exn_type e <> JSONDecodeError).
Proof.
  unfold classify_response.
  destruct (status_code r =? 200).
  - destruct (is_blank (text r)).
    + left. eexists. split; [reflexivity | apply failed_shape].
    + destruct (response_json r) as [data|e] eqn:Hj.
      * left. eexists. split; [reflexivity | apply succeeded_shape].
      * destruct (exn_type e) eqn:Hc;
          try (right; exists e; repeat split; congruence).
        left. eexists. split; [reflexivity | apply failed_shape].
  - left. eexists. split; [reflexivity | apply failed_shape].
Qed.

(** C9, as the code has it. [trigger_workflow] returns a dictionary of the
    documented shape ("ok" always, "data" exactly when it is true, "error",
    a string, exactly when it is false) for every input and every exception
    that derives from [Exception], the final handler turning the
    undocumented ones into a failure. The exception it lets through to its
    caller is one that does not derive from [Exception], raised by
    [requests.post] or by [json()]. *)
Theorem trigger_returns_or_propagates (w : world) (ss : session_state)
  (count : Z) :
  (exists d, snd (trigger_workflow w ss count) = Return d /\ outcome_shape d)
  \/ (exists e, snd (trigger_workflow w ss count) = Raise e
                /\ is_Exception e = false
                /\ raised_in_trigger w ss count e).
Proof.
  unfold trigger_workflow, raised_in_trigger.
  destruct (requests_post w (trigger_request ss count)) as [r|e] eqn:Hp; simpl.
  - unfold mbind, result_bind.
    destruct (classify_response_cases r) as [(d & Hd & Hs)|(e & He & Hj & Hc)].
    + rewrite Hd. left. exists d. split; [reflexivity | exact Hs].
    + rewrite He. simpl. unfold is_Exception.
      destruct (exn_type e) eqn:Hcls;
        try (left; eexists; split; [reflexivity | apply failed_shape]).
      right. exists e. split; [reflexivity|].
      split; [now rewrite Hcls|].
      right. exists r. split; [reflexivity | exact Hj].
  - unfold is_Exception.
    destruct (exn_type e) eqn:Hcls;
      try (left; eexists; split; [reflexivity | apply failed_shape]).
    right. exists e. split; [reflexivity|].
    split; [now rewrite Hcls|].
    left. reflexivity.
Qed.

(** C9, as stated, fails: a [KeyboardInterrupt] raised while the request is
    in flight is not an [Exception]; no handler of [trigger_workflow]
    catches it and no dictionary is returned. *)
Lemma trigger_propagates_interrupt :
  snd (trigger_workflow (Examples.raising (Exn BaseOnly "KeyboardInterrupt"))
                        initial_session 10)
  = Raise (Exn BaseOnly "KeyboardInterrupt")
  /\ ~ exists d,
         snd (trigger_workflow (Examples.raising (Exn BaseOnly "KeyboardInterrupt"))
                               initial_session 10) = Return d.
Proof.
  split; [reflexivity|]. intros [d Hd]. discriminate Hd.
Qed.

(* ===================================================================== *)
(** * Properties of the Presentation Renderer: source mix *)
(* ===================================================================== *)

Lemma count_if_cons {A} (p : A -> bool) (x : A) (xs : list A) :
  count_if p (x :: xs) = (Nat.b2n (p x) + count_if p xs)%nat.
Proof. unfold count_if. simpl. destruct (p x); reflexivity. Qed.

Lemma count_if_le {A} (p : A -> bool) (xs : list A) :
  (count_if p xs <= length xs)%nat.
Proof.
  induction xs as [|x xs IH]; [apply le_n|].
  rewrite count_if_cons. simpl length. destruct (p x); simpl; lia.
Qed.

Lemma count_if_disjoint {A} (p q : A -> bool) (xs : list A) :
  (forall x, p x && q x = false) ->
  (count_if p xs + count_if q xs <= length xs)%nat.
Proof.
  intros Hpq. induction xs as [|x xs IH]; [apply le_n|].
  rewrite !count_if_cons. simpl length. specialize (Hpq x).
  destruct (p x), (q x); simpl in *; try discriminate; lia.
Qed.

Lemma pubmed_is_exclusive (s : string) :
  in_pubmed s && (in_cadec s || in_fda s) = false.
Proof.
  unfold in_pubmed. destruct (String.eqb_spec s "pubmed") as [->|]; reflexivity.
Qed.

(** C5, as stated, fails: the source "cadec_fda" is counted both as a CADEC
    report and as an FDA alert, so one row feeds two of the three counts. *)
Lemma source_in_two_buckets :
  in_cadec "cadec_fda" = true
  /\ in_fda "cadec_fda" = true
  /\ (cadec_count ["cadec_fda"], fda_count ["cadec_fda"],
      pubmed_count ["cadec_fda"]) = (1%nat, 1%nat, 0%nat).
Proof. repeat split. Qed.

(** C5, as the code has it. The three counts are independent tests of the
    [source] field: "cadec" occurs in the lower-cased text; "fda" or
    "medwatch" occurs in the lower-cased text; the text equals "pubmed". A
    row adds one to each count whose test it passes. A row in the PubMed
    count is in neither of the others (the CADEC and FDA tests may both hold
    for one row); a row that passes no test is in none of the three counts;
    the sources "CADEC", "fda_alert", "pubmed", "unknown" give one each. *)
Theorem source_mix_counts (s : string) (source : list string) :
  (cadec_count (s :: source) = Nat.b2n (in_cadec s) + cadec_count source
   /\ fda_count (s :: source) = Nat.b2n (in_fda s) + fda_count source
   /\ pubmed_count (s :: source) = Nat.b2n (in_pubmed s) + pubmed_count source)%nat
  /\ in_pubmed s && (in_cadec s || in_fda s) = false
  /\ (pubmed_count source + cadec_count source <= length source
      /\ pubmed_count source + fda_count source <= length source)%nat
  /\ (in_cadec s || in_fda s || in_pubmed s = false ->
      (cadec_count (s :: source), fda_count (s :: source),
       pubmed_count (s :: source))
      = (cadec_count source, fda_count source, pubmed_count source))
  /\ (cadec_count ["CADEC"; "fda_alert"; "pubmed"; "unknown"],
      fda_count ["CADEC"; "fda_alert"; "pubmed"; "unknown"],
      pubmed_count ["CADEC"; "fda_alert"; "pubmed"; "unknown"])
     = (1%nat, 1%nat, 1%nat).
Proof.
  unfold cadec_count, fda_count, pubmed_count.
  split; [repeat split; apply count_if_cons|].
  split; [apply pubmed_is_exclusive|].
  split.
  - split; apply count_if_disjoint; intros x;
      pose proof (pubmed_is_exclusive x) as H;
      destruct (in_pubmed x), (in_cadec x), (in_fda x); simpl in *; congruence.
  - split; [|reflexivity].
    intros Hnone. rewrite !count_if_cons.
    destruct (in_cadec s), (in_fda s), (in_pubmed s); simpl in *;
      try discriminate; reflexivity.
Qed.

(** The row "unknown" passes none of the three tests. *)
Lemma source_mix_counts_witness :
  (cadec_count ["unknown"], fda_count ["unknown"], pubmed_count ["unknown"])
  = (cadec_count [], fda_count [], pubmed_count []).
Proof.
  apply (proj1 (proj2 (proj2 (proj2 (source_mix_counts "unknown" []))))).
  reflexivity.
Defined.

(* ===================================================================== *)
(** * Properties of the Presentation Renderer: severity chart *)
(* ===================================================================== *)

Section SeverityChart.

Abbreviation occ xs v := (count_occ Z.eq_dec xs v).
Abbreviation keys s := (map fst s).
Abbreviation by_index := (fun a b : Z * nat => fst a <= fst b).
Abbreviation positive_counts s := (Forall (fun e : Z * nat => (0 < snd e)%nat) s).

(** *** Tallying *)

Lemma count_of_bump (v x : Z) (s : list (Z * nat)) :
  count_of v (bump Z.eqb x s)
  = ((if (v =? x)%Z then 1 else 0) + count_of v s)%nat.
Proof.
  induction s as [|[k c] s IH]; simpl.
  - destruct (v =? x); reflexivity.
  - destruct (Z.eqb_spec x k) as [->|Hxk]; simpl.
    + destruct (v =? k); lia.
    + destruct (Z.eqb_spec v k) as [->|Hvk].
      * destruct (Z.eqb_spec k x); [congruence | reflexivity].
      * exact IH.
Qed.

Lemma in_keys_bump (k x : Z) (s : list (Z * nat)) :
  In k (keys (bump Z.eqb x s)) <-> k = x \/ In k (keys s).
Proof.
  induction s as [|[y c] s IH]; simpl.
  - intuition.
  - destruct (Z.eqb_spec x y) as [->|Hxy]; simpl.
    + intuition.
    + rewrite IH. intuition.
Qed.

Lemma NoDup_keys_bump (x : Z) (s : list (Z * nat)) :
  List.NoDup (keys s) -> List.NoDup (keys (bump Z.eqb x s)).
Proof.
  induction s as [|[y c] s IH]; simpl; intros Hnd.
  - constructor; [intros [] | constructor].
  - inversion Hnd as [|? ? Hy Hs]; subst.
    destruct (Z.eqb_spec x y) as [->|Hxy]; simpl.
    + constructor; assumption.
    + constructor; [|auto].
      rewrite in_keys_bump. intros [->|Hin]; [congruence | contradiction].
Qed.

Lemma positive_bump (x : Z) (s : list (Z * nat)) :
  positive_counts s -> positive_counts (bump Z.eqb x s).
Proof.
  induction s as [|[y c] s IH]; simpl; intros Hp.
  - repeat constructor.
  - inversion Hp; subst. destruct (x =? y); constructor; simpl in *; auto; lia.
Qed.

Lemma tally_from (xs : list Z) (acc : list (Z * nat)) :
  List.NoDup (keys acc) -> positive_counts acc ->
  let s := fold_left (fun a x => bump Z.eqb x a) xs acc in
  List.NoDup (keys s) /\ positive_counts s
  /\ forall v, count_of v s = (occ xs v + count_of v acc)%nat.
Proof.
  revert acc. induction xs as [|x xs IH]; simpl; intros acc Hnd Hp.
  - auto.
  - destruct (IH (bump Z.eqb x acc)) as (H1 & H2 & H3);
      [apply NoDup_keys_bump, Hnd | apply positive_bump, Hp |].
    split; [exact H1 | split; [exact H2 |]].
    intros v. rewrite H3, count_of_bump.
    destruct (Z.eq_dec x v) as [->|Hxv].
    + rewrite Z.eqb_refl. lia.
    + destruct (Z.eqb_spec v x); [congruence | lia].
Qed.

Lemma entry_iff_count_of (s : list (Z * nat)) (v : Z) (c : nat) :
  List.NoDup (keys s) -> positive_counts s ->
  In (v, c) s <-> count_of v s = c /\ (0 < c)%nat.
Proof.
  induction s as [|[k n] s IH]; simpl; intros Hnd Hp.
  - split; [intros [] | lia].
  - inversion Hnd as [|? ? Hk Hs]; subst. inversion Hp as [|? ? Hn Hps]; subst.
    simpl in Hn. destruct (Z.eqb_spec v k) as [->|Hvk].
    + split.
      * intros [Heq|Hin]; [injection Heq as ->; auto|].
        exfalso. apply Hk. apply (in_map fst) in Hin. exact Hin.
      * intros [-> _]. left. reflexivity.
    + rewrite <- IH by assumption. split.
      * intros [Heq|Hin]; [congruence | exact Hin].
      * auto.
Qed.

(** *** The two sorts *)

Lemma insert_by_count_perm (e : Z * nat) (s : list (Z * nat)) :
  Permutation (insert_by_count e s) (e :: s).
Proof.
  induction s as [|h t IH]; simpl; [reflexivity|].
  destruct (snd e <? snd h)%nat; [|reflexivity].
  rewrite IH. apply perm_swap.
Qed.

Lemma value_counts_perm (xs : list Z) :
  Permutation (value_counts Z.eqb xs) (tally Z.eqb xs).
Proof.
  unfold value_counts. induction (tally Z.eqb xs) as [|e s IH]; simpl.
  - reflexivity.
  - rewrite insert_by_count_perm, IH. reflexivity.
Qed.

Lemma insert_by_index_perm (e : Z * nat) (s : list (Z * nat)) :
  Permutation (insert_by_index e s) (e :: s).
Proof.
  induction s as [|h t IH]; simpl; [reflexivity|].
  destruct (fst e <=? fst h); [reflexivity|].
  rewrite IH. apply perm_swap.
Qed.

Lemma sort_index_perm (s : list (Z * nat)) : Permutation (sort_index s) s.
Proof.
  unfold sort_index. induction s as [|e s IH]; simpl.
  - reflexivity.
  - rewrite insert_by_index_perm, IH. reflexivity.
Qed.

Lemma insert_by_index_sorted (e : Z * nat) (s : list (Z * nat)) :
  StronglySorted by_index s -> StronglySorted by_index (insert_by_index e s).
Proof.
  induction s as [|h t IH]; simpl; intros Hs.
  - repeat constructor.
  - inversion Hs as [|? ? Ht Hh]; subst.
    destruct (Z.leb_spec (fst e) (fst h)) as [Hle|Hlt].
    + constructor; [exact Hs|]. constructor; [exact Hle|].
      eapply List.Forall_impl; [|exact Hh]. simpl. intros a Ha. lia.
    + constructor; [apply IH, Ht|].
      eapply Permutation_Forall; [symmetry; apply insert_by_index_perm|].
      constructor; [simpl; lia | exact Hh].
Qed.

Lemma sort_index_sorted (s : list (Z * nat)) :
  StronglySorted by_index (sort_index s).
Proof.
  unfold sort_index. induction s as [|e s IH]; simpl.
  - constructor.
  - apply insert_by_index_sorted, IH.
Qed.

Lemma sorted_distinct_keys (s : list (Z * nat)) :
  StronglySorted by_index s -> List.NoDup (keys s) -> StronglySorted Z.lt (keys s).
Proof.
  induction s as [|h t IH]; simpl; intros Hs Hnd.
  - constructor.
  - inversion Hs as [|? ? Ht Hh]; subst. inversion Hnd as [|? ? Hn Hndt]; subst.
    constructor; [auto|].
    rewrite List.Forall_forall in *. intros k Hk.
    apply in_map_iff in Hk as (e & <- & He).
    specialize (Hh e He). simpl in Hh.
    assert (fst h <> fst e) by (intros Heq; apply Hn; rewrite Heq; apply in_map, He).
    lia.
Qed.

(** *** The first maximum *)

Lemma first_max_spec (best : Z * nat) (t : list (Z * nat)) :
  exists l1 l2,
    best :: t = (l1 ++ first_max best t :: l2)%list
    /\ Forall (fun e => (snd e < snd (first_max best t))%nat) l1
    /\ Forall (fun e => (snd e <= snd (first_max best t))%nat) l2.
Proof.
  revert best. induction t as [|h t IH]; intros best; simpl.
  - exists [], []. repeat split; constructor.
  - destruct (Nat.ltb_spec (snd best) (snd h)) as [Hlt|Hge].
    + destruct (IH h) as (l1 & l2 & Heq & H1 & H2).
      assert (Hh : (snd h <= snd (first_max h t))%nat).
      { destruct l1 as [|a l1]; simpl in Heq.
        - injection Heq as Hm _. rewrite <- Hm. lia.
        - injection Heq as <- _. inversion H1; subst. lia. }
      exists (best :: l1), l2. split; [|split].
      * simpl. f_equal. exact Heq.
      * constructor; [lia | exact H1].
      * exact H2.
    + destruct (IH best) as (l1 & l2 & Heq & H1 & H2).
      destruct l1 as [|a l1]; simpl in Heq.
      * injection Heq as Hm Ht. exists [], (h :: l2). split; [|split].
        -- simpl. rewrite <- Hm. f_equal. f_equal. exact Ht.
        -- constructor.
        -- constructor; [rewrite <- Hm; exact Hge | exact H2].
      * injection Heq as Ha Ht. subst a.
        inversion H1 as [|? ? Hb Hl1]; subst.
        exists (best :: h :: l1), l2. split; [|split].
        -- simpl. f_equal. f_equal. exact Ht.
        -- constructor; [exact Hb|]. constructor; [lia | exact Hl1].
        -- exact H2.
Qed.

Lemma sorted_after (l1 l2 : list (Z * nat)) (m : Z * nat) :
  StronglySorted Z.lt (keys (l1 ++ m :: l2)) ->
  Forall (fun e => fst m < fst e) l2.
Proof.
  induction l1 as [|a l1 IH]; simpl; intros Hs.
  - inversion Hs as [|? ? _ Hm]; subst.
    rewrite List.Forall_forall in *. intros e He. apply Hm, in_map, He.
  - inversion Hs; subst. auto.
Qed.

(** *** The chart and its caption *)

Lemma severity_distribution_entries (col : list Z) (v : Z) (c : nat) :
  In (v, c) (severity_distribution col) <-> In v col /\ c = occ col v.
Proof.
  destruct (tally_from col []) as (Hnd & Hp & Hc);
    [constructor | constructor |].
  fold (tally Z.eqb col) in Hnd, Hp, Hc.
  assert (Hperm : Permutation (severity_distribution col) (tally Z.eqb col)).
  { unfold severity_distribution.
    rewrite sort_index_perm. apply value_counts_perm. }
  split.
  - intros Hin. eapply Permutation_in in Hin; [|exact Hperm].
    apply entry_iff_count_of in Hin as [Hv Hpos]; [|assumption..].
    rewrite Hc in Hv. simpl in Hv. rewrite Nat.add_0_r in Hv. subst c.
    split; [|reflexivity]. apply (count_occ_In Z.eq_dec). lia.
  - intros [Hin ->]. eapply Permutation_in; [symmetry; exact Hperm|].
    apply entry_iff_count_of; [assumption..|].
    rewrite Hc. simpl. rewrite Nat.add_0_r. split; [reflexivity|].
    apply (count_occ_In Z.eq_dec), Hin.
Qed.

Lemma severity_distribution_sorted (col : list Z) :
  StronglySorted Z.lt (keys (severity_distribution col)).
Proof.
  apply sorted_distinct_keys.
  - apply sort_index_sorted.
  - destruct (tally_from col []) as (Hnd & _); [constructor | constructor |].
    fold (tally Z.eqb col) in Hnd.
    eapply Permutation_NoDup; [|exact Hnd].
    apply Permutation_map. symmetry. unfold severity_distribution.
    rewrite sort_index_perm. apply value_counts_perm.
Qed.

End SeverityChart.

(** C8. For a table with at least one row, the severity chart holds one
    entry per distinct severity value, in ascending order of the value,
    each with the number of rows that carry it; the caption names the value
    with the largest number of rows, and among values with that number the
    smallest. *)
Theorem severity_distribution_mode (ai_severity_score : list Z) :
  ai_severity_score <> [] ->
  StronglySorted Z.lt (map fst (severity_distribution ai_severity_score))
  /\ (forall v c,
        In (v, c) (severity_distribution ai_severity_score)
        <-> In v ai_severity_score
            /\ c = count_occ Z.eq_dec ai_severity_score v)
  /\ exists mode,
       most_common ai_severity_score
       = Return (mode, count_occ Z.eq_dec ai_severity_score mode)
       /\ In mode ai_severity_score
       /\ (forall v, (count_occ Z.eq_dec ai_severity_score v
                      <= count_occ Z.eq_dec ai_severity_score mode)%nat)
       /\ (forall v, count_occ Z.eq_dec ai_severity_score v
                     = count_occ Z.eq_dec ai_severity_score mode ->
                     mode <= v).
Proof.
  intros Hne.
  split; [apply severity_distribution_sorted|].
  split; [apply severity_distribution_entries|].
  pose proof (severity_distribution_sorted ai_severity_score) as Hsorted.
  pose proof (severity_distribution_entries ai_severity_score) as Hent.
  unfold most_common.
  destruct (severity_distribution ai_severity_score) as [|h t] eqn:Hs.
  - exfalso. destruct ai_severity_score as [|x xs]; [congruence|].
    apply (Hent x (count_occ Z.eq_dec (x :: xs) x)).
    split; [left; reflexivity | reflexivity].
  - simpl. destruct (first_max_spec h t) as (l1 & l2 & Heq & H1 & H2).
    destruct (first_max h t) as [m c] eqn:Hm. simpl in H1, H2.
    assert (Hin : In (m, c) (h :: t))
      by (rewrite Heq; apply in_elt).
    apply Hent in Hin as [Hmin ->].
    rewrite Heq in Hsorted, Hent.
    assert (Hmax : forall v, In v ai_severity_score ->
              (count_occ Z.eq_dec ai_severity_score v
               <= count_occ Z.eq_dec ai_severity_score m)%nat).
    { intros v Hv.
      assert (Hvin : In (v, count_occ Z.eq_dec ai_severity_score v)
                        (l1 ++ (m, count_occ Z.eq_dec ai_severity_score m) :: l2))
        by (apply Hent; auto).
      apply in_app_or in Hvin as [Hl|[Heqm|Hr]].
      - rewrite List.Forall_forall in H1. specialize (H1 _ Hl). simpl in H1. lia.
      - injection Heqm as _ ->. lia.
      - rewrite List.Forall_forall in H2. apply (H2 _ Hr). }
    exists m. split; [reflexivity|]. split; [exact Hmin|]. split.
    + intros v. destruct (in_dec Z.eq_dec v ai_severity_score) as [Hv|Hv].
      * apply Hmax, Hv.
      * apply (count_occ_not_In Z.eq_dec) in Hv. rewrite Hv. lia.
    + intros v Hv.
      assert (Hvcol : In v ai_severity_score).
      { apply (count_occ_In Z.eq_dec). rewrite Hv.
        apply (count_occ_In Z.eq_dec), Hmin. }
      assert (Hvin : In (v, count_occ Z.eq_dec ai_severity_score v)
                        (l1 ++ (m, count_occ Z.eq_dec ai_severity_score m) :: l2))
        by (apply Hent; auto).
      apply in_app_or in Hvin as [Hl|[Heqm|Hr]].
      * rewrite List.Forall_forall in H1. specialize (H1 _ Hl). simpl in H1. lia.
      * injection Heqm as -> _. lia.
      * apply sorted_after in Hsorted.
        rewrite List.Forall_forall in Hsorted.
        specialize (Hsorted _ Hr). simpl in Hsorted. lia.
Qed.

(** The severities 5, 5, 1, 3, 3: the values 3 and 5 both occur twice and
    the caption names 3. *)
Example severity_chart_5_5_1_3_3 :
  severity_distribution [5; 5; 1; 3; 3] = [(1, 1%nat); (3, 2%nat); (5, 2%nat)]
  /\ most_common [5; 5; 1; 3; 3] = Return (3, 2%nat).
Proof. split; reflexivity. Qed.

Lemma severity_distribution_mode_witness :
  StronglySorted Z.lt (map fst (severity_distribution [5; 5; 1; 3; 3]))
  /\ (forall v c,
        In (v, c) (severity_distribution [5; 5; 1; 3; 3])
        <-> In v [5; 5; 1; 3; 3]
            /\ c = count_occ Z.eq_dec [5; 5; 1; 3; 3] v)
  /\ exists mode,
       most_common [5; 5; 1; 3; 3]
       = Return (mode, count_occ Z.eq_dec [5; 5; 1; 3; 3] mode)
       /\ In mode [5; 5; 1; 3; 3]
       /\ (forall v, (count_occ Z.eq_dec [5; 5; 1; 3; 3]%Z v
                      <= count_occ Z.eq_dec [5; 5; 1; 3; 3]%Z mode)%nat)
       /\ (forall v, count_occ Z.eq_dec [5; 5; 1; 3; 3] v
                     = count_occ Z.eq_dec [5; 5; 1; 3; 3] mode ->
                     mode <= v).
Proof.
  apply (severity_distribution_mode [5; 5; 1; 3; 3]). discriminate.
Defined.

(* ===================================================================== *)
(** * Properties of tables built from records *)
(* ===================================================================== *)

Lemma mem_string_In (k : string) (l : list string) :
  mem_string k l = true <-> In k l.
Proof.
  unfold mem_string. rewrite existsb_exists. split.
  - intros (x & Hx & Heq). apply String.eqb_eq in Heq. subst. exact Hx.
  - intros Hk. exists k. split; [exact Hk | apply String.eqb_refl].
Qed.

Lemma add_keys_In (seen ks : list string) (k : string) :
  In k (add_keys seen ks) <-> In k seen \/ In k ks.
Proof.
  revert seen. induction ks as [|a ks IH]; intros seen; simpl.
  - intuition.
  - destruct (mem_string a seen) eqn:Hm.
    + rewrite IH. apply mem_string_In in Hm.
      split; [intuition | intros [H|[<-|H]]; auto].
    + rewrite IH, in_app_iff. simpl. intuition.
Qed.

Lemma add_keys_NoDup (seen ks : list string) :
  List.NoDup seen -> List.NoDup (add_keys seen ks).
Proof.
  revert seen. induction ks as [|a ks IH]; intros seen Hnd; simpl; [exact Hnd|].
  destruct (mem_string a seen) eqn:Hm; [auto|].
  apply IH. apply List.NoDup_app; [exact Hnd | | ].
  - repeat constructor. intros [].
  - intros x Hx [<-|[]]. apply mem_string_In in Hx. congruence.
Qed.

Lemma union_keys_from (recs : list (list (string * value))) (seen : list string) :
  List.NoDup seen ->
  let cols := fold_left (fun seen r => add_keys seen (map fst r)) recs seen in
  List.NoDup cols
  /\ forall k, In k cols <-> In k seen \/ exists r, In r recs /\ In k (map fst r).
Proof.
  revert seen. induction recs as [|r recs IH]; intros seen Hnd; simpl.
  - split; [exact Hnd|]. intros k. split; [auto | intros [H|(r & [] & _)]; exact H].
  - destruct (IH (add_keys seen (map fst r))) as [H1 H2];
      [apply add_keys_NoDup, Hnd|].
    split; [exact H1|]. intros k. rewrite H2, add_keys_In. split.
    + intros [[H|H]|(r' & Hr' & Hk)]; eauto.
    + intros [H|(r' & [<-|Hr'] & Hk)]; eauto.
Qed.

Lemma union_keys_NoDup (recs : list (list (string * value))) :
  List.NoDup (union_keys recs).
Proof. apply (union_keys_from recs []). constructor. Qed.

Lemma union_keys_In (recs : list (list (string * value))) (k : string) :
  In k (union_keys recs) <-> exists r, In r recs /\ In k (map fst r).
Proof.
  unfold union_keys.
  rewrite (proj2 (union_keys_from recs [] (List.NoDup_nil _))).
  simpl. intuition.
Qed.

Lemma column_index_In (cols : list string) (k : string) :
  In k cols ->
  exists j, column_index (LStr k) (map LStr cols) = Some j
            /\ nth_error cols j = Some k.
Proof.
  induction cols as [|c cols IH]; simpl; [intros []|].
  intros Hk. destruct (String.eqb_spec k c) as [->|Hne].
  - exists O. split; reflexivity.
  - destruct Hk as [->|Hk]; [congruence|].
    destruct (IH Hk) as (j & Hj & Hn). exists (S j). rewrite Hj. split; [reflexivity | exact Hn].
Qed.

Lemma dict_get_In (k : string) (d : list (string * value)) :
  In k (map fst d) <-> exists v, dict_get k d = Some v.
Proof.
  induction d as [|[k' v'] d IH]; simpl.
  - split; [intros [] | intros [v Hv]; discriminate].
  - destruct (String.eqb_spec k k') as [->|Hne].
    + split; [eauto | auto].
    + rewrite <- IH. split; [intros [H|H]; [congruence | exact H] | auto].
Qed.

(** The table built from a list of mappings has one row per mapping, in
    the order of the list; its columns are the keys of the mappings, each
    once; the cell of row [i] in column [k] is the value the [i]-th mapping
    gives to [k], and is missing when that mapping lacks [k]. *)
Lemma frame_of_records_spec (recs : list (list (string * value))) :
  let df := frame_of_records recs in
  len df = length recs
  /\ List.NoDup (columns df)
  /\ (forall c, In c (columns df)
                <-> exists k r, c = LStr k /\ In r recs /\ In k (map fst r))
  /\ (forall i r k, nth_error recs i = Some r -> In (LStr k) (columns df) ->
        cell df i (LStr k) = Some (default VNone (dict_get k r))).
Proof.
  unfold frame_of_records, len. simpl. repeat split.
  - apply length_map.
  - apply Finite.Injective_map_NoDup; [|apply union_keys_NoDup].
    intros a b Hab. congruence.
  - intros Hc. apply in_map_iff in Hc as (k & <- & Hk).
    apply union_keys_In in Hk as (r & Hr & Hkr). eauto.
  - intros (k & r & -> & Hr & Hk). apply in_map, union_keys_In. eauto.
  - intros i r k Hi Hk. unfold cell. simpl.
    rewrite nth_error_map, Hi. simpl.
    apply in_map_iff in Hk as (k' & Heq & Hk). injection Heq as ->.
    destruct (column_index_In _ _ Hk) as (j & -> & Hj).
    rewrite nth_error_map, Hj. reflexivity.
Qed.

(* ===================================================================== *)
(** * Properties of the Response Normalizer *)
(* ===================================================================== *)

Lemma DataFrame_records (lib : library) (l : list value) :
  forallb is_dict l = true ->
  DataFrame lib (VList l) = Return (frame_of_records (map dict_items l)).
Proof. intros H. unfold DataFrame. rewrite H. reflexivity. Qed.

Lemma DataFrame_wrapped (lib : library) (v : value) :
  match v with VList _ => False | _ => True end ->
  DataFrame lib (VList [v]) = Return (wrapped v).
Proof. destruct v; simpl; intros H; try reflexivity. contradiction. Qed.

Lemma wrapped_len (v : value) : len (wrapped v) = 1%nat.
Proof. destruct v; reflexivity. Qed.




(* ===================================================================== *)
(** * Properties of the Session State Holder *)
(* ===================================================================== *)

Lemma analyzing_now_inv (ss : session_state) :
  analyzing_now ss = true -> analyzing ss = Some true /\ results ss = None.
Proof.
  unfold analyzing_now.
  destruct (analyzing ss) as [[|]|], (results ss); intros H;
    try discriminate; auto.
Qed.

Lemma phase_analyzing (ss : session_state) :
  analyzing_now ss = true -> phase_of ss = Analyzing.
Proof. unfold phase_of. intros ->. reflexivity. Qed.

Lemma succeeded_lookup (data : value) :
  succeeded data !! "ok" = Some (VBool true)
  /\ succeeded data !! "data" = Some data.
Proof.
  unfold succeeded. split.
  - apply lookup_insert_eq.
  - rewrite lookup_insert_ne by discriminate. apply lookup_insert_eq.
Qed.

(** A run in the analyzing phase, with no button pressed, is the branch of
    lines 202-253 on the session the sidebar leaves. *)
Lemma script_analyzing (lib : library) (w : world) (inp : widgets)
  (ss : session_state) :
  start_analysis inp = false -> analyzing_now ss = true ->
  script lib w inp ss
  = analysis lib w inp (with_n8n_url (in_n8n_url inp) ss).
Proof.
  intros Hstart Hnow. unfold script. rewrite Hstart.
  destruct (analyzing_now_inv ss Hnow) as [Ha Hr].
  unfold analyzing_now. simpl. rewrite Ha, Hr. reflexivity.
Qed.

Lemma handle_data_cases (lib : library) (w : world) (data : value)
  (ss : session_state) :
  let '(trace, ss', e) := handle_data lib w data ss in
  match snd (parse_response lib data) with
  | Return (Some df, outs) =>
      if (0 <? len df)%nat then
        if has_column "ai_severity_score" df then
          ss' = store (time_end w - time_start w)%Q df outs ss /\ e = Rerun
        else
          ss' = ss /\ e = Stopped
          /\ In (Shown (UError "⚠️ Missing AI analysis columns!")) trace
          /\ In (Shown (UWriteColumns (columns df))) trace
      else
        ss' = ss /\ e = Completed /\ In (Shown (UError "❌ No data")) trace
  | Return (None, _) =>
      ss' = ss /\ e = Completed /\ In (Shown (UError "❌ No data")) trace
  | Raise exc => ss' = ss /\ e = Uncaught exc
  end.
Proof.
  unfold handle_data.
  destruct (parse_response lib data) as [evs [[[df|] outs]|exc]]; simpl.
  - destruct (0 <? len df)%nat; [destruct (has_column "ai_severity_score" df)|];
      simpl; repeat split; apply in_or_app; right; simpl; auto.
  - repeat split. apply in_or_app; right; simpl; auto.
  - split; reflexivity.
Qed.

Lemma analysis_on_data (lib : library) (w : world) (inp : widgets)
  (ss : session_state) (data : value) :
  snd (trigger_workflow w ss (records inp)) = Return (succeeded data) ->
  exists before,
    analysis lib w inp ss
    = ((before ++ fst (fst (handle_data lib w data ss)))%list,
       snd (fst (handle_data lib w data ss)),
       snd (handle_data lib w data ss)).
Proof.
  intros Htr. unfold analysis.
  destruct (trigger_workflow w ss (records inp)) as [trace returned].
  simpl in Htr. subst returned.
  destruct (succeeded_lookup data) as [-> ->]. simpl.
  destruct (handle_data lib w data ss) as [[after ss'] e]. simpl.
  eexists (_ :: _ :: _ :: _ :: _ :: _ :: trace ++ [_; _; _])%list.
  do 2 f_equal. simpl. rewrite <- List.app_assoc. reflexivity.
Qed.

Lemma label_eqb_eq (a b : label) : label_eqb a b = true <-> a = b.
Proof.
  destruct a, b; simpl; split; intros H; try discriminate; try congruence.
  - apply String.eqb_eq in H. congruence.
  - injection H as ->. apply String.eqb_refl.
  - apply Z.eqb_eq in H. congruence.
  - injection H as ->. apply Z.eqb_refl.
Qed.

Lemma has_column_In (name : string) (df : frame) :
  has_column name df = true <-> In (LStr name) (columns df).
Proof.
  unfold has_column. rewrite existsb_exists. split.
  - intros (c & Hc & Heq). apply label_eqb_eq in Heq. subst. exact Hc.
  - intros H. exists (LStr name). split; [exact H | apply label_eqb_eq; reflexivity].
Qed.

(** The column test of line 227 holds for a table of row mappings as soon
    as one of the rows has the key. *)
Lemma has_column_records (name : string) (recs : list (list (string * value))) :
  has_column name (frame_of_records recs) = true
  <-> exists r, In r recs /\ In name (map fst r).
Proof.
  rewrite has_column_In.
  rewrite (proj1 (proj2 (proj2 (frame_of_records_spec recs)))).
  split.
  - intros (k & r & Heq & Hr & Hk). injection Heq as ->. eauto.
  - intros (r & Hr & Hk). eauto.
Qed.

(** C3, as the code has it. In a run that analyzes and whose call succeeded
    with [data], the table [parse_response] returns is stored only if it is
    non-empty and has the column "ai_severity_score"; for a table of row
    mappings that column exists as soon as one row carries the field. When
    no table comes back or the table is empty, the error "No data" is
    shown; when the column is absent, the error "Missing AI analysis
    columns!" is shown with the list of the columns present and the run is
    stopped; in both cases the session state is left as it was, so no result
    is stored. *)
Theorem validation_before_storing (lib : library) (w : world) (inp : widgets)
  (ss : session_state) (data : value) :
  start_analysis inp = false -> analyzing_now ss = true ->
  snd (trigger_workflow w (with_n8n_url (in_n8n_url inp) ss) (records inp))
  = Return (succeeded data) ->
  (let ss1 := with_n8n_url (in_n8n_url inp) ss in
   let '(trace, ss', e) := script lib w inp ss in
   match snd (parse_response lib data) with
   | Return (Some df, outs) =>
       if (0 <? len df)%nat then
         if has_column "ai_severity_score" df then
           ss' = store (time_end w - time_start w)%Q df outs ss1 /\ e = Rerun
         else
           ss' = ss1 /\ e = Stopped
           /\ In (Shown (UError "⚠️ Missing AI analysis columns!")) trace
           /\ In (Shown (UWriteColumns (columns df))) trace
       else
         ss' = ss1 /\ e = Completed /\ In (Shown (UError "❌ No data")) trace
   | Return (None, _) =>
       ss' = ss1 /\ e = Completed /\ In (Shown (UError "❌ No data")) trace
   | Raise exc => ss' = ss1 /\ e = Uncaught exc
   end)
  /\ (forall recs,
        has_column "ai_severity_score" (frame_of_records recs) = true
        <-> exists r, In r recs /\ In "ai_severity_score" (map fst r)).
Proof.
  intros Hstart Hnow Htr. split; [|intros recs; apply has_column_records].
  rewrite (script_analyzing lib w inp ss Hstart Hnow).
  destruct (analysis_on_data lib w inp _ data Htr) as [before ->].
  pose proof (handle_data_cases lib w data (with_n8n_url (in_n8n_url inp) ss)) as H.
  destruct (handle_data lib w data (with_n8n_url (in_n8n_url inp) ss))
    as [[after ss'] e].
  simpl. destruct (snd (parse_response lib data)) as [[[df|] outs]|exc].
  - destruct (0 <? len df)%nat; [destruct (has_column "ai_severity_score" df)|].
    + exact H.
    + destruct H as (H1 & H2 & H3 & H4).
      repeat split; auto; apply in_or_app; right; assumption.
    + destruct H as (H1 & H2 & H3).
      repeat split; auto; apply in_or_app; right; assumption.
  - destruct H as (H1 & H2 & H3).
    repeat split; auto; apply in_or_app; right; assumption.
  - exact H.
Qed.

(** A body whose two rows both carry a score: the table is stored and the
    script asks for a rerun. *)
Lemma validation_before_storing_witness :
  let w := Examples.answering
             (Examples.ok_body (RefCodec.dumps (VList Examples.payload_records))) in
  let inp := Examples.idle_widgets 10 in
  snd (fst (script RefCodec.lib w inp Examples.started))
  = store (time_end w - time_start w)%Q
          (frame_of_records (map dict_items Examples.payload_records))
          (VDict []) (with_n8n_url (in_n8n_url inp) Examples.started)
  /\ snd (script RefCodec.lib w inp Examples.started) = Rerun.
Proof.
  pose proof (proj1 (validation_before_storing RefCodec.lib
             (Examples.answering
                (Examples.ok_body (RefCodec.dumps (VList Examples.payload_records))))
             (Examples.idle_widgets 10) Examples.started
             (VList Examples.payload_records) eq_refl eq_refl eq_refl)) as H.
  vm_compute in H. vm_compute. exact H.
Defined.

(** C3, as stated, fails on "every row": of these two rows the second has
    no severity score, yet the table passes the test of line 227 and is
    stored, the score of the second row missing. *)
Lemma row_without_score_is_stored :
  existsb (fun r => negb (dict_has "ai_severity_score" (dict_items r)))
          Examples.uneven_rows = true
  /\ results (after_run RefCodec.lib
                (Examples.answering (Examples.ok_body Examples.uneven_body))
                (Examples.idle_widgets 10) Examples.started)
     = Some {| columns := [LStr "ai_severity_score"; LStr "source"];
               rows := [[VInt 3; VNone]; [VNone; VStr "cadec"]] |}.
Proof. split; vm_compute; reflexivity. Qed.

Lemma posted_app (a b : list effect) :
  posted (a ++ b) = (posted a ++ posted b)%list.
Proof.
  induction a as [|[u|r] a IH]; simpl; [reflexivity | exact IH | f_equal; exact IH].
Qed.

Lemma posted_shown (us : list ui_event) : posted (shown us) = [].
Proof. induction us as [|u us IH]; simpl; [reflexivity | exact IH]. Qed.

Lemma handle_data_posted (lib : library) (w : world) (data : value)
  (ss : session_state) :
  posted (fst (fst (handle_data lib w data ss))) = [].
Proof.
  unfold handle_data, no_data.
  destruct (parse_response lib data) as [evs [[[df|] outs]|exc]]; simpl;
    [destruct (0 <? len df)%nat;
       [destruct (has_column "ai_severity_score" df)|] | |];
    simpl; rewrite ?posted_app, ?posted_shown; reflexivity.
Qed.

(** The branch taken while analyzing posts the request once, however the
    run ends. *)
Lemma analysis_posted (lib : library) (w : world) (inp : widgets)
  (ss : session_state) :
  posted (fst (fst (analysis lib w inp ss))) = [trigger_request ss (records inp)].
Proof.
  unfold analysis.
  pose proof (trigger_trace w ss (records inp)) as Htrace.
  destruct (trigger_workflow w ss (records inp)) as [trace returned].
  simpl in Htrace. subst trace.
  destruct returned as [result|e]; [|reflexivity].
  destruct (result !! "ok") as [ok|]; [|reflexivity].
  destruct (truthy ok).
  - destruct (result !! "data") as [data|]; [|reflexivity].
    pose proof (handle_data_posted lib w data ss) as Hh.
    destruct (handle_data lib w data ss) as [[after ss'] e]. simpl in *.
    rewrite Hh. reflexivity.
  - destruct (result !! "error"); reflexivity.
Qed.

Lemma analysis_on_failure (lib : library) (w : world) (inp : widgets)
  (ss : session_state) (d : gmap string value) :
  snd (trigger_workflow w ss (records inp)) = Return d ->
  d !! "ok" = Some (VBool false) ->
  snd (fst (analysis lib w inp ss)) = ss.
Proof.
  intros Htr Hok. unfold analysis.
  destruct (trigger_workflow w ss (records inp)) as [trace returned].
  simpl in Htr. subst returned. rewrite Hok. simpl.
  destruct (d !! "error"); reflexivity.
Qed.

Lemma analysis_on_raise (lib : library) (w : world) (inp : widgets)
  (ss : session_state) (e : exn) :
  snd (trigger_workflow w ss (records inp)) = Raise e ->
  snd (fst (analysis lib w inp ss)) = ss.
Proof.
  intros Htr. unfold analysis.
  destruct (trigger_workflow w ss (records inp)) as [trace returned].
  simpl in Htr. subst returned. reflexivity.
Qed.

Lemma handle_data_rejected (lib : library) (w : world) (data : value)
  (ss : session_state) :
  validated lib data = None -> snd (fst (handle_data lib w data ss)) = ss.
Proof.
  unfold validated. intros Hv.
  pose proof (handle_data_cases lib w data ss) as H.
  destruct (handle_data lib w data ss) as [[trace ss'] e]. simpl.
  destruct (snd (parse_response lib data)) as [[[df|] outs]|exc].
  - destruct (0 <? len df)%nat; [destruct (has_column "ai_severity_score" df)|];
      simpl in Hv; [discriminate | apply H | apply H].
  - apply H.
  - apply H.
Qed.

(** C4, as the code has it. A run that analyzes and does not succeed
    leaves the session state as the sidebar left it: this holds for every
    dictionary of [trigger_workflow] whose "ok" is false, for an exception
    that leaves [trigger_workflow], and for data that fail the validation.
    No table is stored; the [analyzing] flag, which no line of the script
    clears, is still set, so the session is in the analyzing phase, not
    idle, and the next run on which "Start Analysis" is not pressed posts
    the request again. *)
Theorem failed_run_stays_analyzing (lib : library) (w : world) (inp : widgets)
  (ss : session_state) :
  start_analysis inp = false -> analyzing_now ss = true ->
  let ss1 := with_n8n_url (in_n8n_url inp) ss in
  let ss' := after_run lib w inp ss in
  ((forall d, snd (trigger_workflow w ss1 (records inp)) = Return d ->
              d !! "ok" = Some (VBool false) -> ss' = ss1)
   /\ (forall e, snd (trigger_workflow w ss1 (records inp)) = Raise e ->
                 ss' = ss1)
   /\ (forall data,
         snd (trigger_workflow w ss1 (records inp)) = Return (succeeded data) ->
         validated lib data = None -> ss' = ss1))
  /\ (ss' = ss1 ->
      results ss' = None
      /\ phase_of ss' = Analyzing
      /\ forall w2 inp2, start_analysis inp2 = false ->
           posted (fst (fst (script lib w2 inp2 ss')))
           = [trigger_request (with_n8n_url (in_n8n_url inp2) ss') (records inp2)]).
Proof.
  intros Hstart Hnow ss1 ss'. subst ss1 ss'. unfold after_run.
  rewrite (script_analyzing lib w inp ss Hstart Hnow).
  assert (Hnow1 : analyzing_now (with_n8n_url (in_n8n_url inp) ss) = true).
  { destruct (analyzing_now_inv ss Hnow) as [Ha Hr].
    unfold analyzing_now. simpl. rewrite Ha, Hr. reflexivity. }
  split; [split; [|split]|].
  - intros d Hd Hok. eapply analysis_on_failure; eassumption.
  - intros e He. eapply analysis_on_raise; eassumption.
  - intros data Hd Hv.
    destruct (analysis_on_data lib w inp _ data Hd) as [before ->]. simpl.
    apply handle_data_rejected, Hv.
  - intros ->. split; [apply (analyzing_now_inv _ Hnow1)|].
    split; [apply phase_analyzing, Hnow1|].
    intros w2 inp2 Hstart2.
    rewrite (script_analyzing lib w2 inp2 _ Hstart2 Hnow1).
    apply analysis_posted.
Qed.

(** [trigger(10)] answered by HTTP 200 with an empty body. *)
Lemma failed_run_stays_analyzing_witness :
  after_run RefCodec.lib (Examples.answering Examples.empty_body)
            (Examples.idle_widgets 10) Examples.started
  = with_n8n_url (in_n8n_url (Examples.idle_widgets 10)) Examples.started.
Proof.
  apply (proj1 (proj1 (failed_run_stays_analyzing RefCodec.lib
                         (Examples.answering Examples.empty_body)
                         (Examples.idle_widgets 10) Examples.started
                         eq_refl eq_refl))
           (failed "n8n returned empty response")).
  - reflexivity.
  - apply lookup_insert_eq.
Defined.

(** C4, as stated, fails on "returns to the Idle state": after
    [trigger(10)] was answered by HTTP 200 with an empty body, the outcome
    is the empty-response failure and no table is stored, but the session is
    in the analyzing phase, and the next run posts the request again without
    any button being pressed. *)
Lemma empty_response_leaves_analyzing :
  let w := Examples.answering Examples.empty_body in
  let ss' := after_run RefCodec.lib w (Examples.idle_widgets 10) Examples.started in
  snd (trigger_workflow w Examples.started 10)
  = Return (failed "n8n returned empty response")
  /\ results ss' = None
  /\ phase_of ss' = Analyzing
  /\ phase_of ss' <> Idle
  /\ posted (fst (fst (script RefCodec.lib w (Examples.idle_widgets 5) ss')))
     = [trigger_request ss' 5].
Proof.
  repeat split; try reflexivity. discriminate.
Qed.

(* ===================================================================== *)
(** * The stored result *)
(* ===================================================================== *)

Lemma handle_data_results (lib : library) (w : world) (data : value)
  (ss : session_state) (df : frame) :
  results (snd (fst (handle_data lib w data ss))) = Some df ->
  results ss = Some df
  \/ ((0 < len df)%nat /\ has_column "ai_severity_score" df = true
      /\ exists outs, snd (parse_response lib data) = Return (Some df, outs)).
Proof.
  unfold handle_data.
  destruct (parse_response lib data) as [evs [[[t|] outs]|exc]]; simpl; auto.
  destruct (0 <? len t)%nat eqn:Hlen; simpl; auto.
  destruct (has_column "ai_severity_score" t) eqn:Hcol; simpl; auto.
  intros H. injection H as <-. right. split; [|split; [exact Hcol | eauto]].
  apply Nat.ltb_lt, Hlen.
Qed.

Lemma analysis_results (lib : library) (w : world) (inp : widgets)
  (ss : session_state) (df : frame) :
  results (snd (fst (analysis lib w inp ss))) = Some df ->
  results ss = Some df
  \/ ((0 < len df)%nat /\ has_column "ai_severity_score" df = true
      /\ exists data outs,
           snd (parse_response lib data) = Return (Some df, outs)).
Proof.
  unfold analysis.
  destruct (trigger_workflow w ss (records inp)) as [trace [result|e]]; simpl; auto.
  destruct (result !! "ok") as [ok|]; simpl; auto.
  destruct (truthy ok).
  - destruct (result !! "data") as [data|]; simpl; auto.
    pose proof (handle_data_results lib w data ss df) as H.
    destruct (handle_data lib w data ss) as [[after ss'] e]. simpl in *.
    intros Hdf. destruct (H Hdf) as [Hold|(H1 & H2 & outs & H3)]; eauto 8.
  - destruct (result !! "error"); simpl; auto.
Qed.

(** The only assignment of a table to [results] is that of line 237, behind
    the tests of lines 226 and 227, and the table is one that
    [parse_response] returned. *)
Lemma after_run_results (lib : library) (w : world) (inp : widgets)
  (ss : session_state) (df : frame) :
  results (after_run lib w inp ss) = Some df ->
  results ss = Some df
  \/ ((0 < len df)%nat /\ has_column "ai_severity_score" df = true
      /\ exists data outs,
           snd (parse_response lib data) = Return (Some df, outs)).
Proof.
  unfold after_run, script. simpl.
  destruct (start_analysis inp); simpl; [discriminate|].
  destruct (results ss) as [t|] eqn:Hr.
  - destruct (new_analysis inp); simpl; [discriminate|].
    replace (analyzing_now (with_n8n_url (in_n8n_url inp) ss)) with false.
    + simpl. rewrite Hr. auto.
    + unfold analyzing_now. simpl. rewrite Hr. destruct (analyzing ss) as [[|]|]; reflexivity.
  - destruct (analyzing_now (with_n8n_url (in_n8n_url inp) ss)).
    + intros H. apply analysis_results in H. simpl in H. rewrite Hr in H. exact H.
    + simpl. rewrite Hr. discriminate.
Qed.

Lemma stored_table_provenance (lib : library) (ss : session_state) :
  reachable lib ss ->
  forall df, results ss = Some df ->
             (0 < len df)%nat /\ has_column "ai_severity_score" df = true
             /\ exists data outs,
                  snd (parse_response lib data) = Return (Some df, outs).
Proof.
  induction 1 as [|w inp ss Hreach IH]; intros df Hdf.
  - discriminate.
  - apply after_run_results in Hdf as [Hold|Hnew]; auto.
Qed.

Lemma stored_table_valid (lib : library) (ss : session_state) :
  reachable lib ss ->
  forall df, results ss = Some df ->
             (0 < len df)%nat /\ has_column "ai_severity_score" df = true.
Proof.
  intros Hreach df Hdf.
  destruct (stored_table_provenance lib ss Hreach df Hdf) as (H1 & H2 & _).
  auto.
Qed.

Lemma py_div_positive (a : Q) (n : nat) :
  (0 < n)%nat -> py_div a (Q_of_nat n) = Return (a / Q_of_nat n)%Q.
Proof.
  intros Hn. unfold py_div.
  replace (Qeq_bool (Q_of_nat n) 0) with false; [reflexivity|].
  symmetry. apply not_true_is_false. intros H.
  apply Qeq_bool_iff in H. unfold Q_of_nat, Qeq in H. simpl in H. lia.
Qed.

Lemma percent_defined (count : nat) (df : frame) :
  (0 < len df)%nat ->
  percent count df = Return (Q_of_nat count / Q_of_nat (len df) * 100)%Q.
Proof. intros H. unfold percent. rewrite py_div_positive by exact H. reflexivity. Qed.

Lemma percents_defined {A} (counts : list (A * nat)) (df : frame) :
  (0 < len df)%nat -> exists ps, percents counts df = Return ps.
Proof.
  intros H. induction counts as [|[k c] rest [ps IH]]; simpl.
  - eexists. reflexivity.
  - rewrite percent_defined by exact H. simpl. rewrite IH. simpl.
    eexists. reflexivity.
Qed.

(** C10. A table that is stored in the session state has at least one row
    and has the column "ai_severity_score". Hence the speed of line 258 is
    the quotient of the processing time by the number of rows (the branch
    that gives 0 is not taken), and every share of the summary, a quotient
    by the number of rows, is defined: no division by zero is raised. *)
Theorem stored_result_invariant (lib : library) (ss : session_state)
  (df : frame) :
  reachable lib ss -> results ss = Some df ->
  (0 < len df)%nat
  /\ has_column "ai_severity_score" df = true
  /\ per_rec ss df = Return (proc_time ss / Q_of_nat (len df))%Q
  /\ (forall count,
        percent count df = Return (Q_of_nat count / Q_of_nat (len df) * 100)%Q)
  /\ (forall threshold source ai_severity_score ai_category ai_urgency,
        exists f,
          summary_figures ss df threshold source ai_severity_score
                          ai_category ai_urgency = Return f).
Proof.
  intros Hreach Hdf.
  destruct (stored_table_valid lib ss Hreach df Hdf) as [Hlen Hcol].
  assert (Hper : per_rec ss df = Return (proc_time ss / Q_of_nat (len df))%Q).
  { unfold per_rec. rewrite (proj2 (Nat.ltb_lt _ _) Hlen).
    apply py_div_positive, Hlen. }
  repeat split; auto.
  - intros count. apply percent_defined, Hlen.
  - intros threshold source sev cat urg. unfold summary_figures.
    rewrite Hper. simpl. rewrite !percent_defined by exact Hlen. simpl.
    destruct (percents_defined (value_counts String.eqb cat) df Hlen) as [cs ->].
    destruct (percents_defined (value_counts String.eqb urg) df Hlen) as [us ->].
    simpl. eexists. reflexivity.
Qed.

(** The session after a run that stored the two records of the example. *)
Lemma stored_result_invariant_witness :
  let w := Examples.answering
             (Examples.ok_body (RefCodec.dumps (VList Examples.payload_records))) in
  let ss := after_run RefCodec.lib w (Examples.idle_widgets 10) Examples.started in
  let df := frame_of_records (map dict_items Examples.payload_records) in
  (0 < len df)%nat
  /\ has_column "ai_severity_score" df = true
  /\ per_rec ss df = Return (proc_time ss / Q_of_nat (len df))%Q
  /\ (forall count,
        percent count df = Return (Q_of_nat count / Q_of_nat (len df) * 100)%Q)
  /\ (forall threshold source ai_severity_score ai_category ai_urgency,
        exists f,
          summary_figures ss df threshold source ai_severity_score
                          ai_category ai_urgency = Return f).
Proof.
  intros w ss df.
  apply (stored_result_invariant RefCodec.lib ss df).
  - unfold ss.
    replace Examples.started
      with (after_run RefCodec.lib w
              {| in_n8n_url := DEFAULT_N8N_URL; records := 10; threshold := 4;
                 start_analysis := true; new_analysis := false |}
              initial_session) by reflexivity.
    apply reachable_run, reachable_run, reachable_initial.
  - vm_compute. reflexivity.
Defined.

(* ===================================================================== *)
(** * Export and re-import of the stored table *)
(* ===================================================================== *)

Lemma frame_of_records_well_formed (recs : list (list (string * value))) :
  well_formed (frame_of_records recs).
Proof.
  split; [apply frame_of_records_spec|]. split.
  - simpl. apply List.Forall_forall. intros c Hc.
    apply in_map_iff in Hc as (k & <- & _). eauto.
  - simpl. apply List.Forall_forall. intros r Hr.
    apply in_map_iff in Hr as (r0 & <- & _). rewrite !length_map. reflexivity.
Qed.

Lemma DataFrame_well_formed (lib : library) (v : value) (df : frame) :
  builds_well_formed lib -> DataFrame lib v = Return df ->
  well_formed df \/ has_column "ai_severity_score" df = false.
Proof.
  intros Hlib. unfold DataFrame.
  destruct v; try (intros H; eapply Hlib; exact H).
  destruct (forallb is_dict l).
  - intros H. injection H as <-. left. apply frame_of_records_well_formed.
  - destruct (forallb is_scalar l).
    + intros H. injection H as <-. right. reflexivity.
    + intros H. eapply Hlib; exact H.
Qed.

Lemma parse_response_table (lib : library) (data : value) (df : frame)
  (outs : value) :
  snd (parse_response lib data) = Return (Some df, outs) ->
  exists v, DataFrame lib v = Return df.
Proof.
  unfold parse_response.
  destruct (parse_response_body lib data) as [[t o]|e] eqn:Hbody; simpl.
  - intros H. injection H as -> ->. revert Hbody.
    unfold parse_response_body.
    destruct (match data with VStr s => json_loads lib s | _ => Return data end)
      as [decoded|e]; cbn -[DataFrame]; [|discriminate].
    assert (Hbuilt : forall x o,
              DataFrame lib x ≫= (fun t => Return (Some t, o))
              = Return (Some df, outs) ->
              exists v, DataFrame lib v = Return df).
    { intros x o. destruct (DataFrame lib x) as [t|e] eqn:Hx; cbn.
      - intros H. injection H as <- _. eauto.
      - discriminate. }
    destruct decoded as [| | | |l|d|x]; try apply Hbuilt.
    destruct (dict_get "records" d) as [recs|]; apply Hbuilt.
  - destruct (is_Exception e); simpl; discriminate.
Qed.

(** Every table the script stores is well formed, provided the part of
    pandas that is a parameter builds well-formed tables. *)
Lemma stored_table_well_formed (lib : library) (ss : session_state)
  (df : frame) :
  builds_well_formed lib -> reachable lib ss -> results ss = Some df ->
  well_formed df.
Proof.
  intros Hlib Hreach Hdf.
  destruct (stored_table_provenance lib ss Hreach df Hdf)
    as (_ & Hcol & data & outs & Hparse).
  destruct (parse_response_table lib data df outs Hparse) as [v Hv].
  destruct (DataFrame_well_formed lib v df Hlib Hv) as [Hwf|Hno]; [exact Hwf|].
  congruence.
Qed.

Lemma map_fst_combine {A B} (l : list A) (l' : list B) :
  length l' = length l -> map fst (combine l l') = l.
Proof.
  revert l'. induction l as [|a l IH]; intros [|b l'] Hlen; simpl in *;
    try discriminate; [reflexivity|].
  f_equal. apply IH. lia.
Qed.

Lemma add_keys_fresh (seen ks : list string) :
  List.NoDup (seen ++ ks) -> add_keys seen ks = (seen ++ ks)%list.
Proof.
  revert seen. induction ks as [|k ks IH]; intros seen Hnd; simpl.
  - rewrite app_nil_r. reflexivity.
  - assert (Hk : mem_string k seen = false).
    { apply not_true_is_false. intros Hm. apply mem_string_In in Hm.
      apply NoDup_remove_2 in Hnd. apply Hnd, in_or_app. left. exact Hm. }
    rewrite Hk.
    replace (seen ++ k :: ks)%list with ((seen ++ [k]) ++ ks)%list in *
      by (rewrite <- List.app_assoc; reflexivity).
    apply IH, Hnd.
Qed.

Lemma add_keys_seen (seen ks : list string) :
  (forall k, In k ks -> In k seen) -> add_keys seen ks = seen.
Proof.
  induction ks as [|k ks IH]; intros Hin; simpl; [reflexivity|].
  rewrite (proj2 (mem_string_In k seen)) by (apply Hin; left; reflexivity).
  apply IH. intros k' Hk'. apply Hin. right. exact Hk'.
Qed.

Lemma union_keys_uniform (names : list string) (rs : list (list value)) :
  List.NoDup names -> rs <> [] ->
  Forall (fun r => length r = length names) rs ->
  union_keys (map (combine names) rs) = names.
Proof.
  intros Hnd Hne Hlen. unfold union_keys.
  destruct rs as [|r rs]; [congruence|].
  inversion Hlen as [|? ? Hr Hrs]; subst. simpl.
  rewrite (map_fst_combine names r Hr), (add_keys_fresh [] names Hnd). simpl.
  clear Hne Hlen Hr. induction rs as [|r' rs IH]; simpl; [reflexivity|].
  inversion Hrs as [|? ? Hr' Hrs']; subst.
  rewrite (map_fst_combine names r' Hr'), add_keys_seen by auto.
  apply IH, Hrs'.
Qed.

Lemma cells_of_combine (names : list string) (r : list value) :
  List.NoDup names -> length r = length names ->
  map (cell_of (combine names r)) names = r.
Proof.
  revert r. induction names as [|k ks IH]; intros [|v vs] Hnd Hlen;
    simpl in *; try discriminate; [reflexivity|].
  inversion Hnd as [|? ? Hk Hks]; subst.
  unfold cell_of at 1. simpl. rewrite String.eqb_refl. f_equal.
  rewrite <- (IH vs Hks) at 2 by lia.
  apply map_ext_in. intros k' Hk'. unfold cell_of. simpl.
  destruct (String.eqb_spec k' k) as [->|]; [contradiction | reflexivity].
Qed.

Lemma string_labels (cols : list label) :
  Forall (fun c => exists s, c = LStr s) cols ->
  map LStr (map label_str cols) = cols.
Proof.
  induction 1 as [|c cols [s ->] _ IH]; simpl; [reflexivity|].
  f_equal. exact IH.
Qed.

Lemma label_str_NoDup (cols : list label) :
  Forall (fun c => exists s, c = LStr s) cols ->
  List.NoDup cols -> List.NoDup (map label_str cols).
Proof.
  intros Hs Hnd. apply (NoDup_map_inv LStr).
  rewrite string_labels by exact Hs. exact Hnd.
Qed.

(** Building a table from the records of a well-formed, non-empty table
    gives that table back, columns and rows in their order. *)
Lemma frame_of_to_records (df : frame) :
  well_formed df -> (0 < len df)%nat ->
  frame_of_records (map dict_items (to_records df)) = df.
Proof.
  intros (Hnd & Hstr & Hrows) Hlen.
  destruct df as [cols rs]. unfold to_records, len in *. simpl in *.
  rewrite map_map. simpl.
  change (map (fun x => combine (map label_str cols) x) rs)
    with (map (combine (map label_str cols)) rs).
  assert (Hnames : List.NoDup (map label_str cols))
    by (apply label_str_NoDup; assumption).
  assert (Hrows' : Forall (fun r => length r = length (map label_str cols)) rs)
    by (eapply List.Forall_impl; [|exact Hrows]; simpl; intros r ->;
        rewrite length_map; reflexivity).
  unfold frame_of_records.
  rewrite union_keys_uniform; [| exact Hnames | destruct rs; simpl in *; [lia | discriminate] | exact Hrows'].
  rewrite string_labels by exact Hstr. f_equal.
  rewrite map_map.
  rewrite <- (map_id rs) at 2. apply map_ext_in. intros r Hr.
  apply cells_of_combine; [exact Hnames|].
  rewrite List.Forall_forall in Hrows'. apply Hrows', Hr.
Qed.

Lemma to_records_are_dicts (df : frame) :
  forallb is_dict (to_records df) = true.
Proof.
  unfold to_records. induction (rows df) as [|r rs IH]; simpl; auto.
Qed.

(* ===================================================================== *)
(** * The reference codec reads back what it writes *)
(* ===================================================================== *)

Module RefCodecFacts.

Import RefCodec.

(** ** Texts *)

Lemma append_cons (c : ascii) (s t : string) :
  String c s ++ t = String c (s ++ t).
Proof. reflexivity. Qed.

Lemma append_nil (t : string) : "" ++ t = t.
Proof. reflexivity. Qed.

Lemma append_nil_r (s : string) : s ++ "" = s.
Proof.
  induction s as [|c s IH]; [reflexivity|].
  rewrite append_cons, IH. reflexivity.
Qed.

Lemma append_assoc (s t u : string) : (s ++ t) ++ u = s ++ (t ++ u).
Proof.
  induction s as [|c s IH]; [reflexivity|].
  rewrite !append_cons, IH. reflexivity.
Qed.

Lemma length_append (s t : string) :
  String.length (s ++ t) = (String.length s + String.length t)%nat.
Proof.
  induction s as [|c s IH]; [reflexivity|].
  rewrite append_cons. simpl. rewrite IH. reflexivity.
Qed.

(** ** Integer literals *)

Lemma span_digits_uint (d : Decimal.uint) (rest : string) :
  ends_number rest = true ->
  span_digits (NilEmpty.string_of_uint d ++ rest)
  = (NilEmpty.string_of_uint d, rest).
Proof.
  intros Hrest.
  induction d; cbn -[is_digit]; rewrite ?append_cons, ?append_nil;
    try (cbn; rewrite IHd; reflexivity).
  destruct rest as [|c rest]; [reflexivity|]. cbn -[is_digit] in *.
  destruct (is_digit c); [discriminate | reflexivity].
Qed.

Lemma to_uint_no_leading_zero (p : positive) (d : Decimal.uint) :
  Pos.to_uint p <> Decimal.D0 d.
Proof.
  pose proof (DecimalPos.Unsigned.to_of (Pos.to_uint p)) as H.
  rewrite DecimalPos.Unsigned.of_to in H. simpl in H.
  assert (Hnz : Decimal.nzhead (Pos.to_uint p) <> Decimal.Nil).
  { intros Hn. apply unorm_0 in Hn. rewrite Hn in H.
    exact (Unsigned.to_uint_nonzero p H). }
  rewrite unorm_nzhead in H by exact Hnz.
  rewrite H. apply nzhead_nonzero.
Qed.

Lemma string_of_uint_nonnil (u : Decimal.uint) :
  u <> Decimal.Nil -> NilZero.string_of_uint u = NilEmpty.string_of_uint u.
Proof. destruct u; [congruence | reflexivity..]. Qed.

Lemma normal_nonnil (u : Decimal.uint) : normal_form u -> u <> Decimal.Nil.
Proof. intros [->|[H _]]; [discriminate | exact H]. Qed.

Lemma normal_digits (u : Decimal.uint) :
  normal_form u ->
  PyStr.is_empty (NilZero.string_of_uint u) = false
  /\ leading_zero (NilZero.string_of_uint u) = false
  /\ exists c s, NilZero.string_of_uint u = String c s
                 /\ is_digit c = true.
Proof.
  intros [->|[Hnil Hzero]].
  - repeat split. eauto.
  - destruct u as [|u|u|u|u|u|u|u|u|u|u];
      [congruence | exfalso; exact (Hzero u eq_refl) | ..];
      (split; [reflexivity|]; split; [|simpl; eauto]);
      simpl; destruct (NilEmpty.string_of_uint u); reflexivity.
Qed.

Lemma read_digits_normal (u : Decimal.uint) (rest : string) :
  normal_form u -> ends_number rest = true ->
  read_digits (NilZero.string_of_uint u ++ rest)
  = Some (NilZero.string_of_uint u, rest).
Proof.
  intros Hu Hrest.
  assert (Hcont : continues_number rest = false).
  { destruct rest as [|c rest]; [reflexivity|]. simpl in *.
    apply andb_prop in Hrest as [_ H]. apply negb_true_iff in H. exact H. }
  unfold read_digits.
  destruct (normal_digits u Hu) as (He & Hl & _).
  rewrite (string_of_uint_nonnil u (normal_nonnil u Hu)) in *.
  rewrite (span_digits_uint u rest Hrest), He, Hl, Hcont. reflexivity.
Qed.

Lemma to_int_normal (z : Z) :
  exists u, normal_form u
            /\ (Z.to_int z = Decimal.Pos u \/ Z.to_int z = Decimal.Neg u).
Proof.
  destruct z as [|p|p]; simpl.
  - exists (Decimal.D0 Decimal.Nil). split; [left; reflexivity | auto].
  - exists (Pos.to_uint p). split; [|auto]. right. split.
    + apply Unsigned.to_uint_nonnil.
    + apply to_uint_no_leading_zero.
  - exists (Pos.to_uint p). split; [|auto]. right. split.
    + apply Unsigned.to_uint_nonnil.
    + apply to_uint_no_leading_zero.
Qed.

Lemma digit_is_not_minus (c : ascii) :
  is_digit c = true -> Ascii.eqb c "-" = false.
Proof.
  destruct c as [[] [] [] [] [] [] [] []]; intros H;
    try discriminate H; reflexivity.
Qed.

(** The reader of integer literals reads back what [str] writes. *)
Lemma read_int_of_Z (z : Z) (rest : string) :
  ends_number rest = true ->
  read_int (PyStr.of_Z z ++ rest) = Some (z, rest).
Proof.
  intros Hrest. unfold PyStr.of_Z.
  assert (Hisi : NilZero.int_of_string (NilZero.string_of_int (Z.to_int z))
                 = Some (Z.to_int z)).
  { apply NilZero.isi; destruct z; simpl; try discriminate;
      intros H; injection H as H; exact (Unsigned.to_uint_nonnil _ H). }
  pose proof (DecimalZ.of_to z) as Hz.
  destruct (to_int_normal z) as (u & Hu & [Hpos|Hneg]).
  - rewrite Hpos in *. cbn [NilZero.string_of_int] in *.
    destruct (normal_digits u Hu) as (_ & _ & c & s & Hs & Hc).
    apply digit_is_not_minus in Hc.
    unfold read_int. rewrite Hs, append_cons, Hc, <- append_cons, <- Hs.
    rewrite (read_digits_normal u rest Hu Hrest), Hisi, Hz. reflexivity.
  - rewrite Hneg in *. cbn [NilZero.string_of_int] in *.
    unfold read_int. rewrite append_cons.
    change (Ascii.eqb "-" "-") with true. cbv iota.
    rewrite (read_digits_normal u rest Hu Hrest), Hisi, Hz. reflexivity.
Qed.

(** The first character of a written integer: a digit or the minus sign. *)
Lemma of_Z_head (z : Z) :
  exists c s, PyStr.of_Z z = String c s
              /\ (is_digit c = true \/ c = "-"%char).
Proof.
  unfold PyStr.of_Z.
  destruct (to_int_normal z) as (u & Hu & [->| ->]); cbn [NilZero.string_of_int].
  - destruct (normal_digits u Hu) as (_ & _ & c & s & Hs & Hc). eauto.
  - eauto.
Qed.

(** ** String literals *)

Lemma read_string_escape (s rest : string) :
  read_string (escape s ++ String dquote rest) = Some (s, rest).
Proof.
  induction s as [|c s IH].
  - cbn. reflexivity.
  - cbn [escape]. rewrite append_assoc.
    destruct c as [[] [] [] [] [] [] [] []];
      match goal with
      | |- context [escape_char ?c] =>
          let e := eval vm_compute in (escape_char c) in
          change (escape_char c) with e
      end;
      rewrite ?append_cons, ?append_nil;
      cbn -[String.append escape]; rewrite IH; reflexivity.
Qed.

(** ** One step of the decoder *)

Lemma parse_items_S (f : nat) (s : string) :
  parse_items (S f) s
  = match parse_value f s with
    | None => None
    | Some (v, r) =>
        match after_char "," (skip_ws r) with
        | Some r' =>
            match parse_items f r' with
            | Some (vs, rest) => Some (v :: vs, rest)
            | None => None
            end
        | None =>
            match after_char "]" (skip_ws r) with
            | Some rest => Some ([v], rest)
            | None => None
            end
        end
    end.
Proof. reflexivity. Qed.

Lemma parse_members_S (f : nat) (s : string) :
  parse_members (S f) s
  = match after_char dquote (skip_ws s) with
    | None => None
    | Some r =>
        match read_string r with
        | None => None
        | Some (k, r1) =>
            match after_char ":" (skip_ws r1) with
            | None => None
            | Some r2 =>
                match parse_value f r2 with
                | None => None
                | Some (v, r3) =>
                    match after_char "," (skip_ws r3) with
                    | Some r4 =>
                        match parse_members f r4 with
                        | Some (ms, rest) => Some ((k, v) :: ms, rest)
                        | None => None
                        end
                    | None =>
                        match after_char "}" (skip_ws r3) with
                        | Some rest => Some ([(k, v)], rest)
                        | None => None
                        end
                    end
                end
            end
        end
    end.
Proof. reflexivity. Qed.

Lemma parse_value_literal (f : nat) (s lit rest : string) (c : ascii)
  (v : value) :
  skip_ws s = String c (lit ++ rest) ->
  (c, lit, v) = ("n"%char, "ull", VNone)
  \/ (c, lit, v) = ("t"%char, "rue", VBool true)
  \/ (c, lit, v) = ("f"%char, "alse", VBool false) ->
  parse_value (S f) s = Some (v, rest).
Proof.
  intros Hs [H|[H|H]]; injection H as -> -> ->;
    cbn [parse_value]; rewrite Hs; reflexivity.
Qed.

Lemma parse_value_string (f : nat) (s r : string) :
  skip_ws s = String dquote r ->
  parse_value (S f) s
  = match read_string r with
    | Some (str, rest) => Some (VStr str, rest)
    | None => None
    end.
Proof. intros Hs. cbn [parse_value]. rewrite Hs. reflexivity. Qed.

Lemma parse_value_list (f : nat) (s r : string) :
  skip_ws s = String "[" r ->
  parse_value (S f) s
  = match after_char "]" (skip_ws r) with
    | Some rest => Some (VList [], rest)
    | None =>
        match parse_items f r with
        | Some (vs, rest) => Some (VList vs, rest)
        | None => None
        end
    end.
Proof. intros Hs. cbn [parse_value]. rewrite Hs. reflexivity. Qed.

Lemma parse_value_dict (f : nat) (s r : string) :
  skip_ws s = String "{" r ->
  parse_value (S f) s
  = match after_char "}" (skip_ws r) with
    | Some rest => Some (VDict [], rest)
    | None =>
        match parse_members f r with
        | Some (ms, rest) =>
            Some (VDict (fold_left (fun d m => dict_set (fst m) (snd m) d)
                                   ms []), rest)
        | None => None
        end
    end.
Proof. intros Hs. cbn [parse_value]. rewrite Hs. reflexivity. Qed.

Lemma number_start (c : ascii) :
  is_digit c = true \/ c = "-"%char ->
  is_json_space c = false
  /\ Ascii.eqb c "n" = false /\ Ascii.eqb c "t" = false
  /\ Ascii.eqb c "f" = false /\ Ascii.eqb c dquote = false
  /\ Ascii.eqb c "[" = false /\ Ascii.eqb c "{" = false
  /\ Ascii.eqb c "]" = false /\ Ascii.eqb c "}" = false.
Proof.
  intros [H| ->]; [|repeat split].
  destruct c as [[] [] [] [] [] [] [] []]; try discriminate H; repeat split.
Qed.

Lemma parse_value_int (f : nat) (s r : string) (c : ascii) :
  skip_ws s = String c r ->
  is_digit c = true \/ c = "-"%char ->
  parse_value (S f) s
  = match read_int (String c r) with
    | Some (n, rest) => Some (VInt n, rest)
    | None =>
        match read_float (String c r) with
        | Some (x, rest) => Some (VFloat x, rest)
        | None => None
        end
    end.
Proof.
  intros Hs Hc. cbn [parse_value]. rewrite Hs.
  destruct (number_start c Hc) as (_ & -> & -> & -> & -> & -> & -> & _).
  reflexivity.
Qed.

(** ** White space *)

Lemma skip_ws_blank (ws s : string) :
  blank ws -> skip_ws (ws ++ s) = skip_ws s.
Proof.
  unfold blank. induction ws as [|c ws IH]; [reflexivity|].
  cbn -[is_json_space]. intros H. apply andb_prop in H as [Hc Hws].
  rewrite append_cons. cbn -[is_json_space]. rewrite Hc. apply IH, Hws.
Qed.

Lemma skip_ws_solid (s : string) : starts_solid s -> skip_ws s = s.
Proof.
  destruct s as [|c s]; [reflexivity|]. cbn -[is_json_space]. intros ->.
  reflexivity.
Qed.

Lemma blank_spaces (n : nat) : blank (spaces n).
Proof. unfold blank. induction n as [|n IH]; [reflexivity | exact IH]. Qed.

Lemma blank_app (a b : string) : blank a -> blank b -> blank (a ++ b).
Proof.
  unfold blank. induction a as [|c a IH]; [auto|].
  cbn -[is_json_space]. intros H Hb. apply andb_prop in H as [Hc Ha].
  rewrite append_cons. cbn -[is_json_space]. rewrite Hc. apply IH; assumption.
Qed.

Lemma blank_nl : blank nl.
Proof. reflexivity. Qed.

Lemma blank_indent (n : nat) : blank (nl ++ spaces n).
Proof. apply blank_app; [apply blank_nl | apply blank_spaces]. Qed.

(** ** What the writer writes *)

Lemma join_lines_cons (a b : string) (l : list string) :
  join_lines (a :: b :: l) = a ++ "," ++ nl ++ join_lines (b :: l).
Proof. reflexivity. Qed.

Lemma dumps_list (indent : nat) (x : value) (xs : list value) :
  dumps_at indent (VList (x :: xs))
  = "[" ++ nl ++ join_lines (map (item_line indent) (x :: xs))
    ++ nl ++ spaces indent ++ "]".
Proof. reflexivity. Qed.

Lemma dumps_dict (indent : nat) (m : string * value)
  (ms : list (string * value)) :
  dumps_at indent (VDict (m :: ms))
  = "{" ++ nl ++ join_lines (map (member_line indent) (m :: ms))
    ++ nl ++ spaces indent ++ "}".
Proof. reflexivity. Qed.

(** The text of a value starts with a character that is neither white
    space nor a closing bracket. *)
Lemma of_Z_text_head (z : Z) (t : string) :
  exists c s, PyStr.of_Z z ++ t = String c s
              /\ is_json_space c = false
              /\ Ascii.eqb c "]" = false /\ Ascii.eqb c "}" = false.
Proof.
  destruct (of_Z_head z) as (c & s & -> & Hc).
  destruct (number_start c Hc) as (H1 & _ & _ & _ & _ & _ & _ & H2 & H3).
  exists c, (s ++ t). rewrite append_cons. auto.
Qed.

Lemma float_text_head (x : float) :
  exists c s, float_text x = String c s
              /\ is_json_space c = false
              /\ Ascii.eqb c "]" = false /\ Ascii.eqb c "}" = false.
Proof.
  unfold float_text.
  destruct (PrimFloat.is_nan x || PrimFloat.is_infinity x);
    [eexists; eexists; split; [reflexivity | repeat split]|].
  destruct (PrimFloat.ltb x 0);
    [eexists; eexists; split; [reflexivity | repeat split]|].
  rewrite append_nil.
  match goal with |- context [if ?b then _ else _] => destruct b end.
  - unfold general_text.
    repeat match goal with
           | |- context [let '(_, _) := ?e in _] => destruct e
           end.
    apply of_Z_text_head.
  - unfold fixed_text.
    repeat match goal with
           | |- context [let '(_, _) := ?e in _] => destruct e
           end.
    apply of_Z_text_head.
Qed.

Lemma dumps_head (indent : nat) (v : value) :
  exists c s, dumps_at indent v = String c s
              /\ is_json_space c = false
              /\ Ascii.eqb c "]" = false /\ Ascii.eqb c "}" = false.
Proof.
  destruct v as [|[|]|n|s|[|x xs]|[|m ms]|x];
    try (eexists; eexists; split; [reflexivity | repeat split]).
  - cbn [dumps_at]. destruct (of_Z_head n) as (c & s & -> & Hc).
    destruct (number_start c Hc) as (H1 & _ & _ & _ & _ & _ & _ & H2 & H3).
    eauto 6.
  - cbn [dumps_at]. apply float_text_head.
Qed.

Lemma skip_ws_dumps (indent : nat) (v : value) (ws rest : string) :
  blank ws ->
  skip_ws (ws ++ dumps_at indent v ++ rest) = dumps_at indent v ++ rest.
Proof.
  intros Hws. rewrite (skip_ws_blank ws _ Hws).
  destruct (dumps_head indent v) as (c & s & -> & Hc & _).
  rewrite append_cons. apply skip_ws_solid. exact Hc.
Qed.

(** ** Mappings *)

Lemma dict_set_fresh (k : string) (v : value) (d : list (string * value)) :
  ~ In k (map fst d) -> dict_set k v d = (d ++ [(k, v)])%list.
Proof.
  induction d as [|[k' v'] d IH]; simpl; intros Hk; [reflexivity|].
  destruct (String.eqb_spec k k') as [->|Hne]; [exfalso; auto|].
  f_equal. apply IH. auto.
Qed.

Lemma fold_dict_set (ms acc : list (string * value)) :
  List.NoDup (map fst (acc ++ ms)) ->
  fold_left (fun d m => dict_set (fst m) (snd m) d) ms acc = (acc ++ ms)%list.
Proof.
  revert acc. induction ms as [|[k v] ms IH]; intros acc Hnd; simpl.
  - rewrite app_nil_r. reflexivity.
  - rewrite dict_set_fresh.
    + rewrite IH; rewrite <- List.app_assoc; [reflexivity | exact Hnd].
    + rewrite map_app in Hnd. simpl in Hnd.
      apply NoDup_remove_2 in Hnd. intros Hk. apply Hnd, in_or_app. auto.
Qed.

(** ** Induction on values *)

Section ValueInduction.

Variable P : value -> Prop.
Hypothesis HNone : P VNone.
Hypothesis HBool : forall b, P (VBool b).
Hypothesis HInt : forall n, P (VInt n).
Hypothesis HStr : forall s, P (VStr s).
Hypothesis HList : forall l, Forall P l -> P (VList l).
Hypothesis HDict : forall d, Forall (fun kv => P (snd kv)) d -> P (VDict d).
Hypothesis HFloat : forall x, P (VFloat x).

Fixpoint value_induction (v : value) : P v :=
  match v with
  | VNone => HNone
  | VBool b => HBool b
  | VInt n => HInt n
  | VStr s => HStr s
  | VList l =>
      HList l ((fix items (l : list value) : Forall P l :=
                  match l with
                  | [] => @List.Forall_nil _ P
                  | x :: l' =>
                      @List.Forall_cons _ P x l' (value_induction x) (items l')
                  end) l)
  | VDict d =>
      HDict d ((fix members (d : list (string * value))
                  : Forall (fun kv => P (snd kv)) d :=
                  match d with
                  | [] => @List.Forall_nil _ _
                  | kv :: d' =>
                      @List.Forall_cons _ (fun kv => P (snd kv)) kv d'
                        (value_induction (snd kv)) (members d')
                  end) d)
  | VFloat x => HFloat x
  end.

End ValueInduction.

(** ** Separators *)

Lemma comma_next (r : string) : after_char "," (skip_ws ("," ++ r)) = Some r.
Proof. reflexivity. Qed.

Lemma close_list_next (ws r : string) :
  blank ws ->
  after_char "," (skip_ws (ws ++ "]" ++ r)) = None
  /\ after_char "]" (skip_ws (ws ++ "]" ++ r)) = Some r.
Proof. intros Hws. rewrite (skip_ws_blank ws _ Hws). split; reflexivity. Qed.

Lemma close_dict_next (ws r : string) :
  blank ws ->
  after_char "," (skip_ws (ws ++ "}" ++ r)) = None
  /\ after_char "}" (skip_ws (ws ++ "}" ++ r)) = Some r.
Proof. intros Hws. rewrite (skip_ws_blank ws _ Hws). split; reflexivity. Qed.

Lemma ends_number_nl (r : string) : ends_number (nl ++ r) = true.
Proof. reflexivity. Qed.

Lemma ends_number_comma (r : string) : ends_number ("," ++ r) = true.
Proof. reflexivity. Qed.

(** A value is not closed before it starts. *)
Lemma not_closed (indent : nat) (v : value) (ws rest : string) (c : ascii) :
  blank ws -> c = "]"%char \/ c = "}"%char ->
  after_char c (skip_ws (ws ++ dumps_at indent v ++ rest)) = None.
Proof.
  intros Hws Hc. rewrite (skip_ws_dumps indent v ws rest Hws).
  destruct (dumps_head indent v) as (h & s & -> & _ & H1 & H2).
  rewrite append_cons. unfold after_char.
  destruct Hc as [-> | ->]; [rewrite H1 | rewrite H2]; reflexivity.
Qed.

(** The decoder, given the equation of its text. *)
Lemma reads_back_text (v : value) (indent fuel : nat) (ws rest text : string) :
  reads_back v -> valid v -> blank ws -> (size v <= fuel)%nat ->
  ends_number rest = true ->
  text = ws ++ dumps_at indent v ++ rest ->
  parse_value fuel text = Some (v, rest).
Proof. intros Hv Hvalid Hws Hfuel Hrest ->. apply Hv; assumption. Qed.

(** ** Items and members *)

Lemma items_read_back (l : list value) :
  Forall reads_back l -> Forall valid l -> l <> [] ->
  forall indent fuel rest,
    (items_size l <= fuel)%nat ->
    parse_items fuel
      (nl ++ join_lines (map (item_line indent) l)
          ++ nl ++ spaces indent ++ "]" ++ rest)
    = Some (l, rest).
Proof.
  induction l as [|x l IH]; [congruence|].
  intros Hread Hvalid _ indent fuel rest Hfuel.
  inversion Hread as [|? ? Hx Hl]; subst.
  inversion Hvalid as [|? ? Vx Vl]; subst.
  unfold items_size in Hfuel. simpl in Hfuel. fold (items_size l) in Hfuel.
  destruct fuel as [|f]; [lia|].
  rewrite parse_items_S.
  destruct l as [|y l].
  - cbn [map join_lines]. unfold item_line at 1.
    rewrite (reads_back_text x (2 + indent) f (nl ++ spaces (2 + indent))
               (nl ++ spaces indent ++ "]" ++ rest) _ Hx Vx);
      [ | apply blank_indent | lia | apply ends_number_nl
        | rewrite !append_assoc; reflexivity ].
    replace (nl ++ spaces indent ++ "]" ++ rest)
      with ((nl ++ spaces indent) ++ "]" ++ rest)
      by (rewrite !append_assoc; reflexivity).
    destruct (close_list_next (nl ++ spaces indent) rest (blank_indent indent))
      as [-> ->].
    reflexivity.
  - cbn [map]. rewrite join_lines_cons. unfold item_line at 1.
    rewrite (reads_back_text x (2 + indent) f (nl ++ spaces (2 + indent))
               ("," ++ nl ++ join_lines (map (item_line indent) (y :: l))
                    ++ nl ++ spaces indent ++ "]" ++ rest) _ Hx Vx);
      [ | apply blank_indent | lia | apply ends_number_comma
        | cbn [map]; rewrite !append_assoc; reflexivity ].
    rewrite comma_next.
    rewrite (IH Hl Vl ltac:(discriminate) indent f rest) by lia.
    reflexivity.
Qed.

Lemma quote_text (k rest : string) :
  quote k ++ rest = String dquote (escape k ++ String dquote rest).
Proof. unfold quote. rewrite append_cons, append_assoc. reflexivity. Qed.

Lemma member_key (indent : nat) (k rest : string) :
  after_char dquote (skip_ws (nl ++ spaces indent ++ quote k ++ rest))
  = Some (escape k ++ String dquote rest).
Proof.
  replace (nl ++ spaces indent ++ quote k ++ rest)
    with ((nl ++ spaces indent) ++ quote k ++ rest)
    by (rewrite !append_assoc; reflexivity).
  rewrite (skip_ws_blank _ _ (blank_indent indent)), quote_text.
  reflexivity.
Qed.

Lemma members_read_back (d : list (string * value)) :
  Forall (fun kv => reads_back (snd kv)) d ->
  Forall (fun kv => valid (snd kv)) d -> d <> [] ->
  forall indent fuel rest,
    (members_size d <= fuel)%nat ->
    parse_members fuel
      (nl ++ join_lines (map (member_line indent) d)
          ++ nl ++ spaces indent ++ "}" ++ rest)
    = Some (d, rest).
Proof.
  induction d as [|[k x] d IH]; [congruence|].
  intros Hread Hvalid _ indent fuel rest Hfuel.
  inversion Hread as [|? ? Hx Hd]; subst.
  inversion Hvalid as [|? ? Vx Vd]; subst.
  simpl in Hx, Vx.
  unfold members_size in Hfuel. simpl in Hfuel. fold (members_size d) in Hfuel.
  destruct fuel as [|f]; [lia|].
  rewrite parse_members_S.
  destruct d as [|m d].
  - cbn [map join_lines]. unfold member_line at 1. cbn [fst snd].
    replace (nl ++ (spaces (2 + indent) ++ quote k ++ ":"
                      ++ dumps_at (2 + indent) x)
                ++ nl ++ spaces indent ++ "}" ++ rest)
      with (nl ++ spaces (2 + indent) ++ quote k ++ ":"
               ++ dumps_at (2 + indent) x
               ++ nl ++ spaces indent ++ "}" ++ rest)
      by (rewrite !append_assoc; reflexivity).
    rewrite member_key, read_string_escape.
    change (after_char ":" (skip_ws (":" ++ ?r))) with (Some r).
    cbv beta iota.
    rewrite (reads_back_text x (2 + indent) f ""
               (nl ++ spaces indent ++ "}" ++ rest) _ Hx Vx);
      [ | reflexivity | lia | apply ends_number_nl | reflexivity ].
    replace (nl ++ spaces indent ++ "}" ++ rest)
      with ((nl ++ spaces indent) ++ "}" ++ rest)
      by (rewrite !append_assoc; reflexivity).
    destruct (close_dict_next (nl ++ spaces indent) rest (blank_indent indent))
      as [-> ->].
    reflexivity.
  - cbn [map]. rewrite join_lines_cons. unfold member_line at 1. cbn [fst snd].
    replace (nl ++ ((spaces (2 + indent) ++ quote k ++ ":"
                       ++ dumps_at (2 + indent) x)
                    ++ "," ++ nl
                    ++ join_lines (member_line indent m
                                     :: map (member_line indent) d))
                ++ nl ++ spaces indent ++ "}" ++ rest)
      with (nl ++ spaces (2 + indent) ++ quote k ++ ":"
               ++ dumps_at (2 + indent) x
               ++ "," ++ nl
               ++ join_lines (map (member_line indent) (m :: d))
               ++ nl ++ spaces indent ++ "}" ++ rest)
      by (cbn [map]; rewrite !append_assoc; reflexivity).
    rewrite member_key, read_string_escape.
    change (after_char ":" (skip_ws (":" ++ ?r))) with (Some r).
    cbv beta iota.
    rewrite (reads_back_text x (2 + indent) f ""
               ("," ++ nl ++ join_lines (map (member_line indent) (m :: d))
                    ++ nl ++ spaces indent ++ "}" ++ rest) _ Hx Vx);
      [ | reflexivity | lia | apply ends_number_comma | reflexivity ].
    rewrite comma_next.
    rewrite (IH Hd Vd ltac:(discriminate) indent f rest) by lia.
    reflexivity.
Qed.

(** ** Values *)

Lemma first_item_not_closed (indent : nat) (x : value) (xs : list value)
  (rest : string) :
  after_char "]"
    (skip_ws (nl ++ join_lines (map (item_line indent) (x :: xs)) ++ rest))
  = None.
Proof.
  assert (H : exists t, join_lines (map (item_line indent) (x :: xs))
                        = item_line indent x ++ t).
  { destruct xs as [|y xs]; cbn [map].
    - exists "". cbn [join_lines]. rewrite append_nil_r. reflexivity.
    - rewrite join_lines_cons. eauto. }
  destruct H as [t ->]. unfold item_line.
  replace (nl ++ ((spaces (2 + indent) ++ dumps_at (2 + indent) x) ++ t) ++ rest)
    with ((nl ++ spaces (2 + indent)) ++ dumps_at (2 + indent) x ++ t ++ rest)
    by (rewrite !append_assoc; reflexivity).
  apply not_closed; [apply blank_indent | auto].
Qed.

Lemma first_member_not_closed (indent : nat) (m : string * value)
  (ms : list (string * value)) (rest : string) :
  after_char "}"
    (skip_ws (nl ++ join_lines (map (member_line indent) (m :: ms)) ++ rest))
  = None.
Proof.
  assert (H : exists t, join_lines (map (member_line indent) (m :: ms))
                        = member_line indent m ++ t).
  { destruct ms as [|y ms]; cbn [map].
    - exists "". cbn [join_lines]. rewrite append_nil_r. reflexivity.
    - rewrite join_lines_cons. eauto. }
  destruct H as [t ->]. unfold member_line.
  replace (nl ++ ((spaces (2 + indent) ++ quote (fst m) ++ ":"
                     ++ dumps_at (2 + indent) (snd m)) ++ t) ++ rest)
    with ((nl ++ spaces (2 + indent))
            ++ quote (fst m) ++ ":" ++ dumps_at (2 + indent) (snd m) ++ t ++ rest)
    by (rewrite !append_assoc; reflexivity).
  rewrite (skip_ws_blank _ _ (blank_indent _)), quote_text. reflexivity.
Qed.

(** The decoder reads every valid value back from the text of the writer. *)
Lemma parse_value_dumps (v : value) : reads_back v.
Proof.
  induction v as [|b|n|s|l IH|d IH|x] using value_induction;
    intros Hvalid indent fuel ws rest Hws Hfuel Hrest;
    [| | | | | |inversion Hvalid];
    (destruct fuel as [|f]; [simpl in Hfuel; lia|]).
  - apply (parse_value_literal f _ "ull" rest "n"); [|auto].
    rewrite (skip_ws_dumps indent VNone ws rest Hws). reflexivity.
  - destruct b.
    + apply (parse_value_literal f _ "rue" rest "t"); [|auto].
      rewrite (skip_ws_dumps indent (VBool true) ws rest Hws). reflexivity.
    + apply (parse_value_literal f _ "alse" rest "f"); [|auto].
      rewrite (skip_ws_dumps indent (VBool false) ws rest Hws). reflexivity.
  - pose proof (skip_ws_dumps indent (VInt n) ws rest Hws) as Hs.
    cbn [dumps_at] in *.
    destruct (of_Z_head n) as (c & s & Hn & Hc).
    rewrite (parse_value_int f _ (s ++ rest) c);
      [ | rewrite Hs, Hn; reflexivity | exact Hc ].
    rewrite <- append_cons, <- Hn, (read_int_of_Z n rest Hrest). reflexivity.
  - pose proof (skip_ws_dumps indent (VStr s) ws rest Hws) as Hs.
    cbn [dumps_at] in *. rewrite quote_text in Hs |- *.
    rewrite (parse_value_string f _ _ Hs), read_string_escape. reflexivity.
  - pose proof (skip_ws_dumps indent (VList l) ws rest Hws) as Hs.
    inversion Hvalid as [| | | |? Vl|]; subst.
    destruct l as [|x xs].
    + rewrite (parse_value_list f _ ("]" ++ rest)) by exact Hs. reflexivity.
    + rewrite dumps_list in *.
      replace (("[" ++ nl ++ join_lines (map (item_line indent) (x :: xs))
                    ++ nl ++ spaces indent ++ "]") ++ rest)
        with (String "[" (nl ++ join_lines (map (item_line indent) (x :: xs))
                             ++ nl ++ spaces indent ++ "]" ++ rest))
        in Hs |- *
        by (rewrite !append_assoc; reflexivity).
      rewrite (parse_value_list f _ _ Hs), first_item_not_closed.
      rewrite (items_read_back (x :: xs) IH Vl ltac:(discriminate) indent f rest);
        [reflexivity|].
      simpl in Hfuel. unfold items_size. simpl. lia.
  - pose proof (skip_ws_dumps indent (VDict d) ws rest Hws) as Hs.
    inversion Hvalid as [| | | | |? Hnd Vd]; subst.
    destruct d as [|m ms].
    + rewrite (parse_value_dict f _ ("}" ++ rest)) by exact Hs. reflexivity.
    + rewrite dumps_dict in *.
      replace (("{" ++ nl ++ join_lines (map (member_line indent) (m :: ms))
                    ++ nl ++ spaces indent ++ "}") ++ rest)
        with (String "{" (nl ++ join_lines (map (member_line indent) (m :: ms))
                             ++ nl ++ spaces indent ++ "}" ++ rest))
        in Hs |- *
        by (rewrite !append_assoc; reflexivity).
      rewrite (parse_value_dict f _ _ Hs), first_member_not_closed.
      rewrite (members_read_back (m :: ms) IH Vd ltac:(discriminate)
                 indent f rest).
      * rewrite (fold_dict_set (m :: ms) [] Hnd). reflexivity.
      * simpl in Hfuel. unfold members_size. simpl. lia.
Qed.

(** ** Fuel *)

Lemma length_spaces (n : nat) : String.length (spaces n) = n.
Proof. induction n as [|n IH]; simpl; [reflexivity | rewrite IH; reflexivity]. Qed.

Lemma length_join_lines (A : Type) (line : A -> string) (weight : A -> nat)
  (l : list A) :
  Forall (fun x => (S (weight x) <= String.length (line x))%nat) l ->
  (fold_right (fun x n => S (weight x + n)) O l
   <= String.length (join_lines (map line l)))%nat.
Proof.
  induction 1 as [|x l Hx Hl IH]; [simpl; lia|].
  destruct l as [|y l].
  - simpl. lia.
  - cbn [map] in *. rewrite join_lines_cons, !length_append.
    cbn [fold_right] in *. lia.
Qed.

Lemma size_le_length (v : value) :
  forall indent, (size v <= String.length (dumps_at indent v))%nat.
Proof.
  induction v as [|b|n|s|l IH|d IH|x] using value_induction; intros indent;
    [| | | | | |cbn [dumps_at size];
                destruct (float_text_head x) as (c & t & -> & _); simpl; lia].
  - simpl. lia.
  - destruct b; simpl; lia.
  - cbn [dumps_at size]. destruct (of_Z_head n) as (c & s & -> & _).
    simpl. lia.
  - simpl. lia.
  - destruct l as [|x xs]; [simpl; lia|].
    rewrite dumps_list, !length_append. cbn [size].
    pose proof (length_join_lines value (item_line indent) size (x :: xs)) as H.
    simpl String.length at 1.
    assert (Hl : Forall (fun x => (S (size x) <= String.length (item_line indent x))%nat)
                   (x :: xs)).
    { eapply List.Forall_impl; [|exact IH]. intros a Ha. unfold item_line.
      rewrite length_append, length_spaces. specialize (Ha (2 + indent)%nat).
      lia. }
    specialize (H Hl). lia.
  - destruct d as [|m ms]; [simpl; lia|].
    rewrite dumps_dict, !length_append. cbn [size].
    pose proof (length_join_lines (string * value) (member_line indent)
                  (fun kv => size (snd kv)) (m :: ms)) as H.
    assert (Hl : Forall (fun kv => (S (size (snd kv))
                                    <= String.length (member_line indent kv))%nat)
                   (m :: ms)).
    { eapply List.Forall_impl; [|exact IH]. intros a Ha. unfold member_line.
      rewrite !length_append, length_spaces. specialize (Ha (2 + indent)%nat).
      lia. }
    specialize (H Hl). cbv beta in H. simpl String.length at 1. lia.
Qed.

(** ** The codec *)

(** Decoding the text of a valid value gives the value. *)
Lemma loads_dumps (v : value) : valid v -> loads (dumps v) = Return v.
Proof.
  intros Hvalid. unfold loads, dumps.
  rewrite (reads_back_text v 0 _ "" "" _ (parse_value_dumps v) Hvalid);
    [ reflexivity | reflexivity | | reflexivity
      | rewrite append_nil, append_nil_r; reflexivity ].
  pose proof (size_le_length v 0). lia.
Qed.

End RefCodecFacts.

(** ** The export, with the reference codec *)

(** The rows of a well-formed table whose cells are valid values are valid
    mappings. *)
Lemma to_records_valid (df : frame) :
  well_formed df ->
  Forall (Forall RefCodec.valid) (rows df) ->
  RefCodec.valid (VList (to_records df)).
Proof.
  intros (Hnd & Hstr & Hrows) Hcells. constructor. unfold to_records.
  rewrite List.Forall_forall in *. intros v Hv.
  apply in_map_iff in Hv as (r & <- & Hr).
  assert (Hlen : length r = length (map label_str (columns df)))
    by (rewrite length_map; apply Hrows, Hr).
  constructor.
  - rewrite (map_fst_combine _ r Hlen). apply label_str_NoDup; [|exact Hnd].
    rewrite List.Forall_forall. exact Hstr.
  - rewrite List.Forall_forall. intros [k x] Hkx. simpl.
    apply in_combine_r in Hkx.
    specialize (Hcells r Hr). rewrite List.Forall_forall in Hcells.
    apply Hcells, Hkx.
Qed.

(** The reference decoder reads the export of such a table back as the
    list of its rows. *)
Lemma reference_codec_reads_export (df : frame) :
  well_formed df ->
  Forall (Forall RefCodec.valid) (rows df) ->
  json_loads RefCodec.lib (to_json RefCodec.lib df)
  = Return (VList (to_records df)).
Proof.
  intros Hwf Hcells. unfold to_json. simpl.
  apply RefCodecFacts.loads_dumps, to_records_valid; assumption.
Qed.

(** With the reference codec, re-parsing the export of a well-formed,
    non-empty table whose cells are valid values gives the table. *)
Lemma reference_export_reparse (df : frame) :
  well_formed df -> (0 < len df)%nat ->
  Forall (Forall RefCodec.valid) (rows df) ->
  parse_response RefCodec.lib (VStr (to_json RefCodec.lib df))
  = ([], Return (Some df, VDict [])).
Proof.
  intros Hwf Hlen Hcells.
  unfold parse_response, parse_response_body.
  rewrite (reference_codec_reads_export df Hwf Hcells). cbn -[DataFrame].
  rewrite (DataFrame_records RefCodec.lib _ (to_records_are_dicts df)).
  rewrite (frame_of_to_records df Hwf Hlen). reflexivity.
Qed.




(* ===================================================================== *)
(** * Further properties: the address of the webhook *)
(* ===================================================================== *)

Lemma rstrip_by_app (p : ascii -> bool) (s t : string) :
  PyStr.all p t = true ->
  PyStr.rstrip_by p (s ++ t) = PyStr.rstrip_by p s.
Proof.
  intros Ht. induction s as [|c s IH].
  - change ("" ++ t) with t. simpl.
    induction t as [|d t IHt]; [reflexivity|].
    simpl in *. apply andb_prop in Ht as [Hd Ht].
    rewrite (IHt Ht), Hd. reflexivity.
  - change (String c s ++ t) with (String c (s ++ t)). simpl.
    rewrite IH. reflexivity.
Qed.

Lemma rstrip_by_no_end (c : ascii) (s : string) :
  ends_with c (PyStr.rstrip_by (Ascii.eqb c) s) = false.
Proof.
  induction s as [|a s IH]; [reflexivity|]. simpl.
  destruct (PyStr.rstrip_by (Ascii.eqb c) s) as [|b r] eqn:E.
  - destruct (Ascii.eqb c a) eqn:Hca; [reflexivity|]. simpl.
    rewrite Ascii.eqb_sym. exact Hca.
  - exact IH.
Qed.

(** X1. The address [get_n8n_url] builds is the configured base URL
    without its trailing slashes, one slash, and the path of the webhook:
    the base never ends with a slash, and slashes typed after the base URL
    change nothing. *)
Theorem get_n8n_url_trailing_slashes (ss : session_state) (u t : string) :
  PyStr.all (Ascii.eqb "/") t = true ->
  get_n8n_url (with_n8n_url (u ++ t) ss) = get_n8n_url (with_n8n_url u ss)
  /\ exists base,
       get_n8n_url (with_n8n_url (u ++ t) ss) = base ++ "/" ++ WEBHOOK_PATH
       /\ ends_with "/" base = false
       /\ base = PyStr.rstrip_by (Ascii.eqb "/") u.
Proof.
  intros Ht. unfold get_n8n_url. simpl.
  rewrite (rstrip_by_app _ u t Ht). split; [reflexivity|].
  eexists. split; [reflexivity|]. split; [apply rstrip_by_no_end | reflexivity].
Qed.

Lemma get_n8n_url_trailing_slashes_witness :
  get_n8n_url (with_n8n_url ("http://localhost:5678" ++ "//") initial_session)
  = get_n8n_url (with_n8n_url "http://localhost:5678" initial_session)
  /\ exists base,
       get_n8n_url (with_n8n_url ("http://localhost:5678" ++ "//") initial_session)
       = base ++ "/" ++ WEBHOOK_PATH
       /\ ends_with "/" base = false
       /\ base = PyStr.rstrip_by (Ascii.eqb "/") "http://localhost:5678".
Proof.
  apply (get_n8n_url_trailing_slashes initial_session
           "http://localhost:5678" "//").
  reflexivity.
Defined.

(* ===================================================================== *)
(** * Further properties: exceptions of the call *)
(* ===================================================================== *)

(** X2. When [requests.post] raises, [trigger_workflow] reports the
    exception by its class: a timeout as "Timeout after <t>s", where [t] is
    the timeout the request carried; a connection error as "Cannot connect
    to n8n at <address>", the address the request went to; any other
    exception that derives from [Exception] by its own text. In each case
    one request was posted and no other. *)
Theorem trigger_exception_report (w : world) (ss : session_state) (count : Z)
  (e : exn) :
  requests_post w (trigger_request ss count) = Raise e ->
  let req := trigger_request ss count in
  let outcome := snd (trigger_workflow w ss count) in
  posted (fst (trigger_workflow w ss count)) = [req]
  /\ (exn_type e = Timeout ->
      outcome = Return (failed ("Timeout after " ++ PyStr.of_Z (req_timeout req)
                                ++ "s")))
  /\ (exn_type e = ConnectionError ->
      outcome = Return (failed ("Cannot connect to n8n at " ++ req_url req)))
  /\ (is_Exception e = true -> exn_type e <> Timeout ->
      exn_type e <> ConnectionError ->
      outcome = Return (failed (exn_str e))).
Proof.
  intros He req outcome. subst req outcome.
  rewrite trigger_trace. split; [reflexivity|].
  unfold trigger_workflow. rewrite He. simpl.
  repeat split.
  - intros ->. reflexivity.
  - intros ->. reflexivity.
  - unfold is_Exception. intros Hexc Ht Hc.
    destruct (exn_type e); try reflexivity; congruence.
Qed.

Lemma trigger_exception_report_witness :
  snd (trigger_workflow (Examples.raising (Exn Timeout "read timed out"))
                        initial_session 150)
  = Return (failed "Timeout after 450s").
Proof.
  apply (proj1 (proj2 (trigger_exception_report
                         (Examples.raising (Exn Timeout "read timed out"))
                         initial_session 150
                         (Exn Timeout "read timed out") eq_refl))).
  reflexivity.
Defined.

(* ===================================================================== *)
(** * Further properties: what a run lets through *)
(* ===================================================================== *)

Lemma trigger_workflow_outcome (w : world) (ss : session_state) (count : Z) :
  match snd (trigger_workflow w ss count) with
  | Return d => outcome_shape d
  | Raise e => is_Exception e = false
  end.
Proof.
  unfold trigger_workflow.
  destruct (requests_post w (trigger_request ss count)) as [r|e]; simpl.
  - unfold mbind, result_bind.
    destruct (classify_response_cases r) as [(d & -> & Hs)|(e & -> & _ & _)].
    + exact Hs.
    + simpl.
      destruct (exn_type e) eqn:Hcls; try apply failed_shape.
      unfold is_Exception. rewrite Hcls. reflexivity.
  - destruct (exn_type e) eqn:Hcls; try apply failed_shape.
    unfold is_Exception. rewrite Hcls. reflexivity.
Qed.

Lemma parse_response_raises (lib : library) (data : value) (e : exn) :
  snd (parse_response lib data) = Raise e -> is_Exception e = false.
Proof.
  unfold parse_response.
  destruct (parse_response_body lib data) as [r|e']; simpl; [discriminate|].
  destruct (is_Exception e') eqn:He; simpl; [discriminate|].
  intros H. injection H as <-. exact He.
Qed.

Lemma handle_data_uncaught (lib : library) (w : world) (data : value)
  (ss : session_state) (e : exn) :
  snd (handle_data lib w data ss) = Uncaught e ->
  is_Exception e = false /\ snd (fst (handle_data lib w data ss)) = ss.
Proof.
  unfold handle_data.
  pose proof (parse_response_raises lib data) as Hraise.
  destruct (parse_response lib data) as [evs [[[df|] outs]|exc]]; simpl in *.
  - destruct (0 <? len df)%nat; [destruct (has_column "ai_severity_score" df)|];
      simpl; discriminate.
  - discriminate.
  - intros H. injection H as <-. auto.
Qed.

Lemma analysis_uncaught (lib : library) (w : world) (inp : widgets)
  (ss : session_state) (e : exn) :
  snd (analysis lib w inp ss) = Uncaught e ->
  is_Exception e = false /\ snd (fst (analysis lib w inp ss)) = ss.
Proof.
  unfold analysis.
  pose proof (trigger_workflow_outcome w ss (records inp)) as Hout.
  destruct (trigger_workflow w ss (records inp)) as [trace [d|exc]];
    simpl in *.
  - destruct Hout as (ok & Hok & Hdata & Herr & _). rewrite Hok. simpl.
    destruct ok.
    + destruct (proj2 Hdata eq_refl) as [data ->].
      pose proof (handle_data_uncaught lib w data ss e) as Hh.
      destruct (handle_data lib w data ss) as [[after ss'] e']. simpl in *.
      exact Hh.
    + destruct (proj2 Herr eq_refl) as [err ->]. simpl. discriminate.
  - intros H. injection H as <-. auto.
Qed.

(** X3. Before the renderer is reached, a run of the script ends with an
    uncaught exception only in the analyzing branch, and only with an
    exception that does not derive from [Exception] (an interrupt, say):
    the dictionary [trigger_workflow] returns always has the keys the
    branch reads, and [parse_response] catches what the decoder and pandas
    raise. Such a run stores nothing. *)
Theorem script_uncaught_is_not_an_Exception (lib : library) (w : world)
  (inp : widgets) (ss : session_state) (e : exn) :
  snd (script lib w inp ss) = Uncaught e ->
  is_Exception e = false
  /\ analyzing_now ss = true
  /\ after_run lib w inp ss = with_n8n_url (in_n8n_url inp) ss
  /\ results (after_run lib w inp ss) = None.
Proof.
  unfold after_run, script.
  destruct (start_analysis inp); simpl; [discriminate|].
  destruct (results ss) as [df|] eqn:Hr.
  - destruct (new_analysis inp); simpl; [discriminate|].
    replace (analyzing_now (with_n8n_url (in_n8n_url inp) ss)) with false
      by (unfold analyzing_now; simpl; rewrite Hr;
          destruct (analyzing ss) as [[|]|]; reflexivity).
    simpl. rewrite Hr. discriminate.
  - assert (Hnow : analyzing_now (with_n8n_url (in_n8n_url inp) ss)
                   = analyzing_now ss) by reflexivity.
    rewrite Hnow. destruct (analyzing_now ss) eqn:Ha.
    + intros H. apply analysis_uncaught in H as [He Hs].
      rewrite Hs. simpl. auto.
    + simpl. rewrite Hr. discriminate.
Qed.

Lemma script_uncaught_is_not_an_Exception_witness :
  is_Exception (Exn BaseOnly "KeyboardInterrupt") = false
  /\ analyzing_now Examples.started = true
  /\ after_run RefCodec.lib
       (Examples.raising (Exn BaseOnly "KeyboardInterrupt"))
       (Examples.idle_widgets 10) Examples.started
     = with_n8n_url (in_n8n_url (Examples.idle_widgets 10)) Examples.started
  /\ results (after_run RefCodec.lib
                (Examples.raising (Exn BaseOnly "KeyboardInterrupt"))
                (Examples.idle_widgets 10) Examples.started) = None.
Proof.
  apply (script_uncaught_is_not_an_Exception RefCodec.lib
           (Examples.raising (Exn BaseOnly "KeyboardInterrupt"))
           (Examples.idle_widgets 10) Examples.started
           (Exn BaseOnly "KeyboardInterrupt")).
  reflexivity.
Defined.

(* ===================================================================== *)
(** * Further properties: the requests of a run *)
(* ===================================================================== *)

(** X4. A run posts at most one request, and posts it exactly when it
    analyzes (the flag is set, no table is stored, "Start Analysis" was not
    pressed). The request goes to the base URL of the text box, trailing
    slashes removed, followed by the path of the webhook; its body is the
    record count of the number box and the tag "streamlit"; for the counts
    the number box allows, 1 to 100, its timeout is 300 seconds. *)
Theorem script_posts_once (lib : library) (w : world) (inp : widgets)
  (ss : session_state) :
  let req := trigger_request (with_n8n_url (in_n8n_url inp) ss) (records inp) in
  posted (fst (fst (script lib w inp ss)))
  = (if negb (start_analysis inp) && analyzing_now ss then [req] else [])
  /\ req_url req
     = PyStr.rstrip_by (Ascii.eqb "/") (in_n8n_url inp) ++ "/" ++ WEBHOOK_PATH
  /\ req_json req
     = [("record_count", VInt (records inp)); ("triggered_by", VStr "streamlit")]
  /\ req_headers req = [("Content-Type", "application/json")]
  /\ (1 <= records inp <= 100 -> req_timeout req = 300).
Proof.
  intros req. subst req. split; [|repeat split; simpl; lia].
  unfold script.
  destruct (start_analysis inp); simpl; [reflexivity|].
  destruct (results ss) as [df|] eqn:Hr.
  - replace (analyzing_now ss) with false
      by (unfold analyzing_now; rewrite Hr;
          destruct (analyzing ss) as [[|]|]; reflexivity).
    destruct (new_analysis inp); simpl; [reflexivity|].
    replace (analyzing_now (with_n8n_url (in_n8n_url inp) ss)) with false
      by (unfold analyzing_now, with_n8n_url; cbn [analyzing results];
          rewrite Hr; destruct (analyzing ss) as [[|]|]; reflexivity).
    reflexivity.
  - assert (Hnow : analyzing_now (with_n8n_url (in_n8n_url inp) ss)
                   = analyzing_now ss) by reflexivity.
    rewrite Hnow. destruct (analyzing_now ss).
    + apply analysis_posted.
    + reflexivity.
Qed.

(* ===================================================================== *)
(** * Further properties: the analyzing flag *)
(* ===================================================================== *)

Lemma handle_data_analyzing (lib : library) (w : world) (data : value)
  (ss : session_state) :
  analyzing (snd (fst (handle_data lib w data ss))) = analyzing ss.
Proof.
  unfold handle_data.
  destruct (parse_response lib data) as [evs [[[df|] outs]|exc]]; simpl;
    [destruct (0 <? len df)%nat;
       [destruct (has_column "ai_severity_score" df)|] | |];
    reflexivity.
Qed.

Lemma analysis_analyzing (lib : library) (w : world) (inp : widgets)
  (ss : session_state) :
  analyzing (snd (fst (analysis lib w inp ss))) = analyzing ss.
Proof.
  unfold analysis.
  destruct (trigger_workflow w ss (records inp)) as [trace [d|exc]];
    [|reflexivity].
  destruct (d !! "ok") as [ok|]; [|reflexivity].
  destruct (truthy ok).
  - destruct (d !! "data") as [data|]; [|reflexivity].
    pose proof (handle_data_analyzing lib w data ss) as Hh.
    destruct (handle_data lib w data ss) as [[after ss'] e]. exact Hh.
  - destruct (d !! "error"); reflexivity.
Qed.

Lemma after_run_analyzing (lib : library) (w : world) (inp : widgets)
  (ss : session_state) :
  analyzing (after_run lib w inp ss)
  = if start_analysis inp then Some true else analyzing ss.
Proof.
  unfold after_run, script.
  destruct (start_analysis inp); [reflexivity|].
  destruct (match results (with_n8n_url (in_n8n_url inp) ss) with
            | Some _ => new_analysis inp
            | None => false
            end); [reflexivity|].
  destruct (analyzing_now (with_n8n_url (in_n8n_url inp) ss)).
  - rewrite analysis_analyzing. reflexivity.
  - destruct (results (with_n8n_url (in_n8n_url inp) ss)); reflexivity.
Qed.

Lemma not_idle_while_flagged (ss : session_state) :
  analyzing ss = Some true -> phase_of ss <> Idle.
Proof.
  unfold phase_of, analyzing_now. intros ->.
  destruct (results ss); discriminate.
Qed.

(** X5. No line of the script clears the [analyzing] flag: once it is
    set, it is set after every run, whatever the widgets and whatever the
    server answers, and the session is never again in the idle phase (the
    welcome page): it is analyzing, or it shows a stored table. *)
Theorem analyzing_is_never_cleared (lib : library) (w : world) (inp : widgets)
  (ss : session_state) :
  analyzing ss = Some true ->
  analyzing (after_run lib w inp ss) = Some true
  /\ phase_of (after_run lib w inp ss) <> Idle.
Proof.
  intros Ha.
  assert (H : analyzing (after_run lib w inp ss) = Some true).
  { rewrite after_run_analyzing. destruct (start_analysis inp); auto. }
  split; [exact H | apply not_idle_while_flagged, H].
Qed.

Lemma analyzing_is_never_cleared_witness :
  analyzing (after_run RefCodec.lib (Examples.answering Examples.server_error)
                       (Examples.idle_widgets 10) Examples.started) = Some true
  /\ phase_of (after_run RefCodec.lib (Examples.answering Examples.server_error)
                         (Examples.idle_widgets 10) Examples.started) <> Idle.
Proof.
  apply (analyzing_is_never_cleared RefCodec.lib
           (Examples.answering Examples.server_error)
           (Examples.idle_widgets 10) Examples.started).
  reflexivity.
Defined.

(** A table is stored only by a run that analyzes, so the flag is set
    whenever a table is stored; the metadata are stored with it. *)
Lemma stored_while_flagged (lib : library) (ss : session_state) :
  reachable lib ss ->
  forall df, results ss = Some df -> analyzing ss = Some true.
Proof.
  induction 1 as [|w inp ss Hreach IH]; intros df Hdf; [discriminate|].
  rewrite after_run_analyzing.
  destruct (start_analysis inp) eqn:Hstart; [reflexivity|].
  destruct (results ss) as [old|] eqn:Hr; [eapply IH; reflexivity|].
  revert Hdf. unfold after_run, script. rewrite Hstart. simpl. rewrite Hr.
  assert (Hnow : analyzing_now (with_n8n_url (in_n8n_url inp) ss)
                 = analyzing_now ss) by reflexivity.
  rewrite Hnow. destruct (analyzing_now ss) eqn:Ha.
  - intros _. apply (analyzing_now_inv ss Ha).
  - simpl. rewrite Hr. discriminate.
Qed.

(** X6. "New Analysis" does not lead back to the welcome page. It is
    offered when a table is stored, and a table is stored only while the
    [analyzing] flag is set; the button clears the table and leaves the
    flag, so the session is in the analyzing phase and the next run posts
    the request again, "Start Analysis" not being pressed. *)
Theorem new_analysis_restarts (lib : library) (w : world) (inp : widgets)
  (ss : session_state) (df : frame) :
  reachable lib ss -> results ss = Some df ->
  start_analysis inp = false -> new_analysis inp = true ->
  let ss' := after_run lib w inp ss in
  snd (script lib w inp ss) = Rerun
  /\ results ss' = None
  /\ phase_of ss' = Analyzing
  /\ forall w2 inp2, start_analysis inp2 = false ->
       posted (fst (fst (script lib w2 inp2 ss')))
       = [trigger_request (with_n8n_url (in_n8n_url inp2) ss') (records inp2)].
Proof.
  intros Hreach Hdf Hstart Hnew ss'.
  pose proof (stored_while_flagged lib ss Hreach df Hdf) as Hflag.
  assert (Hss : ss' = with_results None (with_n8n_url (in_n8n_url inp) ss)).
  { subst ss'. unfold after_run, script. rewrite Hstart. simpl.
    rewrite Hdf, Hnew. reflexivity. }
  assert (Hnow : analyzing_now ss' = true).
  { rewrite Hss. unfold analyzing_now. simpl. rewrite Hflag. reflexivity. }
  split; [|split; [|split]].
  - unfold script. rewrite Hstart. simpl. rewrite Hdf, Hnew. reflexivity.
  - rewrite Hss. reflexivity.
  - apply phase_analyzing, Hnow.
  - intros w2 inp2 Hstart2.
    rewrite (script_analyzing lib w2 inp2 ss' Hstart2 Hnow).
    apply analysis_posted.
Qed.

Lemma stored_is_reachable : reachable RefCodec.lib MoreExamples.stored.
Proof.
  unfold MoreExamples.stored.
  replace Examples.started
    with (after_run RefCodec.lib
            (Examples.answering Examples.empty_body)
            {| in_n8n_url := DEFAULT_N8N_URL; records := 10; threshold := 4;
               start_analysis := true; new_analysis := false |}
            initial_session) by reflexivity.
  apply reachable_run, reachable_run, reachable_initial.
Qed.

Lemma new_analysis_restarts_witness :
  let ss' := after_run RefCodec.lib (Examples.answering Examples.empty_body)
                       MoreExamples.pressing_new MoreExamples.stored in
  snd (script RefCodec.lib (Examples.answering Examples.empty_body)
              MoreExamples.pressing_new MoreExamples.stored) = Rerun
  /\ results ss' = None
  /\ phase_of ss' = Analyzing
  /\ forall w2 inp2, start_analysis inp2 = false ->
       posted (fst (fst (script RefCodec.lib w2 inp2 ss')))
       = [trigger_request (with_n8n_url (in_n8n_url inp2) ss') (records inp2)].
Proof.
  apply (new_analysis_restarts RefCodec.lib
           (Examples.answering Examples.empty_body)
           MoreExamples.pressing_new MoreExamples.stored
           (frame_of_records (map dict_items Examples.payload_records))).
  - exact stored_is_reachable.
  - vm_compute. reflexivity.
  - reflexivity.
  - reflexivity.
Defined.

(* ===================================================================== *)
(** * Further properties: critical alerts *)
(* ===================================================================== *)

Lemma critical_rows_column (threshold : Z) (df : list Row.t) :
  map Row.ai_severity_score (critical_rows threshold df)
  = critical threshold (map Row.ai_severity_score df).
Proof.
  unfold critical_rows, critical. induction df as [|r df IH]; simpl.
  - reflexivity.
  - destruct (threshold <=? Row.ai_severity_score r); simpl; rewrite IH;
      reflexivity.
Qed.

Lemma critical_rows_twice (t1 t2 : Z) (df : list Row.t) :
  t1 <= t2 ->
  critical_rows t2 (critical_rows t1 df) = critical_rows t2 df.
Proof.
  intros Hle. unfold critical_rows. induction df as [|r df IH]; simpl.
  - reflexivity.
  - destruct (Z.leb_spec t1 (Row.ai_severity_score r)) as [H1|H1]; simpl.
    + rewrite IH. reflexivity.
    + destruct (Z.leb_spec t2 (Row.ai_severity_score r)) as [H2|H2];
        [lia | exact IH].
Qed.

(** X7. Raising the critical threshold only removes rows from the set of
    critical rows: the rows critical at a threshold are critical at every
    lower one, in the same order, and their number is at most the number
    critical at the lower threshold, which is at most the number of
    rows. *)
Theorem critical_rows_monotone (t1 t2 : Z) (df : list Row.t) :
  t1 <= t2 ->
  critical_rows t2 (critical_rows t1 df) = critical_rows t2 df
  /\ incl (critical_rows t2 df) (critical_rows t1 df)
  /\ (length (critical_rows t2 df) <= length (critical_rows t1 df)
      <= length df)%nat.
Proof.
  intros Hle. split; [apply critical_rows_twice, Hle|]. split.
  - intros r Hr. unfold critical_rows in *.
    apply List.filter_In in Hr as [Hin Hr]. apply List.filter_In.
    split; [exact Hin|]. apply Z.leb_le in Hr. apply Z.leb_le. lia.
  - split.
    + rewrite <- (critical_rows_twice t1 t2 df Hle).
      apply List.filter_length_le.
    + apply List.filter_length_le.
Qed.

Lemma critical_rows_monotone_witness :
  critical_rows 5 (critical_rows 3 MoreExamples.seven)
  = critical_rows 5 MoreExamples.seven
  /\ incl (critical_rows 5 MoreExamples.seven)
          (critical_rows 3 MoreExamples.seven)
  /\ (length (critical_rows 5 MoreExamples.seven)
      <= length (critical_rows 3 MoreExamples.seven)
      <= length MoreExamples.seven)%nat.
Proof.
  apply (critical_rows_monotone 3 5 MoreExamples.seven). lia.
Defined.

Lemma critical_rows_none (threshold : Z) (df : list Row.t) :
  critical_rows threshold df = []
  <-> forall r, In r df -> Row.ai_severity_score r < threshold.
Proof.
  unfold critical_rows. induction df as [|a df IH]; simpl.
  - split; [intros _ r [] | reflexivity].
  - destruct (Z.leb_spec threshold (Row.ai_severity_score a)) as [H|H].
    + split; [discriminate|]. intros Hall. specialize (Hall a (or_introl eq_refl)).
      lia.
    + rewrite IH. split.
      * intros Hall r [<-|Hr]; auto.
      * intros Hall r Hr. apply Hall. right. exact Hr.
Qed.

(** X8. The panel of critical alerts accounts for every critical row: it
    shows the alerts of the first two critical rows of the table in full,
    counts the others in "+ k more sent", and the alerts shown and the
    alerts counted add up to the number in the box, which is the number of
    the "Critical" metric. It says "No critical alerts" exactly when every
    severity is below the threshold. *)
Theorem critical_panel_accounts (threshold : Z) (df : list Row.t) :
  let critical_df := critical_rows threshold df in
  let panel := critical_panel critical_df in
  (panel = [NoCritical]
   <-> forall r, In r df -> Row.ai_severity_score r < threshold)
  /\ (critical_df <> [] -> In (AlertBox (length critical_df)) panel)
  /\ alert_codes panel = map alert_text (firstn 2 critical_df)
  /\ (length (alert_codes panel) + alerts_not_shown panel
      = length critical_df)%nat
  /\ length critical_df
     = length (critical threshold (map Row.ai_severity_score df)).
Proof.
  intros critical_df panel.
  assert (Hcol : length critical_df
                 = length (critical threshold (map Row.ai_severity_score df))).
  { rewrite <- critical_rows_column. symmetry. apply length_map. }
  split; [|split; [|split; [|split; [|exact Hcol]]]].
  - rewrite <- critical_rows_none. fold critical_df. subst panel.
    unfold critical_panel. destruct critical_df as [|a l]; simpl.
    + split; reflexivity.
    + split; discriminate.
  - subst panel. unfold critical_panel.
    destruct critical_df as [|a l]; [congruence|]. intros _. left. reflexivity.
  - subst panel. unfold critical_panel.
    destruct critical_df as [|a [|b [|c l]]]; reflexivity.
  - subst panel. unfold critical_panel.
    destruct critical_df as [|a [|b [|c l]]]; simpl; lia.
Qed.

(* ===================================================================== *)
(** * Further properties: the top five of the urgent summary *)
(* ===================================================================== *)

Lemma insert_by_severity_perm (r : Row.t) (s : list Row.t) :
  Permutation (insert_by_severity r s) (r :: s).
Proof.
  induction s as [|h t IH]; simpl; [reflexivity|].
  destruct (Row.ai_severity_score r <? Row.ai_severity_score h); [|reflexivity].
  rewrite IH. apply perm_swap.
Qed.

Lemma sort_by_severity_perm (df : list Row.t) :
  Permutation (fold_right insert_by_severity [] df) df.
Proof.
  induction df as [|r df IH]; simpl; [reflexivity|].
  rewrite insert_by_severity_perm, IH. reflexivity.
Qed.

Lemma insert_by_severity_sorted (r : Row.t) (s : list Row.t) :
  StronglySorted by_severity s -> StronglySorted by_severity (insert_by_severity r s).
Proof.
  induction s as [|h t IH]; simpl; intros Hs.
  - repeat constructor.
  - inversion Hs as [|? ? Ht Hh]; subst.
    destruct (Z.ltb_spec (Row.ai_severity_score r) (Row.ai_severity_score h))
      as [Hlt|Hge].
    + constructor; [apply IH, Ht|].
      eapply Permutation_Forall; [symmetry; apply insert_by_severity_perm|].
      constructor; [unfold by_severity; lia | exact Hh].
    + constructor; [exact Hs|]. constructor; [exact Hge|].
      eapply List.Forall_impl; [|exact Hh]. unfold by_severity. intros a Ha. lia.
Qed.

Lemma sort_by_severity_sorted (df : list Row.t) :
  StronglySorted by_severity (fold_right insert_by_severity [] df).
Proof.
  induction df as [|r df IH]; simpl; [constructor|].
  apply insert_by_severity_sorted, IH.
Qed.

Lemma sort_by_severity_stable (df : list Row.t) :
  StronglySorted by_severity df -> fold_right insert_by_severity [] df = df.
Proof.
  induction df as [|r df IH]; simpl; intros Hs; [reflexivity|].
  inversion Hs as [|? ? Ht Hr]; subst. rewrite (IH Ht).
  destruct df as [|h t]; [reflexivity|]. simpl.
  inversion Hr as [|? ? Hh _]; subst. unfold by_severity in Hh.
  destruct (Z.ltb_spec (Row.ai_severity_score r) (Row.ai_severity_score h));
    [lia | reflexivity].
Qed.

Lemma sorted_split (l1 l2 : list Row.t) :
  StronglySorted by_severity (l1 ++ l2) ->
  StronglySorted by_severity l1
  /\ forall a b, In a l1 -> In b l2 -> by_severity a b.
Proof.
  induction l1 as [|x l1 IH]; simpl; intros Hs.
  - split; [constructor | intros a b []].
  - inversion Hs as [|? ? Ht Hx]; subst. destruct (IH Ht) as [H1 H2].
    rewrite List.Forall_forall in Hx. split.
    + constructor; [exact H1|]. rewrite List.Forall_forall.
      intros b Hb. apply Hx, in_or_app. left. exact Hb.
    + intros a b [<-|Ha] Hb; [apply Hx, in_or_app; right; exact Hb | auto].
Qed.

(** X9. [nlargest(n, 'ai_severity_score')] gives the [n] rows of largest
    severity, or all of them when the table has fewer: its rows are in
    descending order of severity, every row it leaves out has a severity at
    most that of every row it keeps, and the rows kept and the "+k more"
    of the summary (k = len - n, shown when positive) add up to the number
    of rows. A table already in descending order is cut, not reordered. *)
Theorem nlargest_top (n : nat) (df : list Row.t) :
  length (nlargest n df) = Nat.min n (length df)
  /\ (length (nlargest n df) + (length df - n) = length df)%nat
  /\ StronglySorted by_severity (nlargest n df)
  /\ (exists rest,
        Permutation df (nlargest n df ++ rest)
        /\ forall a b, In a (nlargest n df) -> In b rest ->
             Row.ai_severity_score b <= Row.ai_severity_score a)
  /\ (StronglySorted by_severity df -> nlargest n df = firstn n df).
Proof.
  unfold nlargest.
  set (sorted := fold_right insert_by_severity [] df).
  assert (Hlen : length sorted = length df)
    by apply Permutation_length, sort_by_severity_perm.
  assert (Hsplit : StronglySorted by_severity (firstn n sorted ++ skipn n sorted))
    by (rewrite firstn_skipn; apply sort_by_severity_sorted).
  apply sorted_split in Hsplit as [Htop Hrest].
  split; [|split; [|split; [|split]]].
  - rewrite length_firstn, Hlen. reflexivity.
  - rewrite length_firstn, Hlen. lia.
  - exact Htop.
  - exists (skipn n sorted). split.
    + rewrite firstn_skipn. symmetry. apply sort_by_severity_perm.
    + exact Hrest.
  - intros Hs. subst sorted. rewrite (sort_by_severity_stable df Hs).
    reflexivity.
Qed.

(* ===================================================================== *)
(** * Further properties: PubMed articles *)
(* ===================================================================== *)

Lemma pubmed_rows_count (df : list Row.t) :
  length (pubmed_rows df) = pubmed_count (map Row.source df).
Proof.
  unfold pubmed_rows, pubmed_count, count_if, in_pubmed.
  induction df as [|r df IH]; simpl; [reflexivity|].
  destruct (String.eqb (Row.source r) "pubmed"); simpl; rewrite IH; reflexivity.
Qed.

Lemma existsb_filter_nil {A} (p : A -> bool) (l : list A) :
  existsb p l = false <-> List.filter p l = [].
Proof.
  induction l as [|a l IH]; simpl; [tauto|].
  destruct (p a); simpl; [split; discriminate | exact IH].
Qed.

Lemma cards_of_titled {B} (card : Row.t -> B) (l : list Row.t) :
  flat_map (fun row => if has_title row then [card row] else []) l
  = map card (List.filter has_title l).
Proof.
  induction l as [|a l IH]; simpl; [reflexivity|].
  destruct (has_title a); simpl; rewrite IH; reflexivity.
Qed.


(* ===================================================================== *)
(** * Further properties: the average severity *)
(* ===================================================================== *)

Lemma sum_between (lo hi : Z) (xs : list Z) :
  Forall (fun x => lo <= x <= hi) xs ->
  lo * Z.of_nat (length xs) <= fold_right Z.add 0 xs <= hi * Z.of_nat (length xs).
Proof.
  induction 1 as [|x xs Hx _ IH]; simpl fold_right; simpl length; [lia|].
  rewrite Nat2Z.inj_succ. nia.
Qed.

(** X11. The average severity lies between the smallest and the largest
    severity of the table: when every score is between [lo] and [hi], so is
    the mean of a table that has rows. *)
Theorem mean_between (lo hi : Z) (xs : list Z) :
  xs <> [] -> Forall (fun x => lo <= x <= hi) xs ->
  exists m, mean xs = Some m /\ (inject_Z lo <= m <= inject_Z hi)%Q.
Proof.
  intros Hne Hall. pose proof (sum_between lo hi xs Hall) as [Hlo Hhi].
  destruct xs as [|x l]; [congruence|].
  set (xs := x :: l) in *.
  assert (Hpos : (0 < Q_of_nat (length xs))%Q).
  { unfold Q_of_nat. replace 0%Q with (inject_Z 0) by reflexivity.
    rewrite <- Zlt_Qlt. subst xs. simpl length. lia. }
  exists (inject_Z (fold_right Z.add 0%Z xs) / Q_of_nat (length xs))%Q.
  split; [reflexivity|]. split.
  - apply Qle_shift_div_l; [exact Hpos|].
    unfold Q_of_nat. rewrite <- inject_Z_mult, <- Zle_Qle. exact Hlo.
  - apply Qle_shift_div_r; [exact Hpos|].
    unfold Q_of_nat. rewrite <- inject_Z_mult, <- Zle_Qle. exact Hhi.
Qed.

Lemma mean_between_witness :
  exists m, mean (map Row.ai_severity_score MoreExamples.seven) = Some m
            /\ (inject_Z 1 <= m <= inject_Z 5)%Q.
Proof.
  apply (mean_between 1 5 (map Row.ai_severity_score MoreExamples.seven)).
  - discriminate.
  - repeat constructor; simpl; lia.
Defined.

(* ===================================================================== *)
(** * Further properties: the severity bands *)
(* ===================================================================== *)

(** X12. The badge of an article and the colour of a cell of the table
    cut the severities into the same three bands, fixed in the code and
    independent of the threshold chosen: 4 and more is "HIGH" and red, 3 is
    "MODERATE" and yellow, 2 and less is "LOW" and green. A cell that
    holds a float is coloured by the same two comparisons; NaN, which a
    column of numbers holds where the score is missing, passes neither and
    is green. Only a cell that is no number (a text, [None], a list, a
    mapping) is left without colour. *)
Theorem severity_bands (sev : Z) :
  (4 <= sev ->
   badge_text sev = "HIGH" /\ badge_color sev = "#ff6b6b"
   /\ color_sev (VInt sev) = "background-color: #ffcdd2")
  /\ (sev = 3 ->
      badge_text sev = "MODERATE" /\ badge_color sev = "#ffd93d"
      /\ color_sev (VInt sev) = "background-color: #fff9c4")
  /\ (sev <= 2 ->
      badge_text sev = "LOW" /\ badge_color sev = "#6bcf7f"
      /\ color_sev (VInt sev) = "background-color: #c8e6c9")
  /\ (forall x,
        (PrimFloat.leb 4 x = true ->
         color_sev (VFloat x) = "background-color: #ffcdd2")
        /\ (PrimFloat.leb 4 x = false -> PrimFloat.leb 3 x = true ->
            color_sev (VFloat x) = "background-color: #fff9c4")
        /\ (PrimFloat.leb 4 x = false -> PrimFloat.leb 3 x = false ->
            color_sev (VFloat x) = "background-color: #c8e6c9"))
  /\ color_sev (VFloat nan) = "background-color: #c8e6c9"
  /\ color_sev (VFloat 4.5) = "background-color: #ffcdd2"
  /\ color_sev (VFloat 3) = "background-color: #fff9c4"
  /\ (forall v, color_sev v = ""
                <-> match v with
                    | VInt _ | VBool _ | VFloat _ => False
                    | _ => True
                    end).
Proof.
  unfold badge_text, badge_color, color_sev.
  split; [|split; [|split; [|split; [|split; [|split; [|split]]]]]];
    try reflexivity.
  - intros H. destruct (Z.leb_spec 4 sev); [auto | lia].
  - intros ->. auto.
  - intros H. destruct (Z.leb_spec 4 sev); [lia|].
    destruct (Z.leb_spec 3 sev); [lia | auto].
  - intros x. split; [|split].
    + intros ->. reflexivity.
    + intros -> ->. reflexivity.
    + intros -> ->. reflexivity.
  - intros v. destruct v as [|b|n|s|l|d|x]; try (split; [auto | reflexivity]).
    + split; [|intros []]. destruct b; discriminate.
    + split; [|intros []].
      destruct (4 <=? n); [discriminate|]. destruct (3 <=? n); discriminate.
    + split; [|intros []].
      destruct (PrimFloat.leb 4 x); [discriminate|].
      destruct (PrimFloat.leb 3 x); discriminate.
Qed.

(* ===================================================================== *)
(** * Further properties: the shares of the summary *)
(* ===================================================================== *)

Lemma Q_of_nat_pos (n : nat) : (0 < n)%nat -> (0 < Q_of_nat n)%Q.
Proof.
  intros Hn. unfold Q_of_nat. replace 0%Q with (inject_Z 0) by reflexivity.
  rewrite <- Zlt_Qlt. lia.
Qed.

Lemma Q_of_nat_le (a b : nat) : (a <= b)%nat -> (Q_of_nat a <= Q_of_nat b)%Q.
Proof. intros H. unfold Q_of_nat. rewrite <- Zle_Qle. lia. Qed.

Lemma share_range (count n : nat) :
  (0 < n)%nat -> (count <= n)%nat ->
  (0 <= Q_of_nat count / Q_of_nat n * 100 <= 100)%Q.
Proof.
  intros Hn Hc. pose proof (Q_of_nat_pos n Hn) as Hpos. split.
  - apply Qmult_le_0_compat; [|discriminate].
    apply Qle_shift_div_l; [exact Hpos|]. rewrite Qmult_0_l.
    apply (Q_of_nat_le 0 count). lia.
  - apply Qle_trans with (1 * 100)%Q; [|unfold Qle; simpl; lia].
    apply Qmult_le_compat_r; [|discriminate].
    apply Qle_shift_div_r; [exact Hpos|]. rewrite Qmult_1_l.
    apply Q_of_nat_le, Hc.
Qed.

Lemma share_add (a b n : nat) :
  (0 < n)%nat ->
  (Q_of_nat a / Q_of_nat n * 100 + Q_of_nat b / Q_of_nat n * 100
   == Q_of_nat (a + b) / Q_of_nat n * 100)%Q.
Proof.
  intros Hn. pose proof (Q_of_nat_pos n Hn) as Hpos.
  unfold Q_of_nat in *. rewrite Nat2Z.inj_add, inject_Z_plus. field.
  intros H. rewrite H in Hpos. discriminate.
Qed.

Lemma figures_need_rows (ss : session_state) (df : frame) (threshold : Z)
  (source : list string) (ai_severity_score : list Z)
  (ai_category ai_urgency : list string) (f : figures) :
  summary_figures ss df threshold source ai_severity_score ai_category
                  ai_urgency = Return f ->
  (0 < len df)%nat.
Proof.
  unfold summary_figures, per_rec, percent, py_div.
  destruct (len df) as [|n]; [|lia]. simpl. discriminate.
Qed.

Lemma figures_of_rows (ss : session_state) (df : frame) (threshold : Z)
  (source : list string) (ai_severity_score : list Z)
  (ai_category ai_urgency : list string) (f : figures) :
  summary_figures ss df threshold source ai_severity_score ai_category
                  ai_urgency = Return f ->
  let share := fun count => (Q_of_nat count / Q_of_nat (len df) * 100)%Q in
  (0 < len df)%nat
  /\ speed f = (proc_time ss / Q_of_nat (len df))%Q
  /\ critical_share f = share (length (critical threshold ai_severity_score))
  /\ urgent_share f = share (length (urgent ai_urgency))
  /\ cadec_share f = share (cadec_count source)
  /\ fda_share f = share (fda_count source)
  /\ pubmed_share f = share (pubmed_count source)
  /\ percents (value_counts String.eqb ai_category) df
     = Return (category_shares f)
  /\ percents (value_counts String.eqb ai_urgency) df
     = Return (urgency_shares f).
Proof.
  intros Hf share. pose proof (figures_need_rows _ _ _ _ _ _ _ _ Hf) as Hlen.
  split; [exact Hlen|]. revert Hf. unfold summary_figures, per_rec.
  rewrite (proj2 (Nat.ltb_lt _ _) Hlen), py_div_positive by exact Hlen.
  simpl. rewrite !percent_defined by exact Hlen. simpl.
  destruct (percents (value_counts String.eqb ai_category) df) as [cs|e];
    simpl; [|discriminate].
  destruct (percents (value_counts String.eqb ai_urgency) df) as [us|e];
    simpl; [|discriminate].
  intros H. injection H as <-. simpl. repeat split; reflexivity.
Qed.



(** ** The shares of a distribution *)

Lemma total_count_perm {A} (s s' : list (A * nat)) :
  Permutation s s' -> total_count s = total_count s'.
Proof.
  induction 1 as [|x l l' _ IH|x y l|l l' l'' _ IH1 _ IH2]; simpl; lia.
Qed.

Lemma total_count_bump {A} (eqb : A -> A -> bool) (x : A) (acc : list (A * nat)) :
  total_count (bump eqb x acc) = S (total_count acc).
Proof.
  induction acc as [|[y c] acc IH]; simpl; [reflexivity|].
  destruct (eqb x y); simpl; [reflexivity|]. rewrite IH. lia.
Qed.

Lemma total_count_tally {A} (eqb : A -> A -> bool) (xs : list A)
  (acc : list (A * nat)) :
  total_count (fold_left (fun acc x => bump eqb x acc) xs acc)
  = (length xs + total_count acc)%nat.
Proof.
  revert acc. induction xs as [|x xs IH]; intros acc; simpl; [reflexivity|].
  rewrite IH, total_count_bump. lia.
Qed.

Lemma insert_by_count_permutation {A} (e : A * nat) (s : list (A * nat)) :
  Permutation (insert_by_count e s) (e :: s).
Proof.
  induction s as [|h t IH]; simpl; [reflexivity|].
  destruct (snd e <? snd h)%nat; [|reflexivity].
  rewrite IH. apply perm_swap.
Qed.

Lemma value_counts_permutation {A} (eqb : A -> A -> bool) (xs : list A) :
  Permutation (value_counts eqb xs) (tally eqb xs).
Proof.
  unfold value_counts. induction (tally eqb xs) as [|e s IH]; simpl.
  - reflexivity.
  - rewrite insert_by_count_permutation, IH. reflexivity.
Qed.

Lemma total_count_value_counts {A} (eqb : A -> A -> bool) (xs : list A) :
  total_count (value_counts eqb xs) = length xs.
Proof.
  rewrite (total_count_perm _ _ (value_counts_permutation eqb xs)).
  unfold tally. rewrite total_count_tally. simpl. lia.
Qed.

Lemma percents_total {A} (counts : list (A * nat)) (df : frame)
  (ps : list (A * Q)) :
  (0 < len df)%nat -> percents counts df = Return ps ->
  map fst ps = map fst counts
  /\ (total_share ps
      == Q_of_nat (total_count counts) / Q_of_nat (len df) * 100)%Q.
Proof.
  intros Hlen. revert ps. induction counts as [|[k c] rest IH]; intros ps; simpl.
  - intros H. injection H as <-. split; [reflexivity|]. simpl.
    unfold Q_of_nat. simpl. unfold Qdiv. rewrite !Qmult_0_l. reflexivity.
  - rewrite percent_defined by exact Hlen. simpl.
    destruct (percents rest df) as [qs|e]; simpl; [|discriminate].
    intros H. injection H as <-. destruct (IH qs eq_refl) as [Hk Ht].
    split; [simpl; rewrite Hk; reflexivity|].
    simpl. rewrite Ht. apply share_add, Hlen.
Qed.



(* ===================================================================== *)
(** * Further properties: the speed *)
(* ===================================================================== *)

Lemma handle_data_proc_time (lib : library) (w : world) (data : value)
  (ss : session_state) (df : frame) :
  results ss = None ->
  results (snd (fst (handle_data lib w data ss))) = Some df ->
  (0 < len df)%nat
  /\ proc_time (snd (fst (handle_data lib w data ss)))
     = (time_end w - time_start w)%Q.
Proof.
  intros Hnone. unfold handle_data.
  destruct (parse_response lib data) as [evs [[[t|] outs]|exc]]; simpl;
    try congruence.
  destruct (0 <? len t)%nat eqn:Hlen; simpl; [|congruence].
  destruct (has_column "ai_severity_score" t); simpl; [|congruence].
  intros H. injection H as <-. split; [apply Nat.ltb_lt, Hlen | reflexivity].
Qed.

Lemma analysis_proc_time (lib : library) (w : world) (inp : widgets)
  (ss : session_state) (df : frame) :
  results ss = None ->
  results (snd (fst (analysis lib w inp ss))) = Some df ->
  (0 < len df)%nat
  /\ proc_time (snd (fst (analysis lib w inp ss)))
     = (time_end w - time_start w)%Q.
Proof.
  intros Hnone. unfold analysis.
  destruct (trigger_workflow w ss (records inp)) as [trace [result|e]]; simpl;
    [|congruence].
  destruct (result !! "ok") as [ok|]; simpl; [|congruence].
  destruct (truthy ok).
  - destruct (result !! "data") as [data|]; simpl; [|congruence].
    pose proof (handle_data_proc_time lib w data ss df Hnone) as H.
    destruct (handle_data lib w data ss) as [[after ss'] e]. exact H.
  - destruct (result !! "error"); simpl; congruence.
Qed.



(* ===================================================================== *)
(** * Further properties: responses without records *)
(* ===================================================================== *)

Lemma scalars_are_not_dicts (l : list value) :
  l <> [] -> forallb is_scalar l = true -> forallb is_dict l = false.
Proof.
  destruct l as [|x l]; [congruence|]. intros _. simpl.
  destruct x; simpl; try reflexivity; discriminate.
Qed.

Lemma has_column_single (name : string) (d : list (string * value)) :
  has_column name (frame_of_records [d]) = dict_has name d.
Proof.
  unfold dict_has.
  destruct (dict_get name d) as [v|] eqn:Hget.
  - apply has_column_records. exists d. split; [left; reflexivity|].
    apply dict_get_In. eauto.
  - apply not_true_is_false. intros H.
    apply has_column_records in H as (r & [<-|[]] & Hk).
    apply dict_get_In in Hk as [v Hv]. congruence.
Qed.

(** X16. What the script does with a successful response that carries no
    list of records. An empty list gives "No data". A list of bare values
    (numbers, texts, nulls) gives a table of one column labelled 0, which
    never has the column of the severity: the error "Missing AI analysis
    columns!" is shown with that table and the run is stopped. A single
    object without the key "records" is taken as one record: it is stored
    as a table of one row, with empty metadata, when it has the key
    "ai_severity_score", and is refused with the same error otherwise. In
    the three refusals the session is left as it was. *)
Theorem response_without_records (lib : library) (w : world)
  (ss : session_state) :
  handle_data lib w (VList []) ss = (no_data, ss, Completed)
  /\ (forall l, l <> [] -> forallb is_scalar l = true ->
        handle_data lib w (VList l) ss
        = (shown [UError "⚠️ Missing AI analysis columns!";
                  UWriteColumns [LInt 0]; UDataframe (frame_of_scalars l)],
           ss, Stopped))
  /\ (forall d, dict_get "records" d = None ->
        handle_data lib w (VDict d) ss
        = if dict_has "ai_severity_score" d
          then (shown [UProgress 100; UStatus "✅ Complete!"],
                store (time_end w - time_start w)%Q (frame_of_records [d])
                      (VDict []) ss,
                Rerun)
          else (shown [UError "⚠️ Missing AI analysis columns!";
                       UWriteColumns (columns (frame_of_records [d]));
                       UDataframe (frame_of_records [d])],
                ss, Stopped)).
Proof.
  split; [reflexivity|]. split.
  - intros l Hne Hsc. unfold handle_data, parse_response, parse_response_body.
    cbn -[forallb frame_of_scalars]. rewrite (scalars_are_not_dicts l Hne Hsc), Hsc.
    destruct l as [|x l]; [congruence|]. reflexivity.
  - intros d Hrec. unfold handle_data, parse_response, parse_response_body.
    cbn -[frame_of_records has_column]. rewrite Hrec.
    cbn -[frame_of_records has_column].
    rewrite has_column_single.
    destruct (dict_has "ai_severity_score" d); reflexivity.
Qed.

(* ===================================================================== *)
(** * Further properties: the columns the renderer reads *)
(* ===================================================================== *)

Lemma column_index_spec (c : label) (cols : list label) :
  match column_index c cols with
  | Some j => nth_error cols j = Some c /\ (j < length cols)%nat
  | None => existsb (label_eqb c) cols = false
  end.
Proof.
  induction cols as [|c' t IH]; simpl; [reflexivity|].
  destruct (label_eqb c c') eqn:Heq.
  - apply label_eqb_eq in Heq. subst. simpl. split; [reflexivity | lia].
  - destruct (column_index c t) as [j|]; simpl.
    + destruct IH as [H1 H2]. split; [exact H1 | lia].
    + exact IH.
Qed.

Lemma getitem_missing (name : string) (df : frame) :
  has_column name df = false -> getitem name df = Raise (key_error name).
Proof.
  intros H. unfold getitem.
  pose proof (column_index_spec (LStr name) (columns df)) as Hspec.
  destruct (column_index (LStr name) (columns df)) as [j|]; [|reflexivity].
  destruct Hspec as [Hj _]. apply nth_error_In in Hj.
  apply has_column_In in Hj. congruence.
Qed.

Lemma getitem_present (name : string) (df : frame) :
  has_column name df = true -> exists col, getitem name df = Return col.
Proof.
  intros H. unfold getitem.
  pose proof (column_index_spec (LStr name) (columns df)) as Hspec.
  destruct (column_index (LStr name) (columns df)) as [j|]; [eauto|].
  unfold has_column in H. congruence.
Qed.

Lemma parse_response_records (lib : library)
  (recs : list (list (string * value))) :
  parse_response lib (VList (map VDict recs))
  = ([], Return (Some (frame_of_records recs), VDict [])).
Proof.
  unfold parse_response, parse_response_body. cbn -[DataFrame].
  rewrite DataFrame_records.
  - rewrite map_map. simpl. rewrite map_id. reflexivity.
  - induction recs; simpl; auto.
Qed.

Lemma no_record_no_column (name : string) (recs : list (list (string * value))) :
  (forall r, In r recs -> ~ In name (map fst r)) ->
  has_column name (frame_of_records recs) = false.
Proof.
  intros Hnone. apply not_true_is_false. intros H.
  apply has_column_records in H as (r & Hr & Hk). exact (Hnone r Hr Hk).
Qed.

(** X17. The validation of line 227 asks for one column only, and the
    renderer reads others without a test. A response whose records carry
    a severity is stored; if none of its records has the field
    "ai_urgency", line 362 of the renderer raises [KeyError] on the stored
    table, and if none has the field "source", the source box of line 264
    is skipped but line 418 raises [KeyError]. *)
Theorem stored_table_can_fail_to_render (lib : library) (w : world)
  (inp : widgets) (ss : session_state) (recs : list (list (string * value))) :
  start_analysis inp = false -> analyzing_now ss = true ->
  snd (trigger_workflow w (with_n8n_url (in_n8n_url inp) ss) (records inp))
  = Return (succeeded (VList (map VDict recs))) ->
  (exists r, In r recs /\ In "ai_severity_score" (map fst r)) ->
  let df := frame_of_records recs in
  results (after_run lib w inp ss) = Some df
  /\ ((forall r, In r recs -> ~ In "ai_urgency" (map fst r)) ->
      exists e, urgent_df df = Raise e /\ exn_type e = KeyError)
  /\ ((forall r, In r recs -> ~ In "source" (map fst r)) ->
      source_box df = None
      /\ exists e, pubmed_df df = Raise e /\ exn_type e = KeyError).
Proof.
  intros Hstart Hnow Htr Hscore df. subst df. split; [|split].
  - unfold after_run. rewrite (script_analyzing lib w inp ss Hstart Hnow).
    destruct (analysis_on_data lib w inp _ _ Htr) as [before ->]. simpl.
    unfold handle_data. rewrite parse_response_records.
    assert (Hlen : (0 <? len (frame_of_records recs))%nat = true).
    { apply Nat.ltb_lt. destruct Hscore as (r & Hr & _).
      unfold len, frame_of_records. simpl. rewrite length_map.
      destruct recs; [destruct Hr | simpl; lia]. }
    rewrite Hlen.
    rewrite (proj2 (has_column_records "ai_severity_score" recs) Hscore).
    reflexivity.
  - intros Hnone. unfold urgent_df.
    rewrite (getitem_missing _ _ (no_record_no_column _ _ Hnone)).
    eexists. split; reflexivity.
  - intros Hnone. pose proof (no_record_no_column _ _ Hnone) as Hcol.
    split.
    + unfold source_box. rewrite Hcol. reflexivity.
    + unfold pubmed_df. rewrite (getitem_missing _ _ Hcol).
      eexists. split; reflexivity.
Qed.

Lemma stored_table_can_fail_to_render_witness :
  let df := frame_of_records [[("ai_severity_score", VInt 3)]] in
  results (after_run RefCodec.lib MoreExamples.score_only
                     (Examples.idle_widgets 10) Examples.started) = Some df
  /\ exists e, urgent_df df = Raise e /\ exn_type e = KeyError.
Proof.
  intros df.
  destruct (stored_table_can_fail_to_render RefCodec.lib
              MoreExamples.score_only (Examples.idle_widgets 10)
              Examples.started [[("ai_severity_score", VInt 3)]]
              eq_refl eq_refl eq_refl
              (ex_intro _ [("ai_severity_score", VInt 3)]
                 (conj (or_introl eq_refl) (or_introl eq_refl))))
    as (H1 & H2 & _).
  split; [exact H1|]. apply H2.
  intros r [<-|[]] [H|[]]. discriminate.
Defined.

(* ===================================================================== *)
(** * Further properties: the table of results *)
(* ===================================================================== *)

Lemma missing_none (names : list string) (df : frame) :
  List.filter (fun n => negb (has_column n df)) names = []
  <-> forallb (fun c => has_column c df) names = true.
Proof.
  induction names as [|n names IH]; simpl; [tauto|].
  destruct (has_column n df); simpl; [exact IH|].
  split; discriminate.
Qed.

Lemma cell_of_column (df : frame) (r : list value) (c : string) :
  well_formed df -> In r (rows df) -> has_column c df = true ->
  exists j v, column_index (LStr c) (columns df) = Some j
              /\ nth_error r j = Some v.
Proof.
  intros (_ & _ & Hrows) Hr Hc.
  pose proof (column_index_spec (LStr c) (columns df)) as Hspec.
  destruct (column_index (LStr c) (columns df)) as [j|].
  - destruct Hspec as [_ Hj]. rewrite List.Forall_forall in Hrows.
    rewrite <- (Hrows r Hr) in Hj.
    destruct (nth_error r j) as [v|] eqn:Hv; [eauto|].
    apply nth_error_None in Hv. lia.
  - unfold has_column in Hc. congruence.
Qed.

(** X18. The table of results is made of six columns of the stored
    table, under new headers: ID, Severity, Category, Urgency, Action,
    Confidence, in this order. When the stored table has the six columns,
    the table of results has as many rows, and the cell of a row under a
    header is the cell of that row in the column the header stands for;
    when one of the six is absent, [KeyError] is raised. *)
Theorem results_table_columns (not_in_index : list string -> string)
  (df : frame) :
  (forallb (fun c => has_column c df) TABLE_COLUMNS = true ->
   exists table,
     results_table not_in_index df = Return table
     /\ columns table = map LStr TABLE_HEADERS
     /\ len table = len df
     /\ (well_formed df ->
         forall i c h, In (c, h) (combine TABLE_COLUMNS TABLE_HEADERS) ->
                       cell table i (LStr h) = cell df i (LStr c)))
  /\ (forallb (fun c => has_column c df) TABLE_COLUMNS = false ->
      exists e, results_table not_in_index df = Raise e
                /\ exn_type e = KeyError).
Proof.
  unfold results_table, take_columns. split.
  - intros Hall. rewrite (proj2 (missing_none TABLE_COLUMNS df) Hall).
    eexists. split; [reflexivity|]. split; [reflexivity|]. split.
    + unfold len. simpl. apply length_map.
    + intros Hwf i c h Hin. unfold cell. cbn [rows columns].
      rewrite nth_error_map.
      destruct (nth_error (rows df) i) as [r|] eqn:Hr; [|reflexivity].
      apply nth_error_In in Hr.
      assert (Hc : has_column c df = true).
      { rewrite forallb_forall in Hall. apply Hall.
        apply in_combine_l in Hin. exact Hin. }
      destruct (cell_of_column df r c Hwf Hr Hc) as (j & v & Hj & Hv).
      unfold TABLE_COLUMNS, TABLE_HEADERS in Hin. simpl in Hin.
      destruct Hin as [H|[H|[H|[H|[H|[H|[]]]]]]]; injection H as <- <-;
        simpl; rewrite Hj, Hv; reflexivity.
  - intros Hsome.
    destruct (List.filter (fun n => negb (has_column n df)) TABLE_COLUMNS)
      as [|m ms] eqn:Hmiss.
    + apply missing_none in Hmiss. congruence.
    + eexists. split; reflexivity.
Qed.

Lemma results_table_columns_witness :
  exists table,
    results_table (fun _ => "not in index") MoreExamples.seven_table
    = Return table
    /\ columns table = map LStr TABLE_HEADERS
    /\ len table = len MoreExamples.seven_table.
Proof.
  destruct (proj1 (results_table_columns (fun _ => "not in index")
                     MoreExamples.seven_table) eq_refl)
    as (table & H1 & H2 & H3 & _).
  exists table. auto.
Defined.

(* ===================================================================== *)
(** * Further properties: the connection check *)
(* ===================================================================== *)

(** X19. The connection check of the sidebar asks the address
    "<base>/healthz" with a timeout of 5 seconds, where <base> is the base
    URL without its trailing slashes, the same base the webhook address is
    built on. It reports "n8n Online" whenever the request returns a
    response, whatever its status, and the warning with its caption
    whenever the request raises, whatever the exception: nothing leaves
    the check. *)
Theorem connection_check_outcomes
  (requests_get : get_request -> result response) (n8n_url : string) :
  let req := healthz_request n8n_url in
  get_timeout req = 5
  /\ (exists base,
        get_url req = base ++ "/healthz"
        /\ ends_with "/" base = false
        /\ forall ss,
             get_n8n_url (with_n8n_url n8n_url ss) = base ++ "/" ++ WEBHOOK_PATH)
  /\ (forall r, requests_get req = Return r ->
        connection_check requests_get n8n_url = [SSuccess "✅ n8n Online"])
  /\ (forall e, requests_get req = Raise e ->
        connection_check requests_get n8n_url
        = [SWarning "⚠️ n8n may be sleeping";
           SCaption "It will wake up when you start analysis"]).
Proof.
  intros req. subst req. split; [reflexivity|]. split; [|split].
  - exists (PyStr.rstrip_by (Ascii.eqb "/") n8n_url).
    split; [reflexivity|]. split; [apply rstrip_by_no_end | reflexivity].
  - intros r Hr. unfold connection_check. rewrite Hr. reflexivity.
  - intros e He. unfold connection_check. rewrite He. reflexivity.
Qed.
